(** * photo-watermark: the EXIF date watermarker, [exif_watermarker_min.py]

    A shallow embedding of the functions of [exif_watermarker_min.py] and
    the properties its specification states about them.

    Conventions of the embedding.
    - A Python [str] is a Rocq [string], one [ascii] per code point: the
      model covers the code points below 256.  The library functions used
      by the program ([str.strip], [str.split], [str.replace],
      [str.lower], [int], [float]) are written out for that range, from
      the CPython implementation.  Text decoded from the bytes of a
      metadata field can hold any code point; one from U+0100 on is kept
      as a character of the same kind (white space, decimal digit of the
      same value, or neither, see [represent]), which is all that the
      program can tell of it.
    - The library is CPython 3.11 on the GNU C library: [strftime]
      writes a year below 1000 without leading zeros, a modification
      time is a binary64 number of seconds that [datetime.fromtimestamp]
      rounds to microseconds, and the dates of [datetime] are those of
      the years 1 to 9999.
    - Writing to the standard output is a call of the outside like any
      other and can raise (an encoding without the character, a closed
      stream): [print] is fallible.
    - A Python call that may raise returns a [result]; [try ... except
      Exception] is [try_except].  Only subclasses of [Exception] are
      modelled ([KeyboardInterrupt] and [SystemExit] are not).
    - Integers are [Z] (Python integers are unbounded); floats are the
      binary64 instances of [SpecFloat].
    - What the program reads from the outside (metadata libraries, file
      system, imaging library) is a [World] record of total functions. *)

From stdpp Require Import gmap strings.
From Stdlib Require Import ZArith String Ascii List Bool Lia SpecFloat DecimalString ZifyBool.
Import ListNotations.

Local Open Scope string_scope.
Local Open Scope Z_scope.

(* ===================================================================== *)
(** ** Exceptions and fallible computations                              *)
(* ===================================================================== *)

Inductive exn : Type :=
| ValueError
| TypeError
| IndexError
| OverflowError
| AttributeError
| UnicodeDecodeError
| UnicodeEncodeError
| OSError
| InvalidImageDataError.

Inductive result (A : Type) : Type :=
| Ok (a : A)
| Raise (e : exn).

Arguments Ok {A} a.
Arguments Raise {A} e.

Definition rbind {A B : Type} (c : result A) (k : A -> result B) : result B :=
  match c with
  | Ok a => k a
  | Raise e => Raise e
  end.

(** [try: c except Exception: h] *)
Definition try_except {A : Type} (c : result A) (h : exn -> result A) : result A :=
  match c with
  | Ok a => Ok a
  | Raise e => h e
  end.

Definition returns {A : Type} (c : result A) : Prop := exists a, c = Ok a.

Definition is_ok {A : Type} (c : result A) : bool :=
  match c with Ok _ => true | Raise _ => false end.

Notation "x <- c ;; k" := (rbind c (fun x => k))
  (at level 100, c at next level, right associativity).

(* ===================================================================== *)
(** ** Python values that reach the program                              *)
(* ===================================================================== *)

(** The values a metadata field can hold: [None], text, a byte string or
    an integer. *)
Inductive pyval : Type :=
| VNone
| VStr (s : string)
| VBytes (b : string)
| VInt (n : Z).

(** [bool(v)] *)
Definition truthy (v : pyval) : bool :=
  match v with
  | VNone => false
  | VStr s => negb (String.eqb s "")
  | VBytes b => negb (String.eqb b "")
  | VInt n => negb (n =? 0)
  end.

(** [isinstance(v, str)] *)
Definition isinstance_str (v : pyval) : bool :=
  match v with VStr _ => true | _ => false end.

(** [isinstance(v, (bytes, bytearray))] *)
Definition isinstance_bytes (v : pyval) : bool :=
  match v with VBytes _ => true | _ => false end.

(* ===================================================================== *)
(** ** The string library                                                *)
(* ===================================================================== *)

Definition code (c : ascii) : Z := Z.of_N (N_of_ascii c).

Definition chr (n : Z) : ascii := ascii_of_N (Z.to_N n).

(** [str.isspace] on one character ([Py_UNICODE_ISSPACE]): the white
    space of Unicode below 256. *)
Definition Py_UNICODE_ISSPACE (c : ascii) : bool :=
  let n := code c in
  ((9 <=? n) && (n <=? 13)) || ((28 <=? n) && (n <=? 32)) || (n =? 133) || (n =? 160).

(** The C locale's [isspace], used by the number parsers ([Py_ISSPACE]). *)
Definition Py_ISSPACE (c : ascii) : bool :=
  let n := code c in
  ((9 <=? n) && (n <=? 13)) || (n =? 32).

(** [Py_ISDIGIT]: the ten ASCII digits. *)
Definition Py_ISDIGIT (c : ascii) : bool := (48 <=? code c) && (code c <=? 57).

Fixpoint lstrip (s : string) : string :=
  match s with
  | String c s' => if Py_UNICODE_ISSPACE c then lstrip s' else s
  | EmptyString => EmptyString
  end.

Fixpoint rstrip (s : string) : string :=
  match s with
  | EmptyString => EmptyString
  | String c s' =>
      match rstrip s' with
      | EmptyString => if Py_UNICODE_ISSPACE c then EmptyString else String c EmptyString
      | r => String c r
      end
  end.

(** [s.strip()] *)
Definition strip (s : string) : string := rstrip (lstrip s).

(** The first field of [s] cut at [sep], and the fields after it. *)
Fixpoint fields (sep : ascii) (s : string) : string * list string :=
  match s with
  | EmptyString => (EmptyString, [])
  | String c s' =>
      let (h, t) := fields sep s' in
      if Ascii.eqb c sep then (EmptyString, h :: t) else (String c h, t)
  end.

(** [s.split(sep)] for a separator of one character. *)
Definition split (sep : ascii) (s : string) : list string :=
  let (h, t) := fields sep s in h :: t.

Fixpoint replace (old new : ascii) (s : string) : string :=
  match s with
  | EmptyString => EmptyString
  | String c s' => String (if Ascii.eqb c old then new else c) (replace old new s')
  end.

(** [l[i]] for [0 <= i]. *)
Definition getitem {A : Type} (l : list A) (i : nat) : result A :=
  match nth_error l i with
  | Some a => Ok a
  | None => Raise IndexError
  end.

(** [l[0:n]] *)
Definition slice_to {A : Type} (l : list A) (n : nat) : list A := firstn n l.

(** [a, b, c = l] *)
Definition unpack3 {A : Type} (l : list A) : result (A * A * A) :=
  match l with
  | [a; b; c] => Ok (a, b, c)
  | _ => Raise ValueError
  end.

(** [str.lower] on one character: the letters with a lower case below
    256 are A-Z and U+00C0-U+00DE except the multiplication sign. *)
Definition lower_char (c : ascii) : ascii :=
  let n := code c in
  if ((65 <=? n) && (n <=? 90)) || ((192 <=? n) && (n <=? 222) && negb (n =? 215))
  then chr (n + 32) else c.

Fixpoint lower (s : string) : string :=
  match s with
  | EmptyString => EmptyString
  | String c s' => String (lower_char c) (lower s')
  end.

Definition startswith (s p : string) : bool := String.prefix p s.

Definition len (s : string) : Z := Z.of_nat (String.length s).

(** [s[i:j]] for [0 <= i <= j]. *)
Definition str_slice (s : string) (i j : nat) : string := String.substring i (j - i) s.

(* --------------------------------------------------------------------- *)
(** *** [int(s, base)]                                                   *)
(* --------------------------------------------------------------------- *)

(** [_PyLong_DigitValue]: 37 marks a character that is no digit. *)
Definition PyLong_DigitValue (c : ascii) : Z :=
  let n := code c in
  if (48 <=? n) && (n <=? 57) then n - 48
  else if (97 <=? n) && (n <=? 122) then n - 87
  else if (65 <=? n) && (n <=? 90) then n - 55
  else 37.

Definition underscore : ascii := "_"%char.

(** The digit loop of [long_from_string_base]: digits below [base] and
    single underscores between them; it stops at the first other
    character and returns the value with the rest of the text. *)
Fixpoint long_scan (base acc : Z) (prev : ascii) (s : string) : option (Z * string) :=
  match s with
  | String c s' =>
      if Ascii.eqb c underscore then
        if Ascii.eqb prev underscore then None else long_scan base acc c s'
      else if PyLong_DigitValue c <? base then
        long_scan base (acc * base + PyLong_DigitValue c) c s'
      else if Ascii.eqb prev underscore then None else Some (acc, s)
  | EmptyString => if Ascii.eqb prev underscore then None else Some (acc, s)
  end.

Fixpoint skip_ISSPACE (s : string) : string :=
  match s with
  | String c s' => if Py_ISSPACE c then skip_ISSPACE s' else s
  | EmptyString => EmptyString
  end.

(** [_PyUnicode_TransformDecimalAndSpaceToASCII]: an ASCII string is left
    alone; otherwise white space from 127 on becomes a blank and what is
    no decimal digit becomes a question mark. *)
Fixpoint is_ascii (s : string) : bool :=
  match s with
  | EmptyString => true
  | String c s' => (code c <? 128) && is_ascii s'
  end.

Definition transform_char (c : ascii) : ascii :=
  if code c <? 127 then c
  else if Py_UNICODE_ISSPACE c then " "%char
  else "?"%char.

Fixpoint transform_all (s : string) : string :=
  match s with
  | EmptyString => EmptyString
  | String c s' => String (transform_char c) (transform_all s')
  end.

Definition TransformDecimalAndSpaceToASCII (s : string) : string :=
  if is_ascii s then s else transform_all s.

(** [PyLong_FromString] after the sign: the radix prefix, the digits, the
    trailing white space. *)
Definition long_body (base : Z) (s : string) : option Z :=
  let s1 :=
    match s with
    | String "0" (String x r) =>
        if (base =? 16) && (Ascii.eqb x "x" || Ascii.eqb x "X") then
          match r with
          | String "_" r' => r'
          | _ => r
          end
        else s
    | _ => s
    end in
  match s1 with
  | String c _ =>
      if Ascii.eqb c underscore then None
      else if PyLong_DigitValue c <? base then
        match long_scan base 0 "000"%char s1 with
        | Some (v, rest) =>
            match skip_ISSPACE rest with
            | EmptyString => Some v
            | _ => None
            end
        | None => None
        end
      else None
  | EmptyString => None
  end.

Definition PyLong_FromString (base : Z) (s : string) : option Z :=
  match skip_ISSPACE s with
  | String "+" r => long_body base r
  | String "-" r => option_map Z.opp (long_body base r)
  | r => long_body base r
  end.

(** [int(s, base)] for a text [s] and a base of 10 or 16. *)
Definition py_int (s : string) (base : Z) : result Z :=
  match PyLong_FromString base (TransformDecimalAndSpaceToASCII s) with
  | Some v => Ok v
  | None => Raise ValueError
  end.

(* ===================================================================== *)
(** ** [datetime]                                                        *)
(* ===================================================================== *)

Record datetime : Type := mk_datetime { dt_year : Z; dt_month : Z; dt_day : Z }.

Definition is_leap (y : Z) : bool :=
  (y mod 4 =? 0) && (negb (y mod 100 =? 0) || (y mod 400 =? 0)).

Definition days_in_month (y m : Z) : Z :=
  if m =? 2 then (if is_leap y then 29 else 28)
  else if (m =? 4) || (m =? 6) || (m =? 9) || (m =? 11) then 30
  else 31.

Definition MINYEAR : Z := 1.
Definition MAXYEAR : Z := 9999.

(** A real calendar date, as the [datetime] type understands it. *)
Definition valid_date (y m d : Z) : bool :=
  (MINYEAR <=? y) && (y <=? MAXYEAR) && (1 <=? m) && (m <=? 12)
  && (1 <=? d) && (d <=? days_in_month y m).

Definition fits_C_int (n : Z) : bool := (- 2 ^ 31 <=? n) && (n <? 2 ^ 31).

(** [datetime(y, m, d)]: the arguments must fit a C [int] and form a date
    of the years 1 to 9999. *)
Definition datetime_new (y m d : Z) : result datetime :=
  if negb (fits_C_int y && fits_C_int m && fits_C_int d) then Raise OverflowError
  else if valid_date y m d then Ok (mk_datetime y m d)
  else Raise ValueError.

Definition digit_char (n : Z) : ascii := chr (48 + n mod 10).

(** The decimal digits of [n], padded with zeros to the width [w]. *)
Fixpoint zfill (w : nat) (n : Z) : string :=
  match w with
  | O => EmptyString
  | S w' => String (digit_char (n / 10 ^ Z.of_nat w')) (zfill w' n)
  end.

(** The decimal digits of a year from 0 to 9999, without leading zeros. *)
Definition year_digits (y : Z) : string :=
  if y <? 10 then zfill 1 y
  else if y <? 100 then zfill 2 y
  else if y <? 1000 then zfill 3 y
  else zfill 4 y.

(** [dt.strftime("%Y-%m-%d")]: the text comes from [strftime] of the C
    library, here glibc, which writes the year in decimal without
    padding (5 for the year 5) and month and day on two digits. *)
Definition strftime_Ymd (dt : datetime) : string :=
  year_digits (dt_year dt) ++ "-" ++ zfill 2 (dt_month dt) ++ "-" ++ zfill 2 (dt_day dt).

(* ===================================================================== *)
(** ** [format_exif_raw]                                                 *)
(* ===================================================================== *)

Definition format_exif_raw (raw : pyval) : result (option string) :=
  if negb (truthy raw) || negb (isinstance_str raw) then Ok None
  else
    match raw with
    | VStr raw =>
        date_part <- getitem (split " " (strip raw)) 0 ;;
        let parts := split ":" (replace "-" ":" date_part) in
        if (3 <=? length parts)%nat then
          try_except
            (ymd <- unpack3 (slice_to parts 3) ;;
             let '(y, m, d) := ymd in
             y' <- py_int y 10 ;;
             m' <- py_int m 10 ;;
             d' <- py_int d 10 ;;
             dt <- datetime_new y' m' d' ;;
             Ok (Some (strftime_Ymd dt)))
            (fun _ => Ok None)
        else Ok None
    | _ => Ok None
    end.

(* ===================================================================== *)
(** ** [parse_color]                                                     *)
(* ===================================================================== *)

Definition rgb : Type := (Z * Z * Z)%type.

Definition white : rgb := (255, 255, 255).

Definition names : gmap string rgb :=
  list_to_map
    [ ("white", (255, 255, 255));
      ("black", (0, 0, 0));
      ("red", (255, 0, 0));
      ("yellow", (255, 255, 0));
      ("blue", (0, 0, 255));
      ("green", (0, 128, 0)) ].

(** [s or ""] for a text [s]. *)
Definition or_empty (s : string) : string :=
  if String.eqb s "" then "" else s.

Definition parse_color (s : string) : result rgb :=
  let s := strip (or_empty s) in
  if startswith s "#" && (len s =? 7) then
    r <- py_int (str_slice s 1 3) 16 ;;
    g <- py_int (str_slice s 3 5) 16 ;;
    b <- py_int (str_slice s 5 7) 16 ;;
    Ok (r, g, b)
  else Ok (default white (names !! lower s)).

(* ===================================================================== *)
(** ** [calc_pos]                                                        *)
(* ===================================================================== *)

Definition default_margin : Z := 10.

(** Python's [//] on integers is the floor division, [Z.div]. *)
Definition calc_pos (pos_name : string) (img_size text_size : Z * Z) (margin : Z) : Z * Z :=
  let '(iw, ih) := img_size in
  let '(tw, th) := text_size in
  if String.eqb pos_name "top-left" then (margin, margin)
  else if String.eqb pos_name "top-right" then (iw - tw - margin, margin)
  else if String.eqb pos_name "bottom-left" then (margin, ih - th - margin)
  else if String.eqb pos_name "center" then ((iw - tw) / 2, (ih - th) / 2)
  else (iw - tw - margin, ih - th - margin).

(* ===================================================================== *)
(** ** [_measure_text]                                                   *)
(* ===================================================================== *)

(** The font handle: [font.getsize(text)]. *)
Record Font : Type := {
  font_getsize : string -> result (Z * Z)
}.

(** The drawing context: [draw.textbbox((0,0), text, font=font)],
    [draw.textsize(text, font=font)] and [draw.text(xy, text, font=font,
    fill=fill)], which fails with an exception or succeeds. *)
Record Draw : Type := {
  draw_textbbox : Z * Z -> string -> Font -> result (Z * Z * Z * Z);
  draw_textsize : string -> Font -> result (Z * Z);
  draw_text : Z * Z -> string -> Font -> rgb -> result unit
}.

Definition _measure_text (draw : Draw) (text : string) (font : Font) : result (Z * Z) :=
  let tier3 :=
    try_except (draw_textsize draw text font)
               (fun _ => Ok (len text * 8, 16)) in
  let tier2 :=
    try_except (font_getsize font text) (fun _ => tier3) in
  try_except
    (bbox <- draw_textbbox draw (0, 0) text font ;;
     let '(x0, y0, x1, y1) := bbox in
     let w := x1 - x0 in
     let h := y1 - y0 in
     Ok (w, h))
    (fun _ => tier2).

(* ===================================================================== *)
(** ** The outside world                                                 *)
(* ===================================================================== *)

(** An image opened by the imaging library: [img._getexif()] (a
    dictionary from tag numbers to values, or [None]) and [img.size]. *)
Record PilImage : Type := {
  img_getexif : result (option (gmap Z pyval));
  img_size : Z * Z
}.

(** What [process_image] prints. *)
Inductive message : Type :=
| MsgSkipped (path : string)
| MsgSaved (out_path : string)
| MsgError (path : string) (e : exn).

Record World : Type := {
  (** the metadata library was imported *)
  HAVE_PIEXIF : bool;
  (** [piexif.load(path)]: a dictionary of directories *)
  piexif_load : string -> result (gmap string (gmap Z pyval));
  (** [ExifTags.TAGS.items()], in the dictionary's order *)
  ExifTags_TAGS : list (Z * string);
  (** [Image.open(path)] *)
  Image_open : string -> result PilImage;
  (** [os.path.getmtime(path)]: a float, the seconds since the epoch *)
  os_path_getmtime : string -> result spec_float;
  (** the offset of local time from UTC at an instant, in seconds: what
      [localtime] of the C library adds to the instant *)
  utc_offset : Z -> Z;
  (** [print(line)]: writing a line to the standard output fails when
      the stream cannot encode the line ([UnicodeEncodeError]) or cannot
      be written ([OSError]) *)
  builtin_print : message -> result unit;
  (** [im.convert(mode)] *)
  Image_convert : PilImage -> string -> result PilImage;
  (** [os.path.isfile(path)] *)
  os_path_isfile : string -> bool;
  (** [ImageFont.truetype(path, size)] and [ImageFont.load_default()] *)
  ImageFont_truetype : string -> Z -> result Font;
  ImageFont_load_default : result Font;
  (** [ImageDraw.Draw(im)] *)
  ImageDraw_Draw : PilImage -> result Draw;
  (** [os.path.basename], [os.path.splitext], [os.path.join] *)
  os_path_basename : string -> string;
  os_path_splitext : string -> string * string;
  os_path_join : string -> string -> string;
  (** [os.makedirs(dir, exist_ok=True)] *)
  os_makedirs : string -> result unit;
  (** [im.save(path)] and [im.save(path, quality=q)] *)
  Image_save : PilImage -> string -> option Z -> result unit
}.

(* ===================================================================== *)
(** ** The metadata tiers                                                *)
(* ===================================================================== *)

(** [piexif.ExifIFD.DateTimeOriginal] and [piexif.ImageIFD.DateTime]. *)
Definition ExifIFD_DateTimeOriginal : Z := 36867.
Definition ImageIFD_DateTime : Z := 306.

(** The white space of Unicode from U+0100 on ([str.isspace]). *)
Definition high_space (cp : Z) : bool :=
  (cp =? 5760) || ((8192 <=? cp) && (cp <=? 8202)) || (cp =? 8232) || (cp =? 8233)
  || (cp =? 8239) || (cp =? 8287) || (cp =? 12288).

(** The decimal digits of Unicode from U+0100 on (Unicode 14, the
    version of the character database of CPython 3.11): each number is
    the code point of a digit zero, and the nine code points after it
    are the digits one to nine of the same script. *)
Definition decimal_zeros : list Z :=
  [ 1632; 1776; 1984; 2406; 2534; 2662; 2790; 2918; 3046; 3174; 3302; 3430; 3558;
    3664; 3792; 3872; 4160; 4240; 6112; 6160; 6470; 6608; 6784; 6800; 6992; 7088;
    7232; 7248; 42528; 43216; 43264; 43472; 43504; 43600; 44016; 65296; 66720;
    68912; 69734; 69872; 69942; 70096; 70384; 70736; 70864; 71248; 71360; 71472;
    71904; 72016; 72784; 73040; 73120; 92768; 92864; 93008; 120782; 120792;
    120802; 120812; 120822; 123200; 123632; 125264; 130032 ].

(** [Py_UNICODE_TODECIMAL] from U+0100 on. *)
Definition high_decimal (cp : Z) : option Z :=
  option_map (fun zero => cp - zero)
    (List.find (fun zero => (zero <=? cp) && (cp <? zero + 10)) decimal_zeros).

(** The character of the model that stands for a code point.  A code
    point below 256 is itself.  From U+0100 on the text is modelled up
    to what the program can tell of it: the program strips white space,
    cuts at blanks, colons and hyphens and reads numbers, so a white
    space stands as U+00A0, which is white space and no blank, a decimal
    digit as the ASCII digit of its value, which [int] reads alike, and
    every other code point as U+00FF, which is none of these. *)
Definition represent (cp : Z) : ascii :=
  if cp <? 256 then chr cp
  else if high_space cp then chr 160
  else match high_decimal cp with
       | Some d => chr (48 + d)
       | None => chr 255
       end.

(** A continuation byte of UTF-8 in the range from [lo] to [hi]. *)
Definition utf8_tail (lo hi : Z) (c : ascii) : bool := (lo <=? code c) && (code c <=? hi).

(** [b.decode()]: strict UTF-8, the well-formed byte sequences of the
    Unicode standard (no overlong form, no surrogate, nothing above
    U+10FFFF); anything else raises [UnicodeDecodeError]. *)
Fixpoint utf8_decode (b : string) : result string :=
  match b with
  | EmptyString => Ok EmptyString
  | String c r =>
      let n := code c in
      if n <? 128 then
        s <- utf8_decode r ;; Ok (String c s)
      else if (194 <=? n) && (n <=? 223) then
        match r with
        | String c2 r2 =>
            if utf8_tail 128 191 c2 then
              s <- utf8_decode r2 ;;
              Ok (String (represent ((n - 192) * 64 + (code c2 - 128))) s)
            else Raise UnicodeDecodeError
        | _ => Raise UnicodeDecodeError
        end
      else if (224 <=? n) && (n <=? 239) then
        match r with
        | String c2 (String c3 r3) =>
            if utf8_tail (if n =? 224 then 160 else 128) (if n =? 237 then 159 else 191) c2
               && utf8_tail 128 191 c3 then
              s <- utf8_decode r3 ;;
              Ok (String (represent ((n - 224) * 4096 + (code c2 - 128) * 64
                                     + (code c3 - 128))) s)
            else Raise UnicodeDecodeError
        | _ => Raise UnicodeDecodeError
        end
      else if (240 <=? n) && (n <=? 244) then
        match r with
        | String c2 (String c3 (String c4 r4)) =>
            if utf8_tail (if n =? 240 then 144 else 128) (if n =? 244 then 143 else 191) c2
               && utf8_tail 128 191 c3 && utf8_tail 128 191 c4 then
              s <- utf8_decode r4 ;;
              Ok (String (represent ((n - 240) * 262144 + (code c2 - 128) * 4096
                                     + (code c3 - 128) * 64 + (code c4 - 128))) s)
            else Raise UnicodeDecodeError
        | _ => Raise UnicodeDecodeError
        end
      else Raise UnicodeDecodeError
  end.

(** [str(v)] *)
Definition py_str (v : pyval) : string :=
  match v with
  | VNone => "None"
  | VStr s => s
  | VBytes b => "b'" ++ b ++ "'"
  | VInt n => NilZero.string_of_int (Z.to_int n)
  end.

(** [v.decode() if isinstance(v, (bytes, bytearray)) else str(v)] *)
Definition decode_or_str (v : pyval) : result string :=
  match v with
  | VBytes b => utf8_decode b
  | _ => Ok (py_str v)
  end.

(** [d.get(k)] *)
Definition dict_get (d : gmap Z pyval) (k : Z) : pyval := default VNone (d !! k).

Definition get_date_from_piexif (W : World) (path : string) : result (option string) :=
  if negb (HAVE_PIEXIF W) then Ok None
  else
    try_except
      (exif <- piexif_load W path ;;
       let date_bytes := dict_get (default ∅ (exif !! "Exif")) ExifIFD_DateTimeOriginal in
       if truthy date_bytes then
         raw <- decode_or_str date_bytes ;;
         format_exif_raw (VStr raw)
       else
         let date0 := dict_get (default ∅ (exif !! "0th")) ImageIFD_DateTime in
         if truthy date0 then
           raw <- decode_or_str date0 ;;
           format_exif_raw (VStr raw)
         else Ok None)
      (fun _ => Ok None).

(** [{v: k for k, v in ExifTags.TAGS.items()}]: a later item replaces an
    earlier one of the same name. *)
Definition tag_map (W : World) : gmap string Z :=
  fold_left (fun m kv => <[ snd kv := fst kv ]> m) (ExifTags_TAGS W) ∅.

(** [tag and tag in exif and exif[tag]]: the value the loop takes for a
    tag name, if any. *)
Definition probe_tag (W : World) (exif : gmap Z pyval) (tname : string) : option pyval :=
  match tag_map W !! tname with
  | Some tag =>
      if negb (tag =? 0) then
        match exif !! tag with
        | Some v => if truthy v then Some v else None
        | None => None
        end
      else None
  | None => None
  end.

Fixpoint probe_tags (W : World) (exif : gmap Z pyval) (tnames : list string)
  : result (option string) :=
  match tnames with
  | [] => Ok None
  | tname :: rest =>
      match probe_tag W exif tname with
      | Some raw => format_exif_raw raw
      | None => probe_tags W exif rest
      end
  end.

Definition pillow_tag_order : list string :=
  ["DateTimeOriginal"; "DateTime"; "DateTimeDigitized"].

(** [not exif] for the result of [_getexif()] *)
Definition exif_falsy (exif : option (gmap Z pyval)) : bool :=
  match exif with
  | None => true
  | Some d => bool_decide (d = ∅)
  end.

Definition get_date_from_pillow (W : World) (path : string) : result (option string) :=
  try_except
    (img <- Image_open W path ;;
     exif <- img_getexif img ;;
     if exif_falsy exif then Ok None
     else probe_tags W (default ∅ exif) pillow_tag_order)
    (fun _ => Ok None).

(* ===================================================================== *)
(** ** Floating point: [float(s)], [int(x)], comparison, product         *)
(* ===================================================================== *)

(** Python floats are IEEE 754 binary64 numbers. *)
Definition prec : Z := 53.
Definition emax : Z := 1024.

Definition float_zero : spec_float := S754_zero false.
Definition float_one : spec_float := binary_normalize prec emax 1 0 false.

(** [_Py_string_to_number_with_underscores]: an underscore must stand
    between two digits; the underscores are removed. *)
Fixpoint drop_underscores (prev : ascii) (s : string) : option string :=
  match s with
  | EmptyString => if Ascii.eqb prev underscore then None else Some EmptyString
  | String c s' =>
      if Ascii.eqb c underscore then
        if Py_ISDIGIT prev then drop_underscores c s' else None
      else if Ascii.eqb prev underscore && negb (Py_ISDIGIT c) then None
      else option_map (String c) (drop_underscores c s')
  end.

Fixpoint has_underscore (s : string) : bool :=
  match s with
  | EmptyString => false
  | String c s' => Ascii.eqb c underscore || has_underscore s'
  end.

(** A run of decimal digits: its value after [acc], its length, the rest. *)
Fixpoint scan_decimal (acc : Z) (n : Z) (s : string) : Z * Z * string :=
  match s with
  | String c s' =>
      if Py_ISDIGIT c then scan_decimal (acc * 10 + (code c - 48)) (n + 1) s'
      else (acc, n, s)
  | EmptyString => (acc, n, s)
  end.

(** The quotient of two positive integers, rounded to the nearest
    binary64 number, ties to even. *)
Definition round_ratio (sign : bool) (p q : positive) : spec_float :=
  let '(mz, ez, lz) := SFdiv_core_binary prec emax (Zpos p) 0 (Zpos q) 0 in
  binary_round_aux prec emax sign mz ez lz.

(** The binary64 number nearest to [m * 10 ^ e]; overflow gives an
    infinity, underflow a subnormal number or zero. *)
Definition float_of_decimal (sign : bool) (m e : Z) : spec_float :=
  match m with
  | Zpos p =>
      if 0 <=? e then binary_round prec emax sign (p * Z.to_pos (10 ^ e)) 0
      else round_ratio sign p (Z.to_pos (10 ^ (- e)))
  | _ => S754_zero sign
  end.

(** The exponent part of a number, if it is complete: [e], a sign, digits. *)
Definition scan_exponent (s : string) : Z * string :=
  match s with
  | String c r =>
      if Ascii.eqb c "e" || Ascii.eqb c "E" then
        let '(neg, r1) :=
          match r with
          | String "+" r' => (false, r')
          | String "-" r' => (true, r')
          | _ => (false, r)
          end in
        let '(v, n, rest) := scan_decimal 0 0 r1 in
        if n =? 0 then (0, s) else ((if neg then - v else v), rest)
      else (0, s)
  | EmptyString => (0, s)
  end.

(** [_Py_dg_strtod] after the sign: digits, a point, digits, an exponent;
    at least one digit. *)
Definition strtod_number (sign : bool) (s : string) : option (spec_float * string) :=
  let '(m1, n1, r1) := scan_decimal 0 0 s in
  let '(m2, n2, r2) :=
    match r1 with
    | String "." r => scan_decimal m1 0 r
    | _ => (m1, 0, r1)
    end in
  if n1 + n2 =? 0 then None
  else
    let '(e, r3) := scan_exponent r2 in
    Some (float_of_decimal sign m2 (e - n2), r3).

(** [Py_TOLOWER]: the lower case of the letters A to Z. *)
Definition Py_TOLOWER (c : ascii) : ascii :=
  if (65 <=? code c) && (code c <=? 90) then chr (code c + 32) else c.

Fixpoint tolower_all (s : string) : string :=
  match s with
  | EmptyString => EmptyString
  | String c s' => String (Py_TOLOWER c) (tolower_all s')
  end.

(** [_Py_parse_inf_or_nan] after the sign, in any case of the letters. *)
Definition parse_inf_or_nan (sign : bool) (s : string) : option (spec_float * string) :=
  let l := tolower_all s in
  if String.prefix "infinity" l then Some (S754_infinity sign, String.substring 8 (String.length s - 8) s)
  else if String.prefix "inf" l then Some (S754_infinity sign, String.substring 3 (String.length s - 3) s)
  else if String.prefix "nan" l then Some (S754_nan, String.substring 3 (String.length s - 3) s)
  else None.

Definition ascii_strtod (s : string) : option (spec_float * string) :=
  let '(sign, r) :=
    match s with
    | String "+" r => (false, r)
    | String "-" r => (true, r)
    | _ => (false, s)
    end in
  match strtod_number sign r with
  | Some res => Some res
  | None => parse_inf_or_nan sign r
  end.

Fixpoint rstrip_ISSPACE (s : string) : string :=
  match s with
  | EmptyString => EmptyString
  | String c s' =>
      match rstrip_ISSPACE s' with
      | EmptyString => if Py_ISSPACE c then EmptyString else String c EmptyString
      | r => String c r
      end
  end.

(** [float_from_string_inner]: white space around the number is dropped
    and the number must fill what is left. *)
Definition float_from_string_inner (s : string) : option spec_float :=
  match ascii_strtod (rstrip_ISSPACE (skip_ISSPACE s)) with
  | Some (x, EmptyString) => Some x
  | _ => None
  end.

(** [float(s)] for a text [s]. *)
Definition py_float (s : string) : result spec_float :=
  let t := TransformDecimalAndSpaceToASCII s in
  let u := if has_underscore t then drop_underscores "000"%char t else Some t in
  match u with
  | Some u' =>
      match float_from_string_inner u' with
      | Some x => Ok x
      | None => Raise ValueError
      end
  | None => Raise ValueError
  end.

(** [int(x)] for a float [x]: the integer part. *)
Definition float_to_int (x : spec_float) : result Z :=
  match x with
  | S754_zero _ => Ok 0
  | S754_infinity _ => Raise OverflowError
  | S754_nan => Raise ValueError
  | S754_finite s m e =>
      let a := if 0 <=? e then Zpos m * 2 ^ e else Zpos m / 2 ^ (- e) in
      Ok (if s then - a else a)
  end.

(** [float(n)] for an integer [n], as the product of an integer and a
    float computes it. *)
Definition float_of_int (n : Z) : result spec_float :=
  match binary_normalize prec emax n 0 false with
  | S754_infinity _ => Raise OverflowError
  | x => Ok x
  end.

Definition float_mul : spec_float -> spec_float -> spec_float := SFmul prec emax.

(* ===================================================================== *)
(** ** The file system tier and [get_date_string]                        *)
(* ===================================================================== *)

(** The civil date of a day number counted from 1970-01-01 (proleptic
    Gregorian calendar). *)
Definition civil_from_days (days : Z) : Z * Z * Z :=
  let z := days + 719468 in
  let era := z / 146097 in
  let doe := z - era * 146097 in
  let yoe := (doe - doe / 1460 + doe / 36524 - doe / 146096) / 365 in
  let doy := doe - (365 * yoe + yoe / 4 - yoe / 100) in
  let mp := (5 * doy + 2) / 153 in
  let d := doy - (153 * mp + 2) / 5 + 1 in
  let m := if mp <? 10 then mp + 3 else mp - 9 in
  let y := yoe + era * 400 + (if m <=? 2 then 1 else 0) in
  (y, m, d).

(** The local calendar date of an instant. *)
Definition local_date (W : World) (t : Z) : Z * Z * Z :=
  civil_from_days ((t + utc_offset W t) / 86400).

(** [modf(x)] for a finite float [x = (-1)^s * m * 2^e]: the integer
    part, toward zero, and the fractional part; both are exact. *)
Definition modf (s : bool) (m : positive) (e : Z) : Z * spec_float :=
  if 0 <=? e then ((if s then - (Zpos m * 2 ^ e) else Zpos m * 2 ^ e), S754_zero s)
  else
    let a := Zpos m / 2 ^ (- e) in
    ((if s then - a else a),
     match Zpos m mod 2 ^ (- e) with
     | Zpos f => S754_finite s f e
     | _ => S754_zero s
     end).

(** [pytime_round(x, _PyTime_ROUND_HALF_EVEN)]: the nearest integer, a
    tie going to the even one. *)
Definition pytime_round_half_even (x : spec_float) : Z :=
  match x with
  | S754_finite s m e =>
      let a :=
        if 0 <=? e then Zpos m * 2 ^ e
        else
          let q := Zpos m / 2 ^ (- e) in
          let r2 := 2 * (Zpos m mod 2 ^ (- e)) in
          if r2 <? 2 ^ (- e) then q
          else if 2 ^ (- e) <? r2 then q + 1
          else if Z.even q then q else q + 1 in
      if s then - a else a
  | _ => 0
  end.

(** One million, the microseconds of a second, as a float. *)
Definition float_1e6 : spec_float := binary_normalize prec emax 1000000 0 false.

(** [_PyTime_ObjectToTimeval(x, &timet, &us, _PyTime_ROUND_HALF_EVEN)]
    for a float [x], the seconds [timet]: the fractional part is
    multiplied by a million in floating point and rounded to whole
    microseconds, which can carry into the seconds; the seconds must fit
    [time_t] (64 bits; the bound is compared as a float, so [2 ^ 63]
    passes and its conversion, undefined in C, gives [- 2 ^ 63] on this
    machine). *)
Definition timeval_seconds (x : spec_float) : result Z :=
  match x with
  | S754_nan => Raise ValueError
  | S754_infinity _ => Raise OverflowError
  | S754_zero _ => Ok 0
  | S754_finite s m e =>
      let '(intpart, floatpart) := modf s m e in
      let us := pytime_round_half_even (float_mul floatpart float_1e6) in
      let sec := if 1000000 <=? us then intpart + 1
                 else if us <? 0 then intpart - 1
                 else intpart in
      if (- 2 ^ 63 <=? sec) && (sec <=? 2 ^ 63)
      then Ok (if sec =? 2 ^ 63 then - 2 ^ 63 else sec)
      else Raise OverflowError
  end.

(** [_PyTime_localtime(t, &tm)]: the local date; [localtime_r] fails when
    a year does not fit the field [tm_year], an [int] counted from 1900.
    The C library breaks the instant down twice, first without and then
    with the offset of the zone, and either can fail. *)
Definition localtime (W : World) (t : Z) : result (Z * Z * Z) :=
  let '(y0, _, _) := civil_from_days (t / 86400) in
  let '(y, m, d) := local_date W t in
  if fits_C_int (y0 - 1900) && fits_C_int (y - 1900) then Ok (y, m, d)
  else Raise OSError.

Definition year_in_range (y : Z) : bool := (MINYEAR <=? y) && (y <=? MAXYEAR).

(** [local(u)] of the [datetime] module: the seconds of the local time
    at the instant [u], refused by [utc_to_seconds] when the local year
    is not one of 1 to 9999. *)
Definition local (W : World) (u : Z) : result Z :=
  ymd <- localtime W u ;;
  let '(y, _, _) := ymd in
  if year_in_range y then Ok (u + utc_offset W u) else Raise ValueError.

Definition max_fold_seconds : Z := 24 * 3600.

(** [datetime.fromtimestamp(x)] for a float [x] and no time zone
    ([datetime_from_timet_and_us]): the local date of the seconds of
    [x].  To tell whether the local time is the second of a repeated
    interval the function also takes the local time one day earlier and,
    when the clock was set back in between, once more; each of these
    must lie in the years 1 to 9999 as well. *)
Definition fromtimestamp (W : World) (x : spec_float) : result datetime :=
  timet <- timeval_seconds x ;;
  ymd <- localtime W timet ;;
  let '(y, m, d) := ymd in
  result_seconds <-
    (if year_in_range y then Ok (timet + utc_offset W timet) else Raise ValueError) ;;
  probe_seconds <- local W (timet - max_fold_seconds) ;;
  let transition := result_seconds - probe_seconds - max_fold_seconds in
  _ <- (if transition <? 0 then local W (timet + transition) else Ok 0) ;;
  datetime_new y m d.

(** [if d:] for a date or [None] *)
Definition date_truthy (d : option string) : bool :=
  match d with
  | Some s => negb (String.eqb s "")
  | None => false
  end.

Definition get_date_string (W : World) (path : string) : result (option string) :=
  let after_piexif :=
    d <- get_date_from_pillow W path ;;
    if date_truthy d then Ok d
    else
      try_except
        (mtime <- os_path_getmtime W path ;;
         dt <- fromtimestamp W mtime ;;
         Ok (Some (strftime_Ymd dt)))
        (fun _ => Ok None) in
  if HAVE_PIEXIF W then
    d <- get_date_from_piexif W path ;;
    if date_truthy d then Ok d else after_piexif
  else after_piexif.

(* ===================================================================== *)
(** ** [compute_font_px]                                                 *)
(* ===================================================================== *)

Definition compute_font_px (spec : string) (img_w : Z) : result Z :=
  returned <-
    try_except
      (val <- py_float spec ;;
       if SFleb float_one val then
         n <- float_to_int val ;; Ok (Some n)
       else if SFltb float_zero val && SFltb val float_one then
         w <- float_of_int img_w ;;
         n <- float_to_int (float_mul w val) ;;
         Ok (Some (Z.max 12 n))
       else Ok None)
      (fun _ => Ok None) ;;
  match returned with
  | Some px => Ok px
  | None => Ok 36
  end.

(* ===================================================================== *)
(** ** [process_image]                                                   *)
(* ===================================================================== *)

(** What [process_image] itself does to the outside, once it has
    succeeded: the lines it prints, the image it opens for drawing, the
    conversions, the texts drawn, the directory made, the file saved.
    Reading the metadata and the modification time leaves no event. *)
Inductive event : Type :=
| EvPrint (m : message)
| EvOpen (path : string)
| EvConvert (mode : string)
| EvDrawText (xy : Z * Z) (text : string) (fill : rgb)
| EvMakedirs (dir : string)
| EvSave (path : string) (quality : option Z).

(** A computation with effects: the events so far, in order, and the
    value returned or the exception raised. *)
Definition action (A : Type) : Type := (list event * result A)%type.

Definition act_ret {A : Type} (a : A) : action A := ([], Ok a).

Definition act_bind {A B : Type} (c : action A) (k : A -> action B) : action B :=
  match c with
  | (t, Ok a) => let (t', r) := k a in ((t ++ t')%list, r)
  | (t, Raise e) => (t, Raise e)
  end.

Definition act_try {A : Type} (c : action A) (h : exn -> action A) : action A :=
  match c with
  | (t, Ok a) => (t, Ok a)
  | (t, Raise e) => let (t', r) := h e in ((t ++ t')%list, r)
  end.

(** A call that leaves no event. *)
Definition silent {A : Type} (r : result A) : action A := ([], r).

(** A call that leaves the event [ev] when it succeeds. *)
Definition perform {A : Type} (ev : event) (r : result A) : action A :=
  match r with
  | Ok a => ([ev], Ok a)
  | Raise e => ([], Raise e)
  end.

(** [print(line)]: the line is on the output when the call returns. *)
Definition print (W : World) (m : message) : action unit :=
  perform (EvPrint m) (builtin_print W m).

Notation "x <~ c ;; k" := (act_bind c (fun x => k))
  (at level 100, c at next level, right associativity).

Fixpoint act_for {A : Type} (l : list A) (body : A -> action unit) : action unit :=
  match l with
  | [] => act_ret tt
  | a :: l' => _ <~ body a ;; act_for l' body
  end.

Definition outline_color : rgb := (0, 0, 0).

Definition outline_offsets : list (Z * Z) := [(-1, -1); (-1, 1); (1, -1); (1, 1)].

Definition is_jpeg_ext (ext : string) : bool :=
  existsb (String.eqb (lower ext)) [".jpg"; ".jpeg"].

Definition process_image (W : World)
    (path out_dir font_path font_spec color_str pos_name : string) : action bool :=
  date_text <~ silent (get_date_string W path) ;;
  if negb (date_truthy date_text) then
    _ <~ print W (MsgSkipped path) ;;
    act_ret false
  else
    let date_text := default "" date_text in
    act_try
      (im <~ perform (EvOpen path) (Image_open W path) ;;
       im <~ perform (EvConvert "RGBA") (Image_convert W im "RGBA") ;;
       let '(w, h) := img_size im in
       font_px <~ silent (compute_font_px font_spec w) ;;
       font <~ act_try
                 (if negb (String.eqb font_path "") && os_path_isfile W font_path
                  then silent (ImageFont_truetype W font_path font_px)
                  else silent (ImageFont_load_default W))
                 (fun _ => silent (ImageFont_load_default W)) ;;
       draw <~ silent (ImageDraw_Draw W im) ;;
       text_size <~ silent (_measure_text draw date_text font) ;;
       let '(tw, th) := text_size in
       let '(x, y) := calc_pos pos_name (w, h) (tw, th) default_margin in
       _ <~ act_for outline_offsets
              (fun d => perform (EvDrawText (x + fst d, y + snd d) date_text outline_color)
                          (draw_text draw (x + fst d, y + snd d) date_text font outline_color)) ;;
       fill <~ silent (parse_color color_str) ;;
       _ <~ perform (EvDrawText (x, y) date_text fill)
              (draw_text draw (x, y) date_text font fill) ;;
       let base := os_path_basename W path in
       let '(name, ext) := os_path_splitext W base in
       let out_name := name ++ "_wm" ++ ext in
       _ <~ perform (EvMakedirs out_dir) (os_makedirs W out_dir) ;;
       let out_path := os_path_join W out_dir out_name in
       _ <~ (if is_jpeg_ext ext then
               rgb_im <~ perform (EvConvert "RGB") (Image_convert W im "RGB") ;;
               perform (EvSave out_path (Some 95)) (Image_save W rgb_im out_path (Some 95))
             else perform (EvSave out_path None) (Image_save W im out_path None)) ;;
       _ <~ print W (MsgSaved out_path) ;;
       act_ret true)
      (fun e =>
         _ <~ print W (MsgError path e) ;;
         act_ret false).

(* ===================================================================== *)
(** ** The texts and conditions the properties speak of                  *)
(* ===================================================================== *)

(** The text [YYYY s1 MM s2 DD] of a date. *)
Definition date_text (s1 s2 : ascii) (y m d : Z) : string :=
  zfill 4 y ++ String s1 (zfill 2 m ++ String s2 (zfill 2 d)).

(** The two separators of a date: a colon or a hyphen. *)
Definition is_date_sep (c : ascii) : bool := Ascii.eqb c ":" || Ascii.eqb c "-".

(** What may follow the date: nothing, or a blank and any text. *)
Definition date_suffix (rest : string) : Prop :=
  rest = "" \/ exists t, rest = String " " t.

(** The components of a raw text: what stands before the first blank,
    cut at colons and hyphens. *)
Definition date_components (raw : string) : list string :=
  split ":" (replace "-" ":" (fst (fields " " (strip raw)))).

(** A raw text that is no date: fewer than three components, one of the
    first three that [int] refuses, or three numbers that are no date. *)
Inductive malformed (raw : string) : Prop :=
| too_few_components :
    (length (date_components raw) < 3)%nat -> malformed raw
| non_numeric_component (c : string) :
    In c (firstn 3 (date_components raw)) ->
    py_int c 10 = Raise ValueError -> malformed raw
| no_calendar_date (ys ms ds : string) (y m d : Z) :
    firstn 3 (date_components raw) = [ys; ms; ds] ->
    py_int ys 10 = Ok y -> py_int ms 10 = Ok m -> py_int ds 10 = Ok d ->
    valid_date y m d = false -> malformed raw.

Fixpoint string_forall (P : ascii -> bool) (s : string) : bool :=
  match s with
  | EmptyString => true
  | String c s' => P c && string_forall P s'
  end.

(** The body of the [try] block of [format_exif_raw], on the components. *)
Definition date_of_components (parts : list string) : result (option string) :=
  ymd <- unpack3 (slice_to parts 3) ;;
  let '(y, m, d) := ymd in
  y' <- py_int y 10 ;;
  m' <- py_int m 10 ;;
  d' <- py_int d 10 ;;
  dt <- datetime_new y' m' d' ;;
  Ok (Some (strftime_Ymd dt)).

(** A character of a date text: a digit or a separator. *)
Definition date_char (c : ascii) : bool := Py_ISDIGIT c || is_date_sep c.

(** A character that can stand in a text [int] accepts in base ten: a
    digit, an underscore, a sign, white space. *)
Definition numeral_char (c : ascii) : bool :=
  Py_ISDIGIT c || Ascii.eqb c "+" || Ascii.eqb c "-" || Ascii.eqb c "_"
  || Py_UNICODE_ISSPACE c.

(** A tag name has a present, non-empty value in the metadata dictionary. *)
Definition present (W : World) (exif : gmap Z pyval) (tname : string) (v : pyval) : Prop :=
  exists tag : Z,
    tag_map W !! tname = Some tag /\ tag <> 0 /\ exif !! tag = Some v /\ truthy v = true.

Definition absent (W : World) (exif : gmap Z pyval) (tname : string) : Prop :=
  forall v, ~ present W exif tname v.

(** The tag the secondary backend settles on: the first of the three
    names, in the order of the loop, with a present, non-empty value. *)
Inductive probed (W : World) (exif : gmap Z pyval) : string -> pyval -> Prop :=
| probed_original (v : pyval) :
    present W exif "DateTimeOriginal" v ->
    probed W exif "DateTimeOriginal" v
| probed_modified (v : pyval) :
    absent W exif "DateTimeOriginal" ->
    present W exif "DateTime" v ->
    probed W exif "DateTime" v
| probed_digitized (v : pyval) :
    absent W exif "DateTimeOriginal" ->
    absent W exif "DateTime" ->
    present W exif "DateTimeDigitized" v ->
    probed W exif "DateTimeDigitized" v.

(** The field of a directory of the primary backend, [None] when the
    directory or the field is missing. *)
Definition piexif_field (exif : gmap string (gmap Z pyval)) (ifd : string) (tag : Z) : pyval :=
  dict_get (default ∅ (exif !! ifd)) tag.

(** The date of a field of the primary backend: decoded, then normalised;
    [None] when the decoding fails. *)
Definition date_of_field (v : pyval) : result (option string) :=
  try_except (raw <- decode_or_str v ;; format_exif_raw (VStr raw)) (fun _ => Ok None).

(** A tier yields no date: it returns [None] (or an empty text). *)
Definition yields_nothing (r : result (option string)) : Prop :=
  exists d, r = Ok d /\ date_truthy d = false.

(** Neither metadata backend yields a date for the file. *)
Definition no_metadata_date (W : World) (path : string) : Prop :=
  (HAVE_PIEXIF W = true -> yields_nothing (get_date_from_piexif W path))
  /\ yields_nothing (get_date_from_pillow W path).

(** The last tier alone: the modification date, or [None]. *)
Definition mtime_tier (W : World) (path : string) : result (option string) :=
  try_except
    (mtime <- os_path_getmtime W path ;;
     dt <- fromtimestamp W mtime ;;
     Ok (Some (strftime_Ymd dt)))
    (fun _ => Ok None).

(** The integer part of a positive finite float [m * 2 ^ e]. *)
Definition integer_part (m : positive) (e : Z) : Z :=
  if 0 <=? e then Zpos m * 2 ^ e else Zpos m / 2 ^ (- e).

(* --------------------------------------------------------------------- *)
(** *** A sample machine                                                 *)
(* --------------------------------------------------------------------- *)

(** A font and a drawing context whose every measurement works: six
    pixels a character, eleven pixels high. *)
Definition sample_font : Font :=
  {| font_getsize := fun text => Ok (len text * 6, 11) |}.

Definition sample_draw : Draw :=
  {| draw_textbbox := fun xy text _ => Ok (fst xy, snd xy, fst xy + len text * 6, snd xy + 11);
     draw_textsize := fun text _ => Ok (len text * 6, 11);
     draw_text := fun _ _ _ _ => Ok tt |}.

(** A drawing context of a library version without any of the three
    measurement calls. *)
Definition failing_font : Font :=
  {| font_getsize := fun _ => Raise AttributeError |}.

Definition failing_draw : Draw :=
  {| draw_textbbox := fun _ _ _ => Raise AttributeError;
     draw_textsize := fun _ _ => Raise AttributeError;
     draw_text := fun _ _ _ _ => Ok tt |}.

(** The entries of [ExifTags.TAGS] for the three date tags. *)
Definition sample_TAGS : list (Z * string) :=
  [ (306, "DateTime"); (36867, "DateTimeOriginal"); (36868, "DateTimeDigitized") ].

(** Names without a directory part, on a POSIX machine. *)
Definition sample_basename (path : string) : string :=
  last (split "/" path) "".

Fixpoint leading_dots (s : string) : string * string :=
  match s with
  | String "." r => let (dots, body) := leading_dots r in (String "." dots, body)
  | _ => ("", s)
  end.

Definition sample_splitext (name : string) : string * string :=
  let (dots, body) := leading_dots name in
  match rev (split "." body) with
  | ext :: (_ :: _) as before =>
      (dots ++ String.concat "." (rev before), "." ++ ext)
  | _ => (name, "")
  end.

Definition sample_join (dir name : string) : string := dir ++ "/" ++ name.

(** A machine on UTC with one image file: what the primary backend
    loads from it, what the imaging library opens, its modification
    time, here a whole number of seconds.  Printing, conversions, fonts,
    drawing and saving all succeed. *)
Definition sample_world (have_piexif : bool)
    (primary : result (gmap string (gmap Z pyval)))
    (image : result PilImage) (mtime : result Z) : World :=
  {| HAVE_PIEXIF := have_piexif;
     piexif_load := fun _ => primary;
     ExifTags_TAGS := sample_TAGS;
     Image_open := fun _ => image;
     os_path_getmtime := fun _ => t <- mtime ;; float_of_int t;
     utc_offset := fun _ => 0;
     builtin_print := fun _ => Ok tt;
     Image_convert := fun im _ => Ok im;
     os_path_isfile := fun _ => false;
     ImageFont_truetype := fun _ _ => Ok sample_font;
     ImageFont_load_default := Ok sample_font;
     ImageDraw_Draw := fun _ => Ok sample_draw;
     os_path_basename := sample_basename;
     os_path_splitext := sample_splitext;
     os_path_join := sample_join;
     os_makedirs := fun _ => Ok tt;
     Image_save := fun _ _ _ => Ok tt |}.

(** An image of 1000 by 800 pixels with the given metadata dictionary. *)
Definition sample_image (exif : option (gmap Z pyval)) : PilImage :=
  {| img_getexif := Ok exif; img_size := (1000, 800) |}.

(** A photograph taken on 2022-07-04, its file modified on 2023-03-01. *)
Definition photo_exif : gmap Z pyval :=
  {[ 36867 := VStr "2022:07:04 10:00:00" ]}.

Definition photo_world : World :=
  sample_world false (Raise InvalidImageDataError)
               (Ok (sample_image (Some photo_exif))) (Ok 1677672000).

(** The primary backend reads 2022-07-04, the imaging library would read
    2020-01-01 and the file was modified on 2023-03-01. *)
Definition disagreeing_world : World :=
  sample_world true
    (Ok {[ "Exif" := {[ 36867 := VBytes "2022:07:04 10:00:00" ]};
           "0th" := {[ 306 := VBytes "2021:05:05 08:00:00" ]} ]})
    (Ok (sample_image (Some {[ 306 := VStr "2020:01:01 00:00:00" ]})))
    (Ok 1677672000).

(** The imaging library hands the date tag as bytes. *)
Definition bytes_world : World :=
  sample_world false (Raise InvalidImageDataError)
    (Ok (sample_image (Some {[ 36867 := VBytes "2022:07:04 10:00:00";
                               306 := VStr "2020:01:01 00:00:00" ]})))
    (Ok 1677672000).

(** A file without metadata, modified on 2023-03-01. *)
Definition plain_world : World :=
  sample_world false (Raise InvalidImageDataError)
               (Ok (sample_image None)) (Ok 1677672000).

(** A file without metadata whose modification time is the first second
    of the year 10000. *)
Definition far_future_world : World :=
  sample_world false (Raise InvalidImageDataError)
               (Ok (sample_image None)) (Ok 253402300800).

(** A file without metadata, last modified on 0005-06-15. *)
Definition early_world : World :=
  sample_world false (Raise InvalidImageDataError)
               (Ok (sample_image None)) (Ok (-61995110400)).

(** A file without metadata, last modified at noon of 0001-01-01. *)
Definition first_day_world : World :=
  sample_world false (Raise InvalidImageDataError)
               (Ok (sample_image None)) (Ok (-62135553600)).

(** The world [W] with another modification time for every file. *)
Definition with_mtime (W : World) (mtime : result spec_float) : World :=
  {| HAVE_PIEXIF := HAVE_PIEXIF W;
     piexif_load := piexif_load W;
     ExifTags_TAGS := ExifTags_TAGS W;
     Image_open := Image_open W;
     os_path_getmtime := fun _ => mtime;
     utc_offset := utc_offset W;
     builtin_print := builtin_print W;
     Image_convert := Image_convert W;
     os_path_isfile := os_path_isfile W;
     ImageFont_truetype := ImageFont_truetype W;
     ImageFont_load_default := ImageFont_load_default W;
     ImageDraw_Draw := ImageDraw_Draw W;
     os_path_basename := os_path_basename W;
     os_path_splitext := os_path_splitext W;
     os_path_join := os_path_join W;
     os_makedirs := os_makedirs W;
     Image_save := Image_save W |}.

(** A file without metadata, last modified at 1677715199.9999998, two
    tenths of a microsecond before 2023-03-02. *)
Definition just_before_midnight_world : World :=
  with_mtime plain_world (Ok (S754_finite false 7036847574220799 (-22))).

(* ===================================================================== *)
(** ** Further definitions the properties speak of                       *)
(* ===================================================================== *)

From stdpp Require sorting.

(** A finite float of the format: at most 53 bits, an exponent of at
    most 971. *)
Definition float_valid (x : spec_float) : Prop :=
  match x with
  | S754_finite _ m e => Z.pos m < 2 ^ 53 /\ e <= 971
  | _ => True
  end.

(** [f] holds of the [n] integers from [i] on. *)
Fixpoint all_from (f : Z -> bool) (n : nat) (i : Z) : bool :=
  match n with
  | O => true
  | S n' => f i && all_from f n' (i + 1)
  end.

(** [days_before_year(y)] of the [datetime] module: the days from
    0001-01-01 to the first day of the year [y]. *)
Definition days_before_year (y : Z) : Z :=
  (y - 1) * 365 + (y - 1) / 4 - (y - 1) / 100 + (y - 1) / 400.

(** The month and the day that [civil_from_days] gives are a month and a
    day of the year it gives, and the day number, counted from
    1970-01-01, the day 719162 after 0001-01-01, lies in that year. *)
Definition civil_date_ok (days : Z) : bool :=
  let '(y, m, d) := civil_from_days days in
  (1 <=? m) && (m <=? 12) && (1 <=? d) && (d <=? days_in_month y m)
  && (days_before_year y <=? days + 719162)
  && (days + 719162 <? days_before_year (y + 1)).

(** A camera whose clock was never set writes zeros for the capture
    date; the later fields hold real dates and the file was modified on
    2023-03-01. *)
Definition unset_clock_world : World :=
  sample_world true
    (Ok {[ "Exif" := {[ 36867 := VBytes "0000:00:00 00:00:00" ]};
           "0th" := {[ 306 := VBytes "2021:05:05 08:00:00" ]} ]})
    (Ok (sample_image (Some {[ 36867 := VStr "0000:00:00 00:00:00";
                               306 := VStr "2020:01:01 00:00:00" ]})))
    (Ok 1677672000).

(** The primary backend finds nothing, the imaging library reads
    2020-01-01, the file was modified on 2023-03-01. *)
Definition secondary_world : World :=
  sample_world true (Ok ∅)
    (Ok (sample_image (Some {[ 306 := VStr "2020:01:01 00:00:00" ]})))
    (Ok 1677672000).

(** The hexadecimal digit of [n], with upper or lower case letters. *)
Definition hex_digit (upper : bool) (n : Z) : ascii :=
  if n <? 10 then chr (48 + n) else chr ((if upper then 55 else 87) + n).

(** The text [#RRGGBB] of a colour. *)
Definition hex_color (upper : bool) (r g b : Z) : string :=
  String "#"
    (String (hex_digit upper (r / 16)) (String (hex_digit upper (r mod 16))
    (String (hex_digit upper (g / 16)) (String (hex_digit upper (g mod 16))
    (String (hex_digit upper (b / 16)) (String (hex_digit upper (b mod 16)) ""))))))%string.

(** [int] reads the two hexadecimal digits of [n] back, in either case. *)
Definition hex_pair_ok (n : Z) : bool :=
  match py_int (String (hex_digit true (n / 16)) (String (hex_digit true (n mod 16)) "")) 16,
        py_int (String (hex_digit false (n / 16)) (String (hex_digit false (n mod 16)) "")) 16 with
  | Ok a, Ok b => (a =? n) && (b =? n)
  | _, _ => false
  end.

(** The colours [parse_color] can return for a text that is not of the
    hexadecimal form. *)
Definition palette : list rgb :=
  [ (255, 255, 255); (0, 0, 0); (255, 0, 0); (255, 255, 0); (0, 0, 255); (0, 128, 0) ].

(** A text of the hexadecimal form: seven characters after stripping,
    the first a [#]. *)
Definition hex_form (s : string) : bool :=
  startswith (strip (or_empty s)) "#" && (len (strip (or_empty s)) =? 7).

(** The events that are a printed line, and those that are a saved file. *)
Definition is_print (ev : event) : bool :=
  match ev with EvPrint _ => true | _ => false end.

Definition is_save (ev : event) : bool :=
  match ev with EvSave _ _ => true | _ => false end.

(** An event that is neither. *)
Definition quiet (ev : event) : bool := negb (is_print ev) && negb (is_save ev).

(** The events of a guarded block that has raised [e]: quiet events
    only, or quiet events and one save whose report could not be
    printed. *)
Definition raised_after (W : World) (t : list event) (e : exn) : Prop :=
  forallb quiet t = true
  \/ exists before p q,
       t = (before ++ [EvSave p q])%list
       /\ forallb quiet before = true
       /\ builtin_print W (MsgSaved p) = Raise e.

(** How the guarded block of [process_image] can end: with an exception,
    or with [True] after quiet events, one save and the line that
    reports it. *)
Definition guarded_outcome (W : World) (c : action bool) : Prop :=
  match c with
  | (t, Raise e) => raised_after W t e
  | (t, Ok b) =>
      b = true
      /\ exists before p q,
           t = (before ++ [EvSave p q; EvPrint (MsgSaved p)])%list
           /\ forallb quiet before = true
  end.

(** The events of a call of [process_image] that saves the image: the
    text [date] outlined around [xy] and drawn at [xy] in [fill]. *)
Definition saved_trace (path out_dir date : string) (xy : Z * Z) (fill : rgb)
    (jpeg : bool) (out_path : string) : list event :=
  ([ EvOpen path; EvConvert "RGBA";
     EvDrawText (fst xy - 1, snd xy - 1) date outline_color;
     EvDrawText (fst xy - 1, snd xy + 1) date outline_color;
     EvDrawText (fst xy + 1, snd xy - 1) date outline_color;
     EvDrawText (fst xy + 1, snd xy + 1) date outline_color;
     EvDrawText xy date fill;
     EvMakedirs out_dir ]
   ++ (if jpeg then [EvConvert "RGB"; EvSave out_path (Some 95)]
       else [EvSave out_path None])
   ++ [EvPrint (MsgSaved out_path)])%list.

(* --------------------------------------------------------------------- *)
(** *** The console, the directory listing and [main]                    *)
(* --------------------------------------------------------------------- *)

(** The five questions of [main]. *)
Inductive prompt : Type :=
| PromptPath | PromptFontSize | PromptColor | PromptPosition | PromptFontPath.

(** The lines [main] prints. *)
Inductive main_message : Type :=
| MsgBanner
| MsgNoPath
| MsgPathMissing
| MsgNoImages
| MsgFound (n : Z) (out_dir : string)
| MsgProgress (i n : Z) (img : string)
| MsgDone (n success : Z) (out_dir : string).

(** The rest of the outside world, for [input_nonempty],
    [list_images_in_dir] and [main]. *)
Record Shell : Type := {
  (** [input(...)]: what the call number [n] of a run returns or raises,
      the calls numbered from 0 in the order they are made *)
  input : nat -> result string;
  (** [os.listdir(d)] *)
  os_listdir : string -> result (list string);
  (** [os.path.abspath], [os.path.exists], [os.path.dirname] *)
  os_path_abspath : string -> string;
  os_path_exists : string -> bool;
  os_path_dirname : string -> string;
  (** [print(line)] for the lines of [main]: it fails when the stream
      cannot encode the line or cannot be written *)
  print_line : main_message -> result unit
}.

(** What a run of [main] does: a question asked with its default, a line
    printed, an event of [process_image]. *)
Inductive main_event : Type :=
| EvPrompt (p : prompt) (default : string)
| EvSay (m : main_message)
| EvImage (ev : event).

Definition program (A : Type) : Type := (list main_event * result A)%type.

Definition prog_ret {A : Type} (a : A) : program A := ([], Ok a).

Definition prog_bind {A B : Type} (c : program A) (k : A -> program B) : program B :=
  match c with
  | (t, Ok a) => let (t', r) := k a in ((t ++ t')%list, r)
  | (t, Raise e) => (t, Raise e)
  end.

Notation "x <<~ c ;; k" := (prog_bind c (fun x => k))
  (at level 100, c at next level, right associativity).

(** A line of [main] printed: the line is on the output when the call
    returns. *)
Definition say (S : Shell) (m : main_message) : program unit :=
  match print_line S m with
  | Ok _ => ([EvSay m], Ok tt)
  | Raise e => ([], Raise e)
  end.

(** A call of [process_image] inside [main]. *)
Definition run_image {A : Type} (c : action A) : program A :=
  (map EvImage (fst c), snd c).

(** [input_nonempty(prompt, default)], as the call number [n] of
    [input], which writes the prompt and reads a line. *)
Definition input_nonempty (S : Shell) (n : nat) (p : prompt) (default : string)
  : program string :=
  s <<~ ([EvPrompt p default], input S n) ;;
  prog_ret (if String.eqb (strip s) "" then default else strip s).

(** The order of [str]: by code points, the first difference decides. *)
Definition str_le (a b : string) : Prop := String.leb a b = true.

#[global] Instance str_le_dec (a b : string) : Decision (str_le a b) :=
  bool_eq_dec (String.leb a b) true.

(** [sorted(files)]: the order on texts is total and antisymmetric, so
    the sorted list is the same for every sorting method. *)
Definition sorted (files : list string) : list string := sorting.merge_sort str_le files.

Definition exts : list string := [".jpg"; ".jpeg"; ".png"; ".webp"; ".bmp"; ".tiff"].

(** The body of the loop of [list_images_in_dir]. *)
Definition collect_image (W : World) (d : string) (files : list string) (name : string)
  : list string :=
  let full := os_path_join W d name in
  if os_path_isfile W full
     && existsb (String.eqb (snd (os_path_splitext W (lower name)))) exts
  then (files ++ [full])%list else files.

Definition list_images_in_dir (S : Shell) (W : World) (d : string) : list string :=
  let files :=
    match os_listdir S d with
    | Ok names => fold_left (collect_image W d) names []
    | Raise _ => []
    end in
  sorted files.

(** The loop of [main]: [i] is the number of the next image, [success]
    the count so far. *)
Fixpoint process_all (S : Shell) (W : World)
    (out_dir font_path font_spec color pos : string)
    (n i : Z) (image_list : list string) (success : Z) : program Z :=
  match image_list with
  | [] => prog_ret success
  | img :: rest =>
      _ <<~ say S (MsgProgress i n img) ;;
      ok <<~ run_image (process_image W img out_dir font_path font_spec color pos) ;;
      process_all S W out_dir font_path font_spec color pos n (i + 1) rest
                  (if ok : bool then success + 1 else success)
  end.

Definition main (S : Shell) (W : World) : program unit :=
  _ <<~ say S MsgBanner ;;
  path <<~ input_nonempty S 0 PromptPath "" ;;
  if String.eqb path "" then say S MsgNoPath
  else
    let path := os_path_abspath S path in
    if negb (os_path_exists S path) then say S MsgPathMissing
    else
      font_spec <<~ input_nonempty S 1 PromptFontSize "0.04" ;;
      color <<~ input_nonempty S 2 PromptColor "#FFFFFF" ;;
      pos <<~ input_nonempty S 3 PromptPosition "bottom-right" ;;
      font_path <<~ input_nonempty S 4 PromptFontPath "" ;;
      let rest (image_list : list string) (out_dir : string) : program unit :=
        let n := Z.of_nat (length image_list) in
        _ <<~ say S (MsgFound n out_dir) ;;
        success <<~ process_all S W out_dir font_path font_spec color pos n 1 image_list 0 ;;
        say S (MsgDone n success out_dir) in
      if os_path_isfile W path then
        let parent_dir := os_path_dirname S path in
        let base_dirname := os_path_basename W parent_dir in
        rest [path] (os_path_join W parent_dir (base_dirname ++ "_watermark"))
      else
        let image_list := list_images_in_dir S W path in
        match image_list with
        | [] => say S MsgNoImages
        | _ :: _ =>
            let base_dirname := os_path_basename W (os_path_abspath S path) in
            rest image_list
                 (os_path_join W (os_path_abspath S path) (base_dirname ++ "_watermark"))
        end.

(** A directory of a sample machine: the names that [os.listdir] gives
    and the answers typed at the console; every path exists and every
    line can be printed. *)
Definition sample_shell (names : result (list string)) (answers : list string) : Shell :=
  {| input := fun n => match nth_error answers n with
                       | Some s => Ok s
                       | None => Raise OSError
                       end;
     os_listdir := fun _ => names;
     os_path_abspath := fun p => p;
     os_path_exists := fun _ => true;
     os_path_dirname := fun p =>
       String.concat "/" (removelast (split "/" p));
     print_line := fun _ => Ok tt |}.

(** The sample machine where a path is a regular file when its name has
    an extension, and a directory when it has none. *)
Definition files_world : World :=
  {| HAVE_PIEXIF := HAVE_PIEXIF photo_world;
     piexif_load := piexif_load photo_world;
     ExifTags_TAGS := ExifTags_TAGS photo_world;
     Image_open := Image_open photo_world;
     os_path_getmtime := os_path_getmtime photo_world;
     utc_offset := utc_offset photo_world;
     builtin_print := builtin_print photo_world;
     Image_convert := Image_convert photo_world;
     os_path_isfile := fun p =>
       negb (String.eqb (snd (sample_splitext (sample_basename p))) "");
     ImageFont_truetype := ImageFont_truetype photo_world;
     ImageFont_load_default := ImageFont_load_default photo_world;
     ImageDraw_Draw := ImageDraw_Draw photo_world;
     os_path_basename := os_path_basename photo_world;
     os_path_splitext := os_path_splitext photo_world;
     os_path_join := os_path_join photo_world;
     os_makedirs := os_makedirs photo_world;
     Image_save := Image_save photo_world |}.

(** [enumerate(image_list, i)] *)
Fixpoint enumerate (i : Z) (image_list : list string) : list (Z * string) :=
  match image_list with
  | [] => []
  | img :: rest => (i, img) :: enumerate (i + 1) rest
  end.

(** The images that a run announces, with their numbers, in order. *)
Definition progress_of (t : list main_event) : list (Z * string) :=
  flat_map (fun ev => match ev with
                      | EvSay (MsgProgress i _ img) => [(i, img)]
                      | _ => []
                      end) t.

(** The number of files that a run saves. *)
Definition is_saved (ev : main_event) : bool :=
  match ev with EvImage (EvSave _ _) => true | _ => false end.

Definition saved_count (t : list main_event) : Z :=
  Z.of_nat (length (List.filter is_saved t)).

(** An event of the loop of [main]. *)
Definition loop_event (ev : main_event) : bool :=
  match ev with
  | EvSay (MsgProgress _ _ _) | EvImage _ => true
  | _ => false
  end.

(** The images that [main] works on for a path that exists. *)
Definition images_of (S : Shell) (W : World) (path : string) : list string :=
  if os_path_isfile W path then [path] else list_images_in_dir S W path.

(** An event that reports a saved file. *)
Definition reports_save (ev : event) : bool :=
  match ev with EvPrint (MsgSaved _) => true | _ => false end.

(** The number of files that a run reports as saved. *)
Definition is_reported (ev : main_event) : bool :=
  match ev with EvImage (EvPrint (MsgSaved _)) => true | _ => false end.

Definition reported_count (t : list main_event) : Z :=
  Z.of_nat (length (List.filter is_reported t)).

(** An exception that printing or reading the console raises in the
    worlds [S] and [W]. *)
Definition console_raises (S : Shell) (W : World) (e : exn) : Prop :=
  (exists n, (n < 5)%nat /\ input S n = Raise e)
  \/ (exists m, print_line S m = Raise e)
  \/ (exists m, builtin_print W m = Raise e).

(** The world [W] with another way of printing. *)
Definition with_print (W : World) (p : message -> result unit) : World :=
  {| HAVE_PIEXIF := HAVE_PIEXIF W;
     piexif_load := piexif_load W;
     ExifTags_TAGS := ExifTags_TAGS W;
     Image_open := Image_open W;
     os_path_getmtime := os_path_getmtime W;
     utc_offset := utc_offset W;
     builtin_print := p;
     Image_convert := Image_convert W;
     os_path_isfile := os_path_isfile W;
     ImageFont_truetype := ImageFont_truetype W;
     ImageFont_load_default := ImageFont_load_default W;
     ImageDraw_Draw := ImageDraw_Draw W;
     os_path_basename := os_path_basename W;
     os_path_splitext := os_path_splitext W;
     os_path_join := os_path_join W;
     os_makedirs := os_makedirs W;
     Image_save := Image_save W |}.

(** A standard output whose encoding has the characters of the
    program's own messages and, of the characters of a path, the ASCII
    ones only: a line with another character in its path raises. *)
Definition narrow_print (m : message) : result unit :=
  let path := match m with
              | MsgSkipped p | MsgSaved p | MsgError p _ => p
              end in
  if is_ascii path then Ok tt else Raise UnicodeEncodeError.

Definition narrow_print_line (m : main_message) : result unit :=
  match m with
  | MsgFound _ p | MsgProgress _ _ p | MsgDone _ _ p =>
      if is_ascii p then Ok tt else Raise UnicodeEncodeError
  | _ => Ok tt
  end.

(** The machine of [files_world] with that standard output. *)
Definition narrow_world : World := with_print files_world narrow_print.

(** A directory name with a character outside ASCII, U+00F1. *)
Definition n_tilde : ascii := chr 241.

Definition nino_out : string := String "n" (String "i" (String n_tilde "o_out")).

(** An image name with that character. *)
Definition nino_jpg : string := String "n" (String "i" (String n_tilde "o.jpg")).

Definition narrow_shell (names : result (list string)) (answers : list string) : Shell :=
  {| input := input (sample_shell names answers);
     os_listdir := os_listdir (sample_shell names answers);
     os_path_abspath := os_path_abspath (sample_shell names answers);
     os_path_exists := os_path_exists (sample_shell names answers);
     os_path_dirname := os_path_dirname (sample_shell names answers);
     print_line := narrow_print_line |}.

(* ===================================================================== *)
(** ** Characters                                                        *)
(* ===================================================================== *)

Section Characters.

Lemma code_range (c : ascii) : 0 <= code c < 256.
Proof.
  unfold code. pose proof (N_ascii_bounded c). lia.
Qed.

Lemma code_chr (n : Z) : 0 <= n < 256 -> code (chr n) = n.
Proof.
  intros Hn. unfold code, chr.
  rewrite N_ascii_embedding by lia. lia.
Qed.

Lemma code_inj (a b : ascii) : code a = code b -> a = b.
Proof.
  unfold code. intros H.
  rewrite <- (ascii_N_embedding a), <- (ascii_N_embedding b).
  f_equal. lia.
Qed.

Lemma ascii_eqb_code (a b : ascii) : Ascii.eqb a b = (code a =? code b).
Proof.
  destruct (Ascii.eqb_spec a b) as [->|Hne].
  - now rewrite Z.eqb_refl.
  - symmetry. apply Z.eqb_neq. intros H. now apply Hne, code_inj.
Qed.

Lemma digit_char_code (k : Z) : code (digit_char k) = 48 + k mod 10.
Proof.
  unfold digit_char. apply code_chr.
  pose proof (Z.mod_pos_bound k 10). lia.
Qed.

Lemma digit_char_ISDIGIT (k : Z) : Py_ISDIGIT (digit_char k) = true.
Proof.
  unfold Py_ISDIGIT. rewrite digit_char_code.
  pose proof (Z.mod_pos_bound k 10). lia.
Qed.

Lemma ISDIGIT_value (c : ascii) :
  Py_ISDIGIT c = true -> PyLong_DigitValue c = code c - 48 /\ 0 <= code c - 48 < 10.
Proof.
  unfold Py_ISDIGIT, PyLong_DigitValue. intros H.
  rewrite H. lia.
Qed.

Lemma ISDIGIT_not_space (c : ascii) :
  Py_ISDIGIT c = true -> Py_UNICODE_ISSPACE c = false /\ Py_ISSPACE c = false.
Proof.
  unfold Py_ISDIGIT, Py_UNICODE_ISSPACE, Py_ISSPACE. lia.
Qed.

Lemma ISDIGIT_not (c x : ascii) :
  Py_ISDIGIT c = true -> (code x < 48 \/ 57 < code x) -> Ascii.eqb c x = false.
Proof.
  unfold Py_ISDIGIT. rewrite ascii_eqb_code. lia.
Qed.

End Characters.

(* ===================================================================== *)
(** ** Stripping, cutting and replacing                                  *)
(* ===================================================================== *)

Section StringLibrary.

Lemma append_empty (b : string) : "" ++ b = b.
Proof. reflexivity. Qed.

Lemma append_String (c : ascii) (a b : string) : String c a ++ b = String c (a ++ b).
Proof. reflexivity. Qed.

Lemma append_empty_r (a : string) : a ++ "" = a.
Proof.
  induction a as [|c a IH]; [reflexivity|].
  now rewrite append_String, IH.
Qed.

Lemma append_assoc (a b c : string) : (a ++ b) ++ c = a ++ (b ++ c).
Proof.
  induction a as [|x a IH]; [reflexivity|].
  now rewrite !append_String, IH.
Qed.

Lemma string_forall_app (P : ascii -> bool) (a b : string) :
  string_forall P (a ++ b) = string_forall P a && string_forall P b.
Proof.
  induction a as [|c a IH].
  - reflexivity.
  - rewrite append_String. simpl. now rewrite IH, andb_assoc.
Qed.

Lemma string_forall_impl (P Q : ascii -> bool) (s : string) :
  (forall c, P c = true -> Q c = true) ->
  string_forall P s = true -> string_forall Q s = true.
Proof.
  intros HPQ. induction s as [|c s IH]; simpl.
  - reflexivity.
  - intros H. apply andb_true_iff in H as [Hc Hs].
    now rewrite (HPQ _ Hc), IH.
Qed.

Lemma lstrip_head (c : ascii) (s : string) :
  Py_UNICODE_ISSPACE c = false -> lstrip (String c s) = String c s.
Proof. intros H. simpl. now rewrite H. Qed.

Lemma rstrip_app (a b : string) :
  rstrip (a ++ b) =
  match rstrip b with
  | EmptyString => rstrip a
  | r => a ++ r
  end.
Proof.
  induction a as [|c a IH].
  - rewrite append_empty. now destruct (rstrip b).
  - rewrite append_String. simpl. rewrite IH.
    destruct (rstrip b) as [|x r]; [reflexivity|].
    rewrite append_String. now destruct a.
Qed.

Lemma rstrip_no_space (s : string) :
  string_forall (fun c => negb (Py_UNICODE_ISSPACE c)) s = true -> rstrip s = s.
Proof.
  induction s as [|c s IH]; simpl.
  - reflexivity.
  - intros H. apply andb_true_iff in H as [Hc Hs].
    rewrite (IH Hs). apply negb_true_iff in Hc. rewrite Hc.
    now destruct s.
Qed.

(** Stripping the right end of a suffix leaves a suffix. *)
Lemma rstrip_suffix (rest : string) : date_suffix rest -> date_suffix (rstrip rest).
Proof.
  intros [->|[t ->]].
  - now left.
  - simpl. destruct (rstrip t) as [|c r].
    + now left.
    + right. now exists (String c r).
Qed.

Lemma fields_app (sep : ascii) (a b : string) :
  string_forall (fun c => negb (Ascii.eqb c sep)) a = true ->
  fields sep (a ++ b) = (a ++ fst (fields sep b), snd (fields sep b)).
Proof.
  induction a as [|c a IH].
  - intros _. rewrite !append_empty. now destruct (fields sep b).
  - intros H. simpl in H. apply andb_true_iff in H as [Hc Ha].
    rewrite !append_String. simpl.
    rewrite (IH Ha). apply negb_true_iff in Hc. now rewrite Hc.
Qed.

Lemma fields_sep (sep : ascii) (b : string) :
  fields sep (String sep b) = (EmptyString, fst (fields sep b) :: snd (fields sep b)).
Proof.
  simpl. destruct (fields sep b). now rewrite Ascii.eqb_refl.
Qed.

Lemma fields_none (sep : ascii) (a : string) :
  string_forall (fun c => negb (Ascii.eqb c sep)) a = true ->
  fields sep a = (a, []).
Proof.
  intros H. rewrite <- (append_empty_r a) at 1.
  rewrite (fields_app _ _ _ H). simpl. now rewrite append_empty_r.
Qed.

Lemma split_app_sep (sep : ascii) (a b : string) :
  string_forall (fun c => negb (Ascii.eqb c sep)) a = true ->
  split sep (a ++ String sep b) = a :: split sep b.
Proof.
  intros H. unfold split. rewrite (fields_app _ _ _ H), fields_sep. simpl.
  rewrite append_empty_r. now destruct (fields sep b).
Qed.

Lemma split_none (sep : ascii) (a : string) :
  string_forall (fun c => negb (Ascii.eqb c sep)) a = true ->
  split sep a = [a].
Proof.
  intros H. unfold split. now rewrite (fields_none _ _ H).
Qed.

Lemma split_first (sep : ascii) (s : string) :
  getitem (split sep s) 0 = Ok (fst (fields sep s)).
Proof.
  unfold split. now destruct (fields sep s).
Qed.

Lemma replace_app (old new : ascii) (a b : string) :
  replace old new (a ++ b) = replace old new a ++ replace old new b.
Proof.
  induction a as [|c a IH]; [reflexivity|].
  rewrite !append_String. simpl. now rewrite IH.
Qed.

Lemma replace_absent (old new : ascii) (s : string) :
  string_forall (fun c => negb (Ascii.eqb c old)) s = true ->
  replace old new s = s.
Proof.
  induction s as [|c s IH]; simpl.
  - reflexivity.
  - intros H. apply andb_true_iff in H as [Hc Hs].
    apply negb_true_iff in Hc. now rewrite Hc, (IH Hs).
Qed.

End StringLibrary.

(* ===================================================================== *)
(** ** [int] on digits, [zfill], [datetime]                              *)
(* ===================================================================== *)

Section Numerals.

Lemma zfill_S (w : nat) (n : Z) :
  zfill (S w) n = String (digit_char (n / 10 ^ Z.of_nat w)) (zfill w n).
Proof. reflexivity. Qed.

Lemma zfill_digits (w : nat) (n : Z) : string_forall Py_ISDIGIT (zfill w n) = true.
Proof.
  induction w as [|w IH].
  - reflexivity.
  - rewrite zfill_S. simpl string_forall. now rewrite digit_char_ISDIGIT, IH.
Qed.

Lemma digits_ascii (s : string) : string_forall Py_ISDIGIT s = true -> is_ascii s = true.
Proof.
  induction s as [|c s IH]; simpl.
  - reflexivity.
  - intros H. apply andb_true_iff in H as [Hc Hs].
    rewrite (IH Hs). unfold Py_ISDIGIT in Hc. lia.
Qed.

Lemma digits_without (x : ascii) (s : string) :
  (code x < 48 \/ 57 < code x) ->
  string_forall Py_ISDIGIT s = true ->
  string_forall (fun c => negb (Ascii.eqb c x)) s = true.
Proof.
  intros Hx. apply string_forall_impl. intros c Hc.
  now rewrite (ISDIGIT_not c x Hc Hx).
Qed.

Lemma digits_no_space (s : string) :
  string_forall Py_ISDIGIT s = true ->
  string_forall (fun c => negb (Py_UNICODE_ISSPACE c)) s = true.
Proof.
  apply string_forall_impl. intros c Hc.
  now rewrite (proj1 (ISDIGIT_not_space c Hc)).
Qed.

(** The digit loop reads a run of [w] digits as the number they write. *)
Lemma long_scan_zfill (w : nat) : forall (n acc : Z) (prev : ascii),
  Ascii.eqb prev underscore = false ->
  long_scan 10 acc prev (zfill w n) = Some (acc * 10 ^ Z.of_nat w + n mod 10 ^ Z.of_nat w, "").
Proof.
  induction w as [|w IH]; intros n acc prev Hprev.
  - simpl. rewrite Hprev. f_equal. f_equal. rewrite Z.mod_1_r. lia.
  - rewrite zfill_S. cbn [long_scan].
    pose proof (digit_char_ISDIGIT (n / 10 ^ Z.of_nat w)) as Hd.
    destruct (ISDIGIT_value _ Hd) as [Hv Hr].
    rewrite (ISDIGIT_not _ underscore Hd) by (right; vm_compute; reflexivity).
    assert (Hlt : (PyLong_DigitValue (digit_char (n / 10 ^ Z.of_nat w)) <? 10) = true) by lia.
    rewrite Hlt, IH by (apply ISDIGIT_not; [exact Hd | right; vm_compute; reflexivity]).
    f_equal. f_equal. rewrite Hv, digit_char_code.
    replace (48 + (n / 10 ^ Z.of_nat w) mod 10 - 48) with ((n / 10 ^ Z.of_nat w) mod 10) by lia.
    rewrite Nat2Z.inj_succ, Z.pow_succ_r by lia.
    assert (Hp : 0 < 10 ^ Z.of_nat w) by (apply Z.pow_pos_nonneg; lia).
    rewrite (Z.mul_comm 10), Z.rem_mul_r by lia. lia.
Qed.

Lemma PyLong_FromString_digit (c : ascii) (r : string) :
  Py_ISDIGIT c = true ->
  PyLong_FromString 10 (String c r) =
  match long_scan 10 0 "000"%char (String c r) with
  | Some (v, rest) =>
      match skip_ISSPACE rest with
      | EmptyString => Some v
      | _ => None
      end
  | None => None
  end.
Proof.
  intros H.
  destruct c as [[] [] [] [] [] [] [] []]; vm_compute in H; try discriminate H;
    destruct r as [|x r]; reflexivity.
Qed.

(** [int] reads [w] digits, [0 < w], as the number they write. *)
Lemma py_int_zfill (w : nat) (n : Z) :
  (0 < w)%nat -> 0 <= n < 10 ^ Z.of_nat w -> py_int (zfill w n) 10 = Ok n.
Proof.
  intros Hw Hn. unfold py_int, TransformDecimalAndSpaceToASCII.
  rewrite (digits_ascii _ (zfill_digits w n)).
  destruct w as [|w]; [lia|].
  rewrite zfill_S, PyLong_FromString_digit by apply digit_char_ISDIGIT.
  rewrite <- zfill_S, long_scan_zfill by reflexivity.
  simpl skip_ISSPACE. rewrite Z.mod_small by lia. reflexivity.
Qed.

Lemma valid_date_bounds (y m d : Z) :
  valid_date y m d = true -> 1 <= y <= 9999 /\ 1 <= m <= 12 /\ 1 <= d <= 31.
Proof.
  unfold valid_date, MINYEAR, MAXYEAR, days_in_month. intros H.
  repeat (apply andb_true_iff in H as [H ?]).
  assert (d <= 31); [|lia].
  destruct (m =? 2); [destruct (is_leap y); lia|].
  destruct ((m =? 4) || (m =? 6) || (m =? 9) || (m =? 11)); lia.
Qed.

Lemma datetime_new_valid (y m d : Z) :
  valid_date y m d = true -> datetime_new y m d = Ok (mk_datetime y m d).
Proof.
  intros H. pose proof (valid_date_bounds _ _ _ H) as (Hy & Hm & Hd).
  unfold datetime_new. rewrite H.
  replace (fits_C_int y && fits_C_int m && fits_C_int d) with true; [reflexivity|].
  unfold fits_C_int. lia.
Qed.

Lemma datetime_new_invalid (y m d : Z) :
  valid_date y m d = false -> exists e, datetime_new y m d = Raise e.
Proof.
  intros H. unfold datetime_new. rewrite H.
  destruct (negb _); eauto.
Qed.

Lemma datetime_new_ok (y m d : Z) (dt : datetime) :
  datetime_new y m d = Ok dt -> valid_date y m d = true /\ dt = mk_datetime y m d.
Proof.
  unfold datetime_new. destruct (negb _); [discriminate|].
  destruct (valid_date y m d); [|discriminate]. now intros [= <-].
Qed.

Lemma strftime_text (y m d : Z) :
  strftime_Ymd (mk_datetime y m d)
  = year_digits y ++ String "-" (zfill 2 m ++ String "-" (zfill 2 d)).
Proof. reflexivity. Qed.

Lemma year_digits_cases (y : Z) :
  exists w : nat, year_digits y = zfill (S w) y /\ 10 ^ Z.of_nat w <= Z.max y 1
                  /\ (y < 10 ^ Z.of_nat (S w) \/ w = 3%nat).
Proof.
  unfold year_digits.
  destruct (y <? 10) eqn:H1; [exists 0%nat; split; [reflexivity|]; simpl; lia|].
  destruct (y <? 100) eqn:H2; [exists 1%nat; split; [reflexivity|]; simpl; lia|].
  destruct (y <? 1000) eqn:H3; [exists 2%nat; split; [reflexivity|]; simpl; lia|].
  exists 3%nat. split; [reflexivity|]. simpl. lia.
Qed.

(** From the year 1000 on the year has its four digits. *)
Lemma year_digits_four (y : Z) : 1000 <= y -> year_digits y = zfill 4 y.
Proof.
  intros H. unfold year_digits.
  destruct (y <? 10) eqn:H1; [lia|].
  destruct (y <? 100) eqn:H2; [lia|].
  destruct (y <? 1000) eqn:H3; [lia|]. reflexivity.
Qed.

Lemma strftime_date_text (y m d : Z) :
  1000 <= y -> strftime_Ymd (mk_datetime y m d) = date_text "-" "-" y m d.
Proof.
  intros H. rewrite strftime_text, (year_digits_four y H). reflexivity.
Qed.

Lemma strftime_nonempty (dt : datetime) : String.eqb (strftime_Ymd dt) "" = false.
Proof.
  destruct dt as [y m d]. rewrite strftime_text.
  destruct (year_digits_cases y) as (w & -> & _). reflexivity.
Qed.

End Numerals.

(* ===================================================================== *)
(** ** What [int] refuses                                                *)
(* ===================================================================== *)

Section Refused.

Lemma string_forall_String (P : ascii -> bool) (c : ascii) (s : string) :
  string_forall P (String c s) = P c && string_forall P s.
Proof. reflexivity. Qed.

Lemma skip_ISSPACE_chars (P : ascii -> bool) (s : string) :
  (forall c, Py_ISSPACE c = true -> P c = true) ->
  string_forall P (skip_ISSPACE s) = true -> string_forall P s = true.
Proof.
  intros HP. induction s as [|c s IH]; simpl; [trivial|].
  destruct (Py_ISSPACE c) eqn:Hc.
  - intros H. now rewrite (HP c Hc), IH.
  - trivial.
Qed.

Lemma skip_ISSPACE_all (s : string) :
  skip_ISSPACE s = "" -> string_forall Py_ISSPACE s = true.
Proof.
  induction s as [|c s IH]; simpl; [trivial|].
  destruct (Py_ISSPACE c); [exact IH | discriminate].
Qed.

Lemma long_scan_chars (s : string) : forall (acc : Z) (prev : ascii) (v : Z) (rest : string),
  long_scan 10 acc prev s = Some (v, rest) ->
  string_forall numeral_char rest = true ->
  string_forall numeral_char s = true.
Proof.
  induction s as [|c s IH]; intros acc prev v rest; simpl.
  - trivial.
  - destruct (Ascii.eqb c underscore) eqn:Hu.
    + destruct (Ascii.eqb prev underscore); [discriminate|].
      intros H Hrest. rewrite (IH _ _ _ _ H Hrest), andb_true_r.
      unfold numeral_char. fold underscore. now rewrite Hu, !orb_true_r.
    + destruct (PyLong_DigitValue c <? 10) eqn:Hd.
      * intros H Hrest. rewrite (IH _ _ _ _ H Hrest), andb_true_r.
        unfold numeral_char, Py_ISDIGIT.
        unfold PyLong_DigitValue in Hd.
        destruct ((48 <=? code c) && (code c <=? 57)); [reflexivity|].
        exfalso.
        destruct ((97 <=? code c) && (code c <=? 122)) eqn:E1; [lia|].
        destruct ((65 <=? code c) && (code c <=? 90)) eqn:E2; lia.
      * destruct (Ascii.eqb prev underscore); [discriminate|].
        intros [= _ <-]. trivial.
Qed.

Lemma long_body_chars (s : string) (v : Z) :
  long_body 10 s = Some v -> string_forall numeral_char s = true.
Proof.
  unfold long_body.
  assert (Hs1 : match s with
                | String "0" (String x r) =>
                    if (10 =? 16) && (Ascii.eqb x "x" || Ascii.eqb x "X") then
                      match r with
                      | String "_" r' => r'
                      | _ => r
                      end
                    else s
                | _ => s
                end = s).
  { destruct s as [|c [|x r]]; try reflexivity.
    - now destruct c as [[] [] [] [] [] [] [] []].
    - now destruct c as [[] [] [] [] [] [] [] []]. }
  rewrite Hs1. destruct s as [|c s]; [discriminate|].
  destruct (Ascii.eqb c underscore); [discriminate|].
  destruct (PyLong_DigitValue c <? 10); [|discriminate].
  destruct (long_scan 10 0 "000" (String c s)) as [[v' rest]|] eqn:Hscan; [|discriminate].
  destruct (skip_ISSPACE rest) eqn:Hrest; [|discriminate].
  intros _. apply (long_scan_chars _ _ _ _ _ Hscan).
  apply (string_forall_impl Py_ISSPACE); [|now apply skip_ISSPACE_all].
  intros x Hx. unfold numeral_char, Py_UNICODE_ISSPACE. unfold Py_ISSPACE in Hx.
  lia.
Qed.

Lemma PyLong_FromString_chars (s : string) (v : Z) :
  PyLong_FromString 10 s = Some v -> string_forall numeral_char s = true.
Proof.
  unfold PyLong_FromString. intros H.
  apply skip_ISSPACE_chars.
  { intros c Hc. unfold numeral_char, Py_UNICODE_ISSPACE. unfold Py_ISSPACE in Hc. lia. }
  destruct (skip_ISSPACE s) as [|c r]; [discriminate H|].
  assert (Hsign : forall x, (x = "+" \/ x = "-")%char ->
                            numeral_char x = true) by (intros x [->| ->]; reflexivity).
  destruct (Ascii.eqb_spec c "+") as [->|Hplus].
  { rewrite string_forall_String, (Hsign "+"%char) by auto.
    now apply long_body_chars in H. }
  destruct (Ascii.eqb_spec c "-") as [->|Hminus].
  { rewrite string_forall_String, (Hsign "-"%char) by auto.
    destruct (long_body 10 r) eqn:Hb; [|discriminate H].
    now apply long_body_chars in Hb. }
  apply (long_body_chars _ v). rewrite <- H.
  destruct c as [[] [] [] [] [] [] [] []]; try reflexivity; contradiction.
Qed.

Lemma transform_chars (s : string) :
  string_forall numeral_char (transform_all s) = true ->
  string_forall numeral_char s = true.
Proof.
  induction s as [|c s IH]; simpl; [trivial|].
  intros H. apply andb_true_iff in H as [Hc Hs]. rewrite (IH Hs), andb_true_r.
  unfold transform_char in Hc.
  destruct (code c <? 127); [exact Hc|].
  destruct (Py_UNICODE_ISSPACE c) eqn:Hsp; [|discriminate Hc].
  unfold numeral_char. now rewrite Hsp, !orb_true_r.
Qed.

(** A text that [int] accepts in base ten is made of digits,
    underscores, signs and white space; [int] refuses every other. *)
Lemma py_int_numeral_chars (s : string) (v : Z) :
  py_int s 10 = Ok v -> string_forall numeral_char s = true.
Proof.
  unfold py_int, TransformDecimalAndSpaceToASCII.
  destruct (PyLong_FromString 10 _) as [v'|] eqn:H; [|discriminate].
  intros _. apply PyLong_FromString_chars in H.
  destruct (is_ascii s); [exact H | now apply transform_chars].
Qed.

Lemma py_int_refuses (s : string) :
  string_forall numeral_char s = false -> py_int s 10 = Raise ValueError.
Proof.
  intros H. destruct (py_int s 10) as [v|e] eqn:Hv.
  - apply py_int_numeral_chars in Hv. congruence.
  - unfold py_int in Hv. destruct (PyLong_FromString 10 _); congruence.
Qed.

End Refused.

(* ===================================================================== *)
(** ** [format_exif_raw]                                                 *)
(* ===================================================================== *)

Section FormatExifRaw.

Lemma format_exif_raw_text (raw : string) :
  format_exif_raw (VStr raw) =
  if String.eqb raw "" then Ok None
  else if (3 <=? length (date_components raw))%nat
       then try_except (date_of_components (date_components raw)) (fun _ => Ok None)
       else Ok None.
Proof.
  unfold format_exif_raw. simpl truthy. simpl isinstance_str.
  destruct (String.eqb raw ""); [reflexivity|]. simpl negb. simpl orb.
  rewrite split_first. reflexivity.
Qed.

Lemma format_exif_raw_not_text (v : pyval) :
  isinstance_str v = false -> format_exif_raw v = Ok None.
Proof.
  destruct v; intros H; try discriminate H;
    unfold format_exif_raw; simpl; rewrite ?orb_true_r; reflexivity.
Qed.

Lemma format_exif_raw_falsy (v : pyval) :
  truthy v = false -> format_exif_raw v = Ok None.
Proof.
  intros H. unfold format_exif_raw. now rewrite H.
Qed.

Lemma try_except_returns {A : Type} (c : result A) (a : A) :
  returns (try_except c (fun _ => Ok a)).
Proof.
  destruct c as [x|e]; simpl; [now exists x | now exists a].
Qed.

(** [format_exif_raw] raises on no value at all. *)
Lemma format_exif_raw_returns (v : pyval) : returns (format_exif_raw v).
Proof.
  destruct v as [|s|b|n];
    try (rewrite format_exif_raw_not_text by reflexivity; now exists None).
  rewrite format_exif_raw_text.
  destruct (String.eqb s ""); [now exists None|].
  destruct (3 <=? length (date_components s))%nat; [|now exists None].
  apply try_except_returns.
Qed.

(** A date returned is the text of a calendar date. *)
Lemma format_exif_raw_some (v : pyval) (s : string) :
  format_exif_raw v = Ok (Some s) ->
  exists y m d, valid_date y m d = true /\ s = strftime_Ymd (mk_datetime y m d).
Proof.
  destruct v as [|raw|b|n];
    try (rewrite format_exif_raw_not_text by reflexivity; discriminate).
  rewrite format_exif_raw_text.
  destruct (String.eqb raw ""); [discriminate|].
  destruct (3 <=? length (date_components raw))%nat; [|discriminate].
  unfold date_of_components.
  destruct (unpack3 _) as [[[ys ms] ds]|]; simpl; [|discriminate].
  destruct (py_int ys 10) as [y|]; simpl; [|discriminate].
  destruct (py_int ms 10) as [m|]; simpl; [|discriminate].
  destruct (py_int ds 10) as [d|]; simpl; [|discriminate].
  unfold datetime_new.
  destruct (negb _); simpl; [discriminate|].
  destruct (valid_date y m d) eqn:Hv; simpl; [|discriminate].
  intros [= <-]. now exists y, m, d.
Qed.

Lemma date_text_nonempty (s1 s2 : ascii) (y m d : Z) :
  String.eqb (date_text s1 s2 y m d) "" = false.
Proof. reflexivity. Qed.

Lemma format_exif_raw_truthy (v : pyval) (s : string) :
  format_exif_raw v = Ok (Some s) -> date_truthy (Some s) = true.
Proof.
  intros H. destruct (format_exif_raw_some _ _ H) as (y & m & d & _ & ->).
  unfold date_truthy. now rewrite strftime_nonempty.
Qed.


Lemma date_char_no_space (c : ascii) :
  date_char c = true -> Py_UNICODE_ISSPACE c = false /\ Ascii.eqb c " " = false.
Proof.
  unfold date_char, is_date_sep, Py_ISDIGIT, Py_UNICODE_ISSPACE.
  rewrite !ascii_eqb_code.
  change (code ":") with 58. change (code "-") with 45. change (code " ") with 32.
  lia.
Qed.

(** Cutting the text [D rest] of a date and a suffix at the first blank. *)
Lemma date_part_of_text (D rest : string) :
  D <> "" -> string_forall date_char D = true -> date_suffix rest ->
  fst (fields " " (strip (D ++ rest))) = D.
Proof.
  intros Hne HD Hrest.
  assert (Hns : string_forall (fun c => negb (Py_UNICODE_ISSPACE c)) D = true).
  { revert HD. apply string_forall_impl. intros c Hc.
    now rewrite (proj1 (date_char_no_space c Hc)). }
  assert (Hnb : string_forall (fun c => negb (Ascii.eqb c " ")) D = true).
  { revert HD. apply string_forall_impl. intros c Hc.
    now rewrite (proj2 (date_char_no_space c Hc)). }
  assert (Hstrip : strip (D ++ rest) = D ++ rstrip rest).
  { unfold strip. destruct D as [|c D]; [contradiction|].
    simpl in Hns. apply andb_true_iff in Hns as [Hc HD'].
    apply negb_true_iff in Hc.
    rewrite append_String, lstrip_head by exact Hc.
    rewrite <- append_String, rstrip_app.
    destruct (rstrip rest) as [|x r].
    - rewrite append_empty_r. apply rstrip_no_space. simpl. now rewrite Hc, HD'.
    - reflexivity. }
  rewrite Hstrip, (fields_app _ _ _ Hnb). simpl fst.
  destruct (rstrip_suffix rest Hrest) as [->|[t ->]].
  - apply append_empty_r.
  - rewrite fields_sep. apply append_empty_r.
Qed.





End FormatExifRaw.





Lemma firstn_three {A : Type} (l : list A) :
  (3 <=? length l)%nat = true -> exists a b c, firstn 3 l = [a; b; c].
Proof.
  destruct l as [|a [|b [|c l]]]; simpl; try discriminate.
  intros _. now exists a, b, c.
Qed.

Lemma firstn_three_length {A : Type} (l : list A) (a b c : A) :
  firstn 3 l = [a; b; c] -> (3 <=? length l)%nat = true.
Proof.
  destruct l as [|x [|y [|z l]]]; simpl; intros H; try discriminate H.
  reflexivity.
Qed.

Lemma date_of_components_three (parts : list string) (ys ms ds : string) :
  firstn 3 parts = [ys; ms; ds] ->
  date_of_components parts =
  (y' <- py_int ys 10 ;;
   m' <- py_int ms 10 ;;
   d' <- py_int ds 10 ;;
   dt <- datetime_new y' m' d' ;;
   Ok (Some (strftime_Ymd dt))).
Proof.
  intros H. unfold date_of_components, slice_to. now rewrite H.
Qed.

(** C2. For every malformed or out-of-range date text (fewer than three
    components, a component among the first three that [int] refuses, or
    three numbers that are no calendar date) [format_exif_raw] returns
    [None]; it raises nothing. *)
Theorem format_exif_raw_malformed (raw : string) :
  malformed raw -> format_exif_raw (VStr raw) = Ok None.
Proof.
  intros Hbad. rewrite format_exif_raw_text.
  destruct (String.eqb raw ""); [reflexivity|].
  destruct Hbad as [Hfew | c Hin Hc | ys ms ds y m d Hparts Hy Hm Hd Hdate].
  - replace (3 <=? length (date_components raw))%nat with false by lia.
    reflexivity.
  - destruct (3 <=? length (date_components raw))%nat eqn:Hlen; [|reflexivity].
    destruct (firstn_three _ Hlen) as (a & b & c' & Hparts).
    rewrite (date_of_components_three _ _ _ _ Hparts).
    rewrite Hparts in Hin.
    destruct Hin as [<-|[<-|[<-|[]]]].
    + now rewrite Hc.
    + destruct (py_int a 10); [|reflexivity]. cbn [rbind]. now rewrite Hc.
    + destruct (py_int a 10); [|reflexivity]. cbn [rbind].
      destruct (py_int b 10); [|reflexivity]. cbn [rbind]. now rewrite Hc.
  - rewrite (firstn_three_length _ _ _ _ Hparts).
    rewrite (date_of_components_three _ _ _ _ Hparts), Hy, Hm, Hd. cbn [rbind].
    destruct (datetime_new_invalid _ _ _ Hdate) as [e ->]. reflexivity.
Qed.

Lemma format_exif_raw_malformed_witness :
  format_exif_raw (VStr "2023:13:40") = Ok None.
Proof.
  apply format_exif_raw_malformed.
  apply (no_calendar_date _ "2023" "13" "40" 2023 13 40); reflexivity.
Defined.

Example format_exif_raw_not_a_date : format_exif_raw (VStr "not-a-date") = Ok None.
Proof. vm_compute. reflexivity. Qed.

Example not_a_date_malformed : malformed "not-a-date".
Proof.
  apply (non_numeric_component _ "not"); [|reflexivity].
  vm_compute. now left.
Qed.

(* ===================================================================== *)
(** ** The metadata tiers                                                *)
(* ===================================================================== *)

Section Tiers.

Variable W : World.

Lemma returns_inv {A : Type} (c : result A) (h : exn -> result A) :
  returns c -> try_except c h = c.
Proof. intros [a ->]. reflexivity. Qed.

Lemma try_except_some {A : Type} (c : result (option A)) (d : A) :
  try_except c (fun _ => Ok None) = Ok (Some d) -> c = Ok (Some d).
Proof. destruct c; simpl; [trivial | discriminate]. Qed.

Lemma date_of_field_returns (v : pyval) : returns (date_of_field v).
Proof. apply try_except_returns. Qed.

Lemma date_of_field_truthy (v : pyval) (d : string) :
  date_of_field v = Ok (Some d) -> date_truthy (Some d) = true.
Proof.
  intros H. apply try_except_some in H.
  destruct (decode_or_str v) as [raw|]; [|discriminate].
  now apply (format_exif_raw_truthy (VStr raw)).
Qed.

(** The primary backend, once the metadata is loaded: the capture date
    if the field is there, the modification date otherwise. *)
Lemma get_date_from_piexif_loaded (path : string) (exif : gmap string (gmap Z pyval)) :
  HAVE_PIEXIF W = true -> piexif_load W path = Ok exif ->
  get_date_from_piexif W path =
  if truthy (piexif_field exif "Exif" ExifIFD_DateTimeOriginal)
  then date_of_field (piexif_field exif "Exif" ExifIFD_DateTimeOriginal)
  else if truthy (piexif_field exif "0th" ImageIFD_DateTime)
       then date_of_field (piexif_field exif "0th" ImageIFD_DateTime)
       else Ok None.
Proof.
  intros Hhave Hload. unfold get_date_from_piexif, date_of_field, piexif_field.
  rewrite Hhave, Hload. cbn [negb rbind].
  destruct (truthy _); [reflexivity|].
  destruct (truthy _); reflexivity.
Qed.

Lemma get_date_from_piexif_returns (path : string) :
  returns (get_date_from_piexif W path).
Proof.
  unfold get_date_from_piexif.
  destruct (negb (HAVE_PIEXIF W)); [now exists None | apply try_except_returns].
Qed.

Lemma get_date_from_piexif_truthy (path d : string) :
  get_date_from_piexif W path = Ok (Some d) -> date_truthy (Some d) = true.
Proof.
  unfold get_date_from_piexif.
  destruct (negb (HAVE_PIEXIF W)); [discriminate|].
  intros H. apply try_except_some in H.
  destruct (piexif_load W path) as [exif|]; [|discriminate].
  cbn [rbind] in H.
  destruct (truthy _).
  - apply (date_of_field_truthy (dict_get (default ∅ (exif !! "Exif")) ExifIFD_DateTimeOriginal)).
    unfold date_of_field. now rewrite H.
  - destruct (truthy _); [|discriminate].
    apply (date_of_field_truthy (dict_get (default ∅ (exif !! "0th")) ImageIFD_DateTime)).
    unfold date_of_field. now rewrite H.
Qed.

Lemma probe_tag_present (exif : gmap Z pyval) (tname : string) (v : pyval) :
  probe_tag W exif tname = Some v <-> present W exif tname v.
Proof.
  unfold probe_tag, present. split.
  - destruct (tag_map W !! tname) as [tag|]; [|discriminate].
    destruct (tag =? 0) eqn:Htag; [discriminate|]. cbn [negb].
    destruct (exif !! tag) as [x|] eqn:Hx; [|discriminate].
    destruct (truthy x) eqn:Ht; [|discriminate].
    intros [= <-]. exists tag. repeat split; trivial. lia.
  - intros (tag & -> & Hne & -> & ->).
    replace (tag =? 0) with false by lia. reflexivity.
Qed.

Lemma probe_tag_absent (exif : gmap Z pyval) (tname : string) :
  absent W exif tname -> probe_tag W exif tname = None.
Proof.
  intros Habs. destruct (probe_tag W exif tname) as [v|] eqn:H; [|reflexivity].
  apply probe_tag_present in H. now apply Habs in H.
Qed.

Lemma probe_tag_empty (tname : string) : probe_tag W ∅ tname = None.
Proof.
  unfold probe_tag. destruct (tag_map W !! tname) as [tag|]; [|reflexivity].
  destruct (negb (tag =? 0)); [|reflexivity].
  now rewrite lookup_empty.
Qed.

Lemma probe_tags_returns (exif : gmap Z pyval) (tnames : list string) :
  returns (probe_tags W exif tnames).
Proof.
  induction tnames as [|t l IH]; simpl.
  - now exists None.
  - destruct (probe_tag W exif t); [apply format_exif_raw_returns | exact IH].
Qed.

Lemma probe_tags_empty (tnames : list string) : probe_tags W ∅ tnames = Ok None.
Proof.
  induction tnames as [|t l IH]; simpl; [reflexivity|].
  now rewrite probe_tag_empty.
Qed.

(** The secondary backend, once the image is open and has a metadata
    dictionary: the loop over the three tag names. *)
Lemma get_date_from_pillow_opened (path : string) (img : PilImage) (exif : gmap Z pyval) :
  Image_open W path = Ok img -> img_getexif img = Ok (Some exif) ->
  get_date_from_pillow W path = probe_tags W exif pillow_tag_order.
Proof.
  intros Hopen Hexif. unfold get_date_from_pillow.
  rewrite Hopen. cbn [rbind]. rewrite Hexif. cbn [rbind exif_falsy default].
  destruct (bool_decide (exif = ∅)) eqn:He.
  - apply bool_decide_eq_true in He. subst exif.
    now rewrite probe_tags_empty.
  - apply returns_inv, probe_tags_returns.
Qed.

Lemma get_date_from_pillow_returns (path : string) :
  returns (get_date_from_pillow W path).
Proof. apply try_except_returns. Qed.

Lemma get_date_from_pillow_truthy (path d : string) :
  get_date_from_pillow W path = Ok (Some d) -> date_truthy (Some d) = true.
Proof.
  unfold get_date_from_pillow. intros H. apply try_except_some in H.
  destruct (Image_open W path) as [img|]; [|discriminate]. cbn [rbind] in H.
  destruct (img_getexif img) as [exif|]; [|discriminate]. cbn [rbind] in H.
  destruct (exif_falsy exif); [discriminate|].
  revert H. generalize (default ∅ exif). intros m.
  induction pillow_tag_order as [|t l IH]; simpl; [discriminate|].
  destruct (probe_tag W m t) as [v|]; [|exact IH].
  apply format_exif_raw_truthy.
Qed.

Lemma get_date_string_primary (path d : string) :
  HAVE_PIEXIF W = true -> get_date_from_piexif W path = Ok (Some d) ->
  get_date_string W path = Ok (Some d).
Proof.
  intros Hhave Hd. unfold get_date_string. rewrite Hhave, Hd. cbn [rbind].
  now rewrite (get_date_from_piexif_truthy _ _ Hd).
Qed.

Lemma get_date_string_no_metadata (path : string) :
  no_metadata_date W path -> get_date_string W path = mtime_tier W path.
Proof.
  intros [Hp (d2 & H2 & Ht2)]. unfold get_date_string, mtime_tier.
  rewrite H2. cbn [rbind]. rewrite Ht2.
  destruct (HAVE_PIEXIF W); [|reflexivity].
  destruct (Hp eq_refl) as (d1 & H1 & Ht1).
  rewrite H1. cbn [rbind]. now rewrite Ht1.
Qed.

Lemma get_date_string_returns (path : string) : returns (get_date_string W path).
Proof.
  unfold get_date_string.
  assert (Hrest : returns
    (d <- get_date_from_pillow W path ;;
     if date_truthy d then Ok d
     else try_except
            (mtime <- os_path_getmtime W path ;;
             dt <- fromtimestamp W mtime ;;
             Ok (Some (strftime_Ymd dt)))
            (fun _ => Ok None))).
  { destruct (get_date_from_pillow_returns path) as [d ->]. cbn [rbind].
    destruct (date_truthy d); [now exists d | apply try_except_returns]. }
  destruct (HAVE_PIEXIF W); [|exact Hrest].
  destruct (get_date_from_piexif_returns path) as [d ->]. cbn [rbind].
  destruct (date_truthy d); [now exists d | exact Hrest].
Qed.

End Tiers.

(* ===================================================================== *)
(** ** The calendar                                                      *)
(* ===================================================================== *)

Lemma all_from_spec (f : Z -> bool) (n : nat) : forall i k : Z,
  all_from f n i = true -> i <= k < i + Z.of_nat n -> f k = true.
Proof.
  induction n as [|n IH]; intros i k H Hk; [lia|].
  simpl in H. apply andb_true_iff in H as [Hi Hrest].
  destruct (Z.eq_dec k i) as [->|Hne]; [exact Hi|].
  apply (IH (i + 1)); [exact Hrest | lia].
Qed.

(** Every day of the era of 400 years that starts on 0000-03-01. *)
Lemma days_of_era_ok :
  all_from (fun doe => civil_date_ok (doe - 719468)) (Z.to_nat 146097) 0 = true.
Proof. vm_compute. reflexivity. Qed.

Lemma days_in_month_era (y m k : Z) : days_in_month (y + k * 400) m = days_in_month y m.
Proof.
  unfold days_in_month, is_leap.
  replace ((y + k * 400) mod 4) with (y mod 4)
    by (replace (y + k * 400) with (y + (k * 100) * 4) by lia;
        now rewrite Z_mod_plus_full).
  replace ((y + k * 400) mod 100) with (y mod 100)
    by (replace (y + k * 400) with (y + (k * 4) * 100) by lia;
        now rewrite Z_mod_plus_full).
  now rewrite Z_mod_plus_full.
Qed.

Lemma days_before_year_era (y k : Z) :
  days_before_year (y + k * 400) = days_before_year y + k * 146097.
Proof.
  unfold days_before_year.
  replace ((y + k * 400 - 1) / 4) with ((y - 1) / 4 + k * 100)
    by (replace (y + k * 400 - 1) with (y - 1 + (k * 100) * 4) by lia;
        now rewrite Z.div_add by lia).
  replace ((y + k * 400 - 1) / 100) with ((y - 1) / 100 + k * 4)
    by (replace (y + k * 400 - 1) with (y - 1 + (k * 4) * 100) by lia;
        now rewrite Z.div_add by lia).
  replace ((y + k * 400 - 1) / 400) with ((y - 1) / 400 + k)
    by (replace (y + k * 400 - 1) with (y - 1 + k * 400) by lia;
        now rewrite Z.div_add by lia).
  lia.
Qed.

(** [civil_from_days] repeats every 146097 days, 400 years later. *)
Lemma civil_from_days_era (days : Z) :
  let z := days + 719468 in
  civil_from_days days =
  (let '(y, m, d) := civil_from_days (z mod 146097 - 719468) in
   (y + z / 146097 * 400, m, d)).
Proof.
  intros z. unfold civil_from_days. fold z.
  assert (Hr : 0 <= z mod 146097 < 146097) by (apply Z.mod_pos_bound; lia).
  replace (z mod 146097 - 719468 + 719468) with (z mod 146097) by lia.
  rewrite (Z.div_small (z mod 146097) 146097) by lia.
  replace (z mod 146097 - 0 * 146097) with (z mod 146097) by lia.
  replace (z - z / 146097 * 146097) with (z mod 146097)
    by (rewrite Z.mod_eq by lia; lia).
  set (doe := z mod 146097).
  set (yoe := (doe - doe / 1460 + doe / 36524 - doe / 146096) / 365).
  set (doy := doe - (365 * yoe + yoe / 4 - yoe / 100)).
  set (mp := (5 * doy + 2) / 153).
  cbv zeta. f_equal. f_equal. lia.
Qed.

(** The month and the day of every day number are a month and a day of
    its year, and the day lies in that year. *)
Lemma civil_from_days_ok (days : Z) : civil_date_ok days = true.
Proof.
  unfold civil_date_ok. rewrite civil_from_days_era. cbv zeta.
  assert (Hr : 0 <= (days + 719468) mod 146097 < 146097)
    by (apply Z.mod_pos_bound; lia).
  pose proof (all_from_spec _ _ 0 ((days + 719468) mod 146097) days_of_era_ok) as H.
  rewrite Z2Nat.id in H by lia. specialize (H ltac:(lia)).
  unfold civil_date_ok in H.
  pose proof (Z.div_mod (days + 719468) 146097 ltac:(lia)) as Hdm.
  destruct (civil_from_days ((days + 719468) mod 146097 - 719468)) as [[y m] d].
  rewrite days_in_month_era, days_before_year_era.
  replace (y + (days + 719468) / 146097 * 400 + 1)
    with (y + 1 + (days + 719468) / 146097 * 400) by lia.
  rewrite days_before_year_era. lia.
Qed.

Lemma civil_from_days_bounds (days y m d : Z) :
  civil_from_days days = (y, m, d) ->
  1 <= m <= 12 /\ 1 <= d <= days_in_month y m
  /\ days_before_year y <= days + 719162 < days_before_year (y + 1).
Proof.
  intros H. pose proof (civil_from_days_ok days) as Hok.
  unfold civil_date_ok in Hok. rewrite H in Hok. lia.
Qed.

(** The quotients of [days_before_year], with their defining bounds. *)
Ltac days_before_year_quotients :=
  unfold days_before_year;
  repeat match goal with
  | |- context [?a / ?k] =>
      let q := fresh "q" in
      pose proof (Z.div_mod a k ltac:(lia));
      pose proof (Z.mod_pos_bound a k ltac:(lia));
      set (q := a / k) in *; clearbody q
  end.

Lemma days_before_year_low (y : Z) : y <= 1 -> days_before_year y <= 0.
Proof. intros H. days_before_year_quotients. lia. Qed.

Lemma days_before_year_2 (y : Z) : 2 <= y -> 365 <= days_before_year y.
Proof. intros H. days_before_year_quotients. lia. Qed.

Lemma days_before_year_9999 (y : Z) : y <= 9999 -> days_before_year y <= 3651694.
Proof. intros H. days_before_year_quotients. lia. Qed.

Lemma days_before_year_high (y : Z) : 10000 <= y -> 3652059 <= days_before_year y.
Proof. intros H. days_before_year_quotients. lia. Qed.

Lemma days_before_year_0 (y : Z) : y <= 0 -> days_before_year y <= - 366.
Proof. intros H. days_before_year_quotients. lia. Qed.

Lemma days_before_year_1 (y : Z) : 1 <= y -> 0 <= days_before_year y.
Proof. intros H. days_before_year_quotients. lia. Qed.

Lemma days_before_year_10000 (y : Z) : y <= 10000 -> days_before_year y <= 3652059.
Proof. intros H. days_before_year_quotients. lia. Qed.

Lemma days_before_year_10001 (y : Z) : 10001 <= y -> 3652425 <= days_before_year y.
Proof. intros H. days_before_year_quotients. lia. Qed.

(** A day at most four days from a day of the years 2 to 9998 lies in
    the years 1 to 9999. *)
Lemma near_year (days days' y m d y' m' d' : Z) :
  civil_from_days days = (y, m, d) -> civil_from_days days' = (y', m', d') ->
  - 4 <= days' - days <= 4 -> 2 <= y <= 9998 -> 1 <= y' <= 9999.
Proof.
  intros H H' Hnear Hy.
  apply civil_from_days_bounds in H as (_ & _ & Hb).
  apply civil_from_days_bounds in H' as (_ & _ & Hb').
  pose proof (days_before_year_2 y ltac:(lia)).
  pose proof (days_before_year_9999 (y + 1) ltac:(lia)).
  split.
  - destruct (Z_le_gt_dec 1 y') as [|Hlow]; [assumption|].
    pose proof (days_before_year_low (y' + 1) ltac:(lia)). lia.
  - destruct (Z_le_gt_dec y' 9999) as [|Hhigh]; [assumption|].
    pose proof (days_before_year_high y' ltac:(lia)). lia.
Qed.

(** A day at most four days from a day of the years 1 to 9999 lies in
    the years 0 to 10000. *)
Lemma near_year_wide (days days' y m d y' m' d' : Z) :
  civil_from_days days = (y, m, d) -> civil_from_days days' = (y', m', d') ->
  - 4 <= days' - days <= 4 -> 1 <= y <= 9999 -> 0 <= y' <= 10000.
Proof.
  intros H H' Hnear Hy.
  apply civil_from_days_bounds in H as (_ & _ & Hb).
  apply civil_from_days_bounds in H' as (_ & _ & Hb').
  pose proof (days_before_year_1 y ltac:(lia)).
  pose proof (days_before_year_10000 (y + 1) ltac:(lia)).
  split.
  - destruct (Z_le_gt_dec 0 y') as [|Hlow]; [assumption|].
    pose proof (days_before_year_0 (y' + 1) ltac:(lia)). lia.
  - destruct (Z_le_gt_dec y' 10000) as [|Hhigh]; [assumption|].
    pose proof (days_before_year_10001 y' ltac:(lia)). lia.
Qed.

Section TierProperties.

Variable W : World.

Lemma pillow_probed (path : string) (img : PilImage) (exif : gmap Z pyval)
      (tname : string) (v : pyval) :
  Image_open W path = Ok img -> img_getexif img = Ok (Some exif) ->
  probed W exif tname v ->
  get_date_from_pillow W path = format_exif_raw v.
Proof.
  intros Hopen Hexif Hp.
  rewrite (get_date_from_pillow_opened W path img exif Hopen Hexif).
  unfold pillow_tag_order. cbn [probe_tags].
  destruct Hp as [v H1 | v A1 H2 | v A1 A2 H3].
  - apply probe_tag_present in H1. now rewrite H1.
  - apply probe_tag_present in H2.
    now rewrite (probe_tag_absent W _ _ A1), H2.
  - apply probe_tag_present in H3.
    now rewrite (probe_tag_absent W _ _ A1), (probe_tag_absent W _ _ A2), H3.
Qed.

Lemma pillow_nothing_probed (path : string) (img : PilImage) (exif : gmap Z pyval) :
  Image_open W path = Ok img -> img_getexif img = Ok (Some exif) ->
  absent W exif "DateTimeOriginal" -> absent W exif "DateTime" ->
  absent W exif "DateTimeDigitized" ->
  get_date_from_pillow W path = Ok None.
Proof.
  intros Hopen Hexif A1 A2 A3.
  rewrite (get_date_from_pillow_opened W path img exif Hopen Hexif).
  unfold pillow_tag_order. cbn [probe_tags].
  now rewrite (probe_tag_absent W _ _ A1), (probe_tag_absent W _ _ A2),
    (probe_tag_absent W _ _ A3).
Qed.

Lemma mtime_tier_eq (path : string) (x : spec_float) :
  os_path_getmtime W path = Ok x ->
  mtime_tier W path =
  match fromtimestamp W x with
  | Ok dt => Ok (Some (strftime_Ymd dt))
  | Raise _ => Ok None
  end.
Proof.
  intros H. unfold mtime_tier. rewrite H. cbn [rbind].
  now destruct (fromtimestamp W x).
Qed.

Lemma mtime_tier_inaccessible (path : string) (e : exn) :
  os_path_getmtime W path = Raise e -> mtime_tier W path = Ok None.
Proof. intros H. unfold mtime_tier. now rewrite H. Qed.

(** [localtime] gives the local date when its year is one of 1 to 9999
    and the local time is within a day of UTC. *)
Lemma localtime_in_range (u y m d : Z) :
  Z.abs (utc_offset W u) <= 86400 ->
  local_date W u = (y, m, d) -> 1 <= y <= 9999 ->
  localtime W u = Ok (y, m, d).
Proof.
  intros Hoff H Hy. unfold localtime.
  destruct (civil_from_days (u / 86400)) as [[y0 m0] d0] eqn:H0.
  rewrite H.
  assert (Hy0 : 0 <= y0 <= 10000).
  { unfold local_date in H.
    apply (near_year_wide _ _ _ _ _ _ _ _ H H0); [|exact Hy].
    pose proof (Z.div_mod (u + utc_offset W u) 86400 ltac:(lia)).
    pose proof (Z.mod_pos_bound (u + utc_offset W u) 86400 ltac:(lia)).
    pose proof (Z.div_mod u 86400 ltac:(lia)).
    pose proof (Z.mod_pos_bound u 86400 ltac:(lia)).
    lia. }
  replace (fits_C_int (y0 - 1900)) with true by (unfold fits_C_int; lia).
  replace (fits_C_int (y - 1900)) with true by (unfold fits_C_int; lia).
  reflexivity.
Qed.

Lemma local_in_range (u y m d : Z) :
  Z.abs (utc_offset W u) <= 86400 ->
  local_date W u = (y, m, d) -> 1 <= y <= 9999 ->
  local W u = Ok (u + utc_offset W u).
Proof.
  intros Hoff H Hy. unfold local.
  rewrite (localtime_in_range _ _ _ _ Hoff H Hy).
  cbn [rbind].
  replace (year_in_range y) with true by (unfold year_in_range, MINYEAR, MAXYEAR; lia).
  reflexivity.
Qed.

(** [fromtimestamp] gives the local date of the seconds when that date
    is well inside the years that [datetime] has and the local time is
    within a day of UTC. *)
Lemma fromtimestamp_date (x : spec_float) (t y m d : Z) :
  timeval_seconds x = Ok t ->
  (forall u, Z.abs (utc_offset W u) <= 86400) ->
  local_date W t = (y, m, d) -> 2 <= y <= 9998 ->
  fromtimestamp W x = Ok (mk_datetime y m d).
Proof.
  intros Ht Hoff Hd Hy. unfold fromtimestamp. rewrite Ht. cbn [rbind].
  rewrite (localtime_in_range _ _ _ _ (Hoff t) Hd) by lia.
  cbn [rbind].
  replace (year_in_range y) with true by (unfold year_in_range, MINYEAR, MAXYEAR; lia).
  cbn [rbind]. change max_fold_seconds with 86400.
  pose proof (Hoff t) as Hot. pose proof (Hoff (t - 86400)) as Hop.
  destruct (local_date W (t - 86400)) as [[y1 m1] d1] eqn:H1.
  assert (Hy1 : 1 <= y1 <= 9999).
  { unfold local_date in Hd, H1.
    apply (near_year _ _ _ _ _ _ _ _ Hd H1); [|exact Hy].
    pose proof (Z.div_mod (t + utc_offset W t) 86400 ltac:(lia)).
    pose proof (Z.mod_pos_bound (t + utc_offset W t) 86400 ltac:(lia)).
    pose proof (Z.div_mod (t - 86400 + utc_offset W (t - 86400)) 86400 ltac:(lia)).
    pose proof (Z.mod_pos_bound (t - 86400 + utc_offset W (t - 86400)) 86400 ltac:(lia)).
    lia. }
  rewrite (local_in_range _ _ _ _ Hop H1 Hy1). cbn [rbind].
  assert (Hvalid : valid_date y m d = true).
  { unfold local_date in Hd. apply civil_from_days_bounds in Hd.
    unfold valid_date, MINYEAR, MAXYEAR. lia. }
  set (transition := t + utc_offset W t - (t - 86400 + utc_offset W (t - 86400)) - 86400).
  destruct (transition <? 0) eqn:Htr; [|cbn [rbind]; now apply datetime_new_valid].
  pose proof (Hoff (t + transition)) as Hoq.
  destruct (local_date W (t + transition)) as [[y2 m2] d2] eqn:H2.
  assert (Hy2 : 1 <= y2 <= 9999).
  { unfold local_date in Hd, H2.
    apply (near_year _ _ _ _ _ _ _ _ Hd H2); [|exact Hy].
    pose proof (Z.div_mod (t + utc_offset W t) 86400 ltac:(lia)).
    pose proof (Z.mod_pos_bound (t + utc_offset W t) 86400 ltac:(lia)).
    pose proof (Z.div_mod (t + transition + utc_offset W (t + transition)) 86400 ltac:(lia)).
    pose proof (Z.mod_pos_bound (t + transition + utc_offset W (t + transition)) 86400
                  ltac:(lia)).
    unfold transition in *. lia. }
  rewrite (local_in_range _ _ _ _ Hoq H2 Hy2). cbn [rbind].
  now apply datetime_new_valid.
Qed.

(** [fromtimestamp] raises when the local year is none of 1 to 9999. *)
Lemma fromtimestamp_out_of_range (x : spec_float) (t y m d : Z) :
  timeval_seconds x = Ok t -> local_date W t = (y, m, d) ->
  ~ 1 <= y <= 9999 ->
  exists e, fromtimestamp W x = Raise e.
Proof.
  intros Ht Hd Hy. unfold fromtimestamp. rewrite Ht. cbn [rbind].
  unfold localtime.
  destruct (civil_from_days (t / 86400)) as [[y0 m0] d0]. rewrite Hd.
  destruct (fits_C_int (y0 - 1900) && fits_C_int (y - 1900)); [|now exists OSError].
  cbn [rbind].
  replace (year_in_range y) with false by (unfold year_in_range, MINYEAR, MAXYEAR; lia).
  now exists ValueError.
Qed.

(** A date of [fromtimestamp] is a real calendar date. *)
Lemma fromtimestamp_valid (x : spec_float) (dt : datetime) :
  fromtimestamp W x = Ok dt ->
  valid_date (dt_year dt) (dt_month dt) (dt_day dt) = true.
Proof.
  unfold fromtimestamp.
  destruct (timeval_seconds x) as [t|]; [|discriminate]. cbn [rbind].
  destruct (localtime W t) as [[[y m] d]|]; [|discriminate]. cbn [rbind].
  destruct (year_in_range y); [|discriminate]. cbn [rbind].
  destruct (local W (t - max_fold_seconds)) as [p|]; [|discriminate]. cbn [rbind].
  destruct (if _ <? 0 then _ else _); [|discriminate]. cbn [rbind].
  intros H. apply datetime_new_ok in H as [Hv ->]. exact Hv.
Qed.

End TierProperties.

(** C3. The tiers in their order.  A date of the primary backend is the
    result, whatever the other tiers hold; within the primary backend the
    capture date is read before the modification date; the secondary
    backend probes DateTimeOriginal, DateTime, DateTimeDigitized in this
    order and normalises the first present non-empty value. *)
Theorem tier_priority (W : World) (path : string) :
  (forall d : string,
      HAVE_PIEXIF W = true -> get_date_from_piexif W path = Ok (Some d) ->
      get_date_string W path = Ok (Some d))
  /\ (forall exif : gmap string (gmap Z pyval),
         HAVE_PIEXIF W = true -> piexif_load W path = Ok exif ->
         let original := piexif_field exif "Exif" ExifIFD_DateTimeOriginal in
         let modified := piexif_field exif "0th" ImageIFD_DateTime in
         (truthy original = true ->
          get_date_from_piexif W path = date_of_field original)
         /\ (truthy original = false -> truthy modified = true ->
             get_date_from_piexif W path = date_of_field modified))
  /\ (forall (img : PilImage) (exif : gmap Z pyval),
         Image_open W path = Ok img -> img_getexif img = Ok (Some exif) ->
         (forall v, present W exif "DateTimeOriginal" v ->
                    get_date_from_pillow W path = format_exif_raw v)
         /\ (forall v, absent W exif "DateTimeOriginal" ->
                       present W exif "DateTime" v ->
                       get_date_from_pillow W path = format_exif_raw v)
         /\ (forall v, absent W exif "DateTimeOriginal" ->
                       absent W exif "DateTime" ->
                       present W exif "DateTimeDigitized" v ->
                       get_date_from_pillow W path = format_exif_raw v)).
Proof.
  split; [|split].
  - intros d. apply get_date_string_primary.
  - intros exif Hhave Hload original modified.
    rewrite (get_date_from_piexif_loaded W path exif Hhave Hload).
    fold original modified. split.
    + now intros ->.
    + now intros -> ->.
  - intros img exif Hopen Hexif. split; [|split]; intros v.
    + intros H.
      apply (pillow_probed W path img exif "DateTimeOriginal" v Hopen Hexif).
      now constructor.
    + intros A1 H.
      apply (pillow_probed W path img exif "DateTime" v Hopen Hexif).
      now constructor.
    + intros A1 A2 H.
      apply (pillow_probed W path img exif "DateTimeDigitized" v Hopen Hexif).
      now constructor.
Qed.

Lemma tier_priority_witness :
  get_date_string disagreeing_world "a.jpg" = Ok (Some "2022-07-04")
  /\ get_date_from_piexif disagreeing_world "a.jpg"
     = date_of_field (VBytes "2022:07:04 10:00:00")
  /\ get_date_from_pillow disagreeing_world "a.jpg"
     = format_exif_raw (VStr "2020:01:01 00:00:00").
Proof.
  destruct (tier_priority disagreeing_world "a.jpg") as (H1 & H2 & H3).
  split; [|split].
  - apply H1; vm_compute; reflexivity.
  - destruct (H2 {[ "Exif" := {[ 36867 := VBytes "2022:07:04 10:00:00" ]};
                     "0th" := {[ 306 := VBytes "2021:05:05 08:00:00" ]} ]}
                  eq_refl eq_refl) as [Horiginal _].
    rewrite Horiginal; vm_compute; reflexivity.
  - destruct (H3 (sample_image (Some {[ 306 := VStr "2020:01:01 00:00:00" ]}))
                 {[ 306 := VStr "2020:01:01 00:00:00" ]} eq_refl eq_refl)
      as (_ & Hmodified & _).
    apply Hmodified.
    + intros v (tag & Htag & _ & Hv & _).
      vm_compute in Htag. injection Htag as <-.
      vm_compute in Hv. discriminate Hv.
    + exists 306. split; [|split; [|split]]; try (vm_compute; reflexivity). lia.
Defined.

(** C8 as stated fails: a file that is accessible, carries no metadata
    date and was last modified in the year 10000 gets no date. *)
Lemma far_future_mtime_no_date :
  no_metadata_date far_future_world "a.png"
  /\ (exists x, os_path_getmtime far_future_world "a.png" = Ok x
                /\ timeval_seconds x = Ok 253402300800)
  /\ local_date far_future_world 253402300800 = (10000, 1, 1)
  /\ get_date_string far_future_world "a.png" = Ok None.
Proof.
  split; [split|split; [|split]].
  - intros H. discriminate H.
  - exists None. split; reflexivity.
  - exists (S754_finite false 8303486592614400 (-15)). split; vm_compute; reflexivity.
  - vm_compute. reflexivity.
  - vm_compute. reflexivity.
Qed.

(** C8, as amended.  [get_date_string] raises nothing.  When neither
    metadata backend yields a date and the file is accessible, the result
    is what [strftime] writes for the date that [datetime.fromtimestamp]
    gives for the modification time, and [None] when that call raises.
    The call takes the seconds of the time, rounded to the microsecond,
    and gives their local date: with a local time within a day of UTC and
    a local year from 1000 to 9998 the result is the text [YYYY-MM-DD] of
    the local date; with a local year outside 1 to 9999 the result is
    [None], and so it is when the file is inaccessible. *)
Theorem filesystem_tier (W : World) (path : string) :
  returns (get_date_string W path)
  /\ (no_metadata_date W path ->
      (forall x,
          os_path_getmtime W path = Ok x ->
          get_date_string W path
          = match fromtimestamp W x with
            | Ok dt => Ok (Some (strftime_Ymd dt))
            | Raise _ => Ok None
            end)
      /\ (forall x t y m d,
             os_path_getmtime W path = Ok x -> timeval_seconds x = Ok t ->
             (forall u, Z.abs (utc_offset W u) <= 86400) ->
             local_date W t = (y, m, d) -> 1000 <= y <= 9998 ->
             get_date_string W path = Ok (Some (date_text "-" "-" y m d)))
      /\ (forall x t y m d,
             os_path_getmtime W path = Ok x -> timeval_seconds x = Ok t ->
             local_date W t = (y, m, d) -> ~ MINYEAR <= y <= MAXYEAR ->
             get_date_string W path = Ok None)
      /\ (forall x e,
             os_path_getmtime W path = Ok x -> timeval_seconds x = Raise e ->
             get_date_string W path = Ok None)
      /\ (forall e,
             os_path_getmtime W path = Raise e ->
             get_date_string W path = Ok None)).
Proof.
  split; [apply get_date_string_returns|].
  intros Hnone. rewrite (get_date_string_no_metadata W path Hnone).
  split; [|split; [|split; [|split]]].
  - intros x Hx. now apply mtime_tier_eq.
  - intros x t y m d Hx Ht Hoff Hd Hy. rewrite (mtime_tier_eq W path x Hx).
    rewrite (fromtimestamp_date W x t y m d Ht Hoff Hd) by lia.
    now rewrite strftime_date_text by lia.
  - intros x t y m d Hx Ht Hd Hy. rewrite (mtime_tier_eq W path x Hx).
    destruct (fromtimestamp_out_of_range W x t y m d Ht Hd) as [e ->];
      [unfold MINYEAR, MAXYEAR in Hy; exact Hy | reflexivity].
  - intros x e Hx Ht. rewrite (mtime_tier_eq W path x Hx).
    unfold fromtimestamp. now rewrite Ht.
  - intros e. apply mtime_tier_inaccessible.
Qed.

Lemma plain_world_no_metadata : no_metadata_date plain_world "a.png".
Proof.
  split.
  - intros H. discriminate H.
  - exists None. split; reflexivity.
Defined.

Lemma filesystem_tier_witness :
  get_date_string plain_world "a.png" = Ok (Some "2023-03-01").
Proof.
  destruct (filesystem_tier plain_world "a.png") as [_ H].
  destruct (H plain_world_no_metadata) as (_ & Hdate & _).
  apply (Hdate (S754_finite false 7036666380288000 (-22)) 1677672000 2023 3 1).
  - vm_compute. reflexivity.
  - vm_compute. reflexivity.
  - intros u. simpl. lia.
  - vm_compute. reflexivity.
  - lia.
Defined.

(** The modification time is rounded to the microsecond before its date
    is taken: a file modified two tenths of a microsecond before
    midnight gets the date of the next day.  A date before the year 1000
    comes without the leading zeros of the year. *)
Example mtime_rounding_and_early_year :
  get_date_string just_before_midnight_world "a.png" = Ok (Some "2023-03-02")
  /\ get_date_string early_world "a.png" = Ok (Some "5-06-15")
  /\ get_date_string first_day_world "a.png" = Ok None.
Proof. split; [|split]; vm_compute; reflexivity. Qed.

(** C10. A value that is no text, and the empty text, give [None] and no
    exception; so the secondary backend, which hands the tag value over
    undecoded, yields [None] whenever the tag it settles on holds bytes. *)
Theorem non_text_yields_nothing :
  (forall v : pyval,
      isinstance_str v = false \/ v = VStr "" -> format_exif_raw v = Ok None)
  /\ (forall (W : World) (path : string) (img : PilImage) (exif : gmap Z pyval)
             (tname b : string),
         Image_open W path = Ok img -> img_getexif img = Ok (Some exif) ->
         probed W exif tname (VBytes b) ->
         get_date_from_pillow W path = Ok None).
Proof.
  split.
  - intros v [H| ->].
    + now apply format_exif_raw_not_text.
    + reflexivity.
  - intros W path img exif tname b Hopen Hexif Hp.
    rewrite (pillow_probed W path img exif tname _ Hopen Hexif Hp).
    now apply format_exif_raw_not_text.
Qed.

Lemma non_text_yields_nothing_witness :
  format_exif_raw (VBytes "2022:07:04 10:00:00") = Ok None
  /\ format_exif_raw VNone = Ok None
  /\ format_exif_raw (VStr "") = Ok None
  /\ get_date_from_pillow bytes_world "a.jpg" = Ok None.
Proof.
  destruct non_text_yields_nothing as [Hvalue Htier].
  split; [|split; [|split]].
  - apply Hvalue. now left.
  - apply Hvalue. now left.
  - apply Hvalue. now right.
  - apply (Htier bytes_world "a.jpg"
             (sample_image (Some {[ 36867 := VBytes "2022:07:04 10:00:00";
                                    306 := VStr "2020:01:01 00:00:00" ]}))
             {[ 36867 := VBytes "2022:07:04 10:00:00";
                306 := VStr "2020:01:01 00:00:00" ]}
             "DateTimeOriginal" "2022:07:04 10:00:00");
      try reflexivity.
    constructor. exists 36867.
    split; [|split; [|split]]; try (vm_compute; reflexivity). lia.
Defined.

(* ===================================================================== *)
(** ** Comparison of floats                                              *)
(* ===================================================================== *)

Section FloatOrder.

Lemma SFcompare_antisym (x y : spec_float) :
  SFcompare y x = option_map CompOpp (SFcompare x y).
Proof.
  destruct x as [sx|sx| |sx mx ex], y as [sy|sy| |sy my ey]; simpl;
    try reflexivity; try (destruct sx; reflexivity); try (destruct sy; reflexivity);
    try (destruct sx, sy; reflexivity).
  pose proof (Pos.compare_cont_antisym mx my Eq) as Hm. simpl in Hm.
  destruct sx, sy; simpl; try reflexivity.
  - rewrite (Z.compare_antisym ey ex).
    destruct (ey ?= ex); simpl; try reflexivity.
    rewrite <- Hm. now destruct (Pos.compare_cont Eq mx my).
  - rewrite (Z.compare_antisym ey ex).
    destruct (ey ?= ex); simpl; try reflexivity.
    now rewrite <- Hm.
Qed.

Lemma SFltb_not_SFleb (x y : spec_float) : SFltb x y = true -> SFleb y x = false.
Proof.
  unfold SFltb, SFleb. rewrite (SFcompare_antisym x y).
  destruct (SFcompare x y) as [[]|]; simpl; try discriminate; reflexivity.
Qed.

Lemma SFleb_not_SFltb (x y : spec_float) : SFleb x y = true -> SFltb y x = false.
Proof.
  unfold SFltb, SFleb. rewrite (SFcompare_antisym x y).
  destruct (SFcompare x y) as [[]|]; simpl; try discriminate; reflexivity.
Qed.

Lemma float_one_value : float_one = S754_finite false 4503599627370496 (-52).
Proof. vm_compute. reflexivity. Qed.

Lemma SFleb_zero_one (x : spec_float) : SFleb x float_zero = true -> SFleb float_one x = false.
Proof.
  rewrite float_one_value. unfold float_zero.
  destruct x as [s|s| |s m e]; simpl; try discriminate; try reflexivity.
  - now destruct s.
  - now destruct s.
Qed.

End FloatOrder.

(* ===================================================================== *)
(** ** Layout, colour, measurement, font size                            *)
(* ===================================================================== *)

(** C4 as stated fails: the centre is computed with the floor division,
    which differs from the truncated one when the text is larger than
    the image. *)
Lemma calc_pos_center_not_truncated :
  calc_pos "center" (10, 10) (13, 13) default_margin = (-2, -2)
  /\ calc_pos "center" (10, 10) (13, 13) default_margin
     <> (Z.quot (10 - 13) 2, Z.quot (10 - 13) 2).
Proof.
  split.
  - reflexivity.
  - vm_compute. discriminate.
Qed.

(** C4, as amended.  The four named anchors follow their formulas; the
    centre is the floor of half the free space in each direction, which
    is the truncated half when the text fits in the image; every other
    name gives the bottom-right position. *)
Theorem calc_pos_formulas (pos_name : string) (iw ih tw th m : Z) :
  calc_pos "top-left" (iw, ih) (tw, th) m = (m, m)
  /\ calc_pos "top-right" (iw, ih) (tw, th) m = (iw - tw - m, m)
  /\ calc_pos "bottom-left" (iw, ih) (tw, th) m = (m, ih - th - m)
  /\ (exists x y, calc_pos "center" (iw, ih) (tw, th) m = (x, y)
                  /\ 2 * x <= iw - tw < 2 * x + 2
                  /\ 2 * y <= ih - th < 2 * y + 2)
  /\ (tw <= iw -> th <= ih ->
      calc_pos "center" (iw, ih) (tw, th) m = (Z.quot (iw - tw) 2, Z.quot (ih - th) 2))
  /\ (pos_name <> "top-left" -> pos_name <> "top-right" ->
      pos_name <> "bottom-left" -> pos_name <> "center" ->
      calc_pos pos_name (iw, ih) (tw, th) m = (iw - tw - m, ih - th - m))
  /\ calc_pos "center" (100, 50) (20, 10) default_margin = (40, 20)
  /\ calc_pos "top-right" (100, 50) (20, 10) default_margin = (70, 10)
  /\ calc_pos "unknown-anchor" (100, 50) (20, 10) default_margin = (70, 30).
Proof.
  split; [reflexivity|]. split; [reflexivity|]. split; [reflexivity|].
  split.
  { exists ((iw - tw) / 2), ((ih - th) / 2). split; [reflexivity|].
    pose proof (Z.div_mod (iw - tw) 2). pose proof (Z.mod_pos_bound (iw - tw) 2).
    pose proof (Z.div_mod (ih - th) 2). pose proof (Z.mod_pos_bound (ih - th) 2).
    lia. }
  split.
  { intros Hw Hh. unfold calc_pos. cbn [String.eqb Ascii.eqb Bool.eqb].
    now rewrite !Z.quot_div_nonneg by lia. }
  split.
  { intros H1 H2 H3 H4. unfold calc_pos.
    apply String.eqb_neq in H1, H2, H3, H4. now rewrite H1, H2, H3, H4. }
  split; [reflexivity|]. split; reflexivity.
Qed.

Lemma calc_pos_formulas_witness :
  calc_pos "center" (100, 50) (20, 10) 10 = (Z.quot 80 2, Z.quot 40 2)
  /\ calc_pos "bottom-right" (100, 50) (20, 10) 10 = (70, 30).
Proof.
  destruct (calc_pos_formulas "bottom-right" 100 50 20 10 10)
    as (_ & _ & _ & _ & Hfit & Hother & _).
  split.
  - apply Hfit; lia.
  - apply Hother; discriminate.
Defined.

(** C5 fails on the code: a seven-character text that starts with [#]
    and does not continue with hexadecimal digits makes [parse_color]
    raise [ValueError] instead of giving white. *)
Theorem parse_color_bad_hex_raises :
  parse_color "#GGGGGG" = Raise ValueError.
Proof. vm_compute. reflexivity. Qed.

(** What C5 says and the code does: the hexadecimal form, the names in
    any case, white for an unknown name. *)
Example parse_color_examples :
  parse_color "#FF0000" = Ok (255, 0, 0)
  /\ parse_color "Blue" = Ok (0, 0, 255)
  /\ parse_color "mauve" = Ok (255, 255, 255).
Proof. split; [|split]; vm_compute; reflexivity. Qed.

(** The same missing check lets a sign through. *)
Example parse_color_signed : parse_color "#-1-1-1" = Ok (-1, -1, -1).
Proof. vm_compute. reflexivity. Qed.

(** Outside the hexadecimal form [parse_color] raises nothing. *)
Lemma parse_color_name (s : string) :
  startswith (strip (or_empty s)) "#" && (len (strip (or_empty s)) =? 7) = false ->
  parse_color s = Ok (default white (names !! lower (strip (or_empty s)))).
Proof. intros H. unfold parse_color. now rewrite H. Qed.

(** C6. [_measure_text] raises nothing: the bounding box if that call
    works, else the font's size, else the context's size, else eight
    pixels a character and sixteen pixels of height. *)
Theorem measure_text_never_raises (draw : Draw) (text : string) (font : Font) :
  returns (_measure_text draw text font)
  /\ (forall x0 y0 x1 y1,
         draw_textbbox draw (0, 0) text font = Ok (x0, y0, x1, y1) ->
         _measure_text draw text font = Ok (x1 - x0, y1 - y0))
  /\ (forall e1 size,
         draw_textbbox draw (0, 0) text font = Raise e1 ->
         font_getsize font text = Ok size ->
         _measure_text draw text font = Ok size)
  /\ (forall e1 e2 size,
         draw_textbbox draw (0, 0) text font = Raise e1 ->
         font_getsize font text = Raise e2 ->
         draw_textsize draw text font = Ok size ->
         _measure_text draw text font = Ok size)
  /\ (forall e1 e2 e3,
         draw_textbbox draw (0, 0) text font = Raise e1 ->
         font_getsize font text = Raise e2 ->
         draw_textsize draw text font = Raise e3 ->
         _measure_text draw text font = Ok (8 * len text, 16)).
Proof.
  unfold _measure_text. split; [|split; [|split; [|split]]].
  - destruct (draw_textbbox draw (0, 0) text font) as [[[[x0 y0] x1] y1]|];
      cbn [rbind try_except]; [eexists; reflexivity|].
    destruct (font_getsize font text); cbn [try_except]; [eexists; reflexivity|].
    destruct (draw_textsize draw text font); eexists; reflexivity.
  - now intros x0 y0 x1 y1 ->.
  - now intros e1 size -> ->.
  - now intros e1 e2 size -> -> ->.
  - intros e1 e2 e3 -> -> ->. cbn [rbind try_except]. f_equal. f_equal. lia.
Qed.

Lemma measure_text_never_raises_witness :
  _measure_text failing_draw "2022-07-04" failing_font = Ok (80, 16).
Proof.
  destruct (measure_text_never_raises failing_draw "2022-07-04" failing_font)
    as (_ & _ & _ & _ & Hlast).
  apply (Hlast AttributeError AttributeError AttributeError); reflexivity.
Defined.
(** C7 as stated fails: a specification that parses as a number of at
    least 1 can be too large for a float; it then parses as infinity,
    which has no integer part, and the size is the default. *)
Lemma compute_font_px_huge_number :
  py_float "1e400" = Ok (S754_infinity false)
  /\ SFleb float_one (S754_infinity false) = true
  /\ compute_font_px "1e400" 100 = Ok 36.
Proof. split; [|split]; vm_compute; reflexivity. Qed.

(** C7, as amended.  [compute_font_px] raises nothing.  A specification
    that [float] refuses gives 36; one that parses as a finite number of
    at least 1 gives its integer part; one that parses strictly between 0
    and 1 gives the integer part of its product with the image width, and
    at least 12; every other parsed value (an infinity, a NaN, zero or a
    negative number) gives 36. *)
Theorem compute_font_px_rule (spec : string) (img_w : Z) :
  returns (compute_font_px spec img_w)
  /\ (forall e, py_float spec = Raise e -> compute_font_px spec img_w = Ok 36)
  /\ (forall m e,
         py_float spec = Ok (S754_finite false m e) ->
         SFleb float_one (S754_finite false m e) = true ->
         compute_font_px spec img_w = Ok (integer_part m e))
  /\ (forall val w n,
         py_float spec = Ok val ->
         SFltb float_zero val = true -> SFltb val float_one = true ->
         float_of_int img_w = Ok w -> float_to_int (float_mul w val) = Ok n ->
         compute_font_px spec img_w = Ok (Z.max 12 n) /\ 12 <= Z.max 12 n)
  /\ (forall val,
         py_float spec = Ok val ->
         (val = S754_nan \/ (exists s, val = S754_infinity s)
          \/ SFleb val float_zero = true) ->
         compute_font_px spec img_w = Ok 36)
  /\ compute_font_px "0.5" 100 = Ok 50
  /\ compute_font_px "abc" img_w = Ok 36
  /\ compute_font_px "20" img_w = Ok 20.
Proof.
  unfold compute_font_px.
  split; [|split; [|split; [|split; [|split; [|split; [|split]]]]]].
  - destruct (try_except_returns
                (val <- py_float spec ;;
                 if SFleb float_one val then n <- float_to_int val ;; Ok (Some n)
                 else if SFltb float_zero val && SFltb val float_one then
                   w <- float_of_int img_w ;;
                   n <- float_to_int (float_mul w val) ;;
                   Ok (Some (Z.max 12 n))
                 else Ok None) None) as [r ->].
    cbn [rbind]. destruct r; eexists; reflexivity.
  - now intros e ->.
  - intros m e -> Hle. cbn [rbind]. rewrite Hle. reflexivity.
  - intros val w n -> H0 H1 -> Hn. cbn [rbind].
    rewrite (SFltb_not_SFleb _ _ H1), H0, H1, Hn. cbn [andb rbind try_except].
    split; [reflexivity|lia].
  - intros val -> [->|[[s ->]|Hle]].
    + reflexivity.
    + destruct s; reflexivity.
    + cbn [rbind]. rewrite (SFleb_zero_one _ Hle), (SFleb_not_SFltb _ _ Hle).
      reflexivity.
  - vm_compute. reflexivity.
  - vm_compute. reflexivity.
  - vm_compute. reflexivity.
Qed.

Lemma compute_font_px_rule_witness :
  compute_font_px "20.7" 100 = Ok 20
  /\ compute_font_px "0.29" 100 = Ok 28
  /\ compute_font_px "-3" 100 = Ok 36.
Proof.
  split; [|split].
  - destruct (compute_font_px_rule "20.7" 100) as (_ & _ & H & _).
    rewrite (H 5826532017910579%positive (-48)) by (vm_compute; reflexivity).
    vm_compute. reflexivity.
  - destruct (compute_font_px_rule "0.29" 100) as (_ & _ & _ & H & _).
    refine (proj1 (H (S754_finite false 5224175567749775 (-54))
                     (S754_finite false 7036874417766400 (-46)) 28 _ _ _ _ _));
      vm_compute; reflexivity.
  - destruct (compute_font_px_rule "-3" 100) as (_ & _ & _ & _ & H & _).
    apply (H (S754_finite true 6755399441055744 (-51))).
    + vm_compute. reflexivity.
    + right. right. vm_compute. reflexivity.
Defined.

(* ===================================================================== *)
(** ** [process_image]                                                   *)
(* ===================================================================== *)

Section ProcessImage.

Variable W : World.
Variables path out_dir font_path font_spec color_str pos_name : string.

Lemma act_bind_ok {A B : Type} (c : action A) (k : A -> action B)
      (t : list event) (b : B) :
  act_bind c k = (t, Ok b) ->
  exists t1 a t2, c = (t1, Ok a) /\ k a = (t2, Ok b) /\ t = (t1 ++ t2)%list.
Proof.
  destruct c as [t1 [a|e]]; simpl; [|discriminate].
  destruct (k a) as [t2 r] eqn:Hk. intros [= <- ->].
  now exists t1, a, t2.
Qed.

Lemma print_ok_inv (m : message) (t : list event) (u : unit) :
  print W m = (t, Ok u) -> builtin_print W m = Ok tt /\ t = [EvPrint m].
Proof.
  unfold print, perform. destruct (builtin_print W m) as [[]|e]; [|discriminate].
  now intros [= <- _].
Qed.

Lemma act_try_true (c : action bool) (h : exn -> message) (t : list event) :
  act_try c (fun e => _ <~ print W (h e) ;; act_ret false) = (t, Ok true) ->
  c = (t, Ok true).
Proof.
  destruct c as [t1 [a|e]]; simpl; [congruence|].
  unfold print, perform. destruct (builtin_print W (h e)); simpl; discriminate.
Qed.

(** What the handler of the guarded block does with an exception: it
    prints the error line and returns [False], or the printing raises. *)
Lemma act_try_handled (c : action bool) (h : exn -> message) :
  act_try c (fun e => _ <~ print W (h e) ;; act_ret false)
  = match c with
    | (t, Ok b) => (t, Ok b)
    | (t, Raise e) =>
        match builtin_print W (h e) with
        | Ok _ => ((t ++ [EvPrint (h e)])%list, Ok false)
        | Raise e' => (t, Raise e')
        end
    end.
Proof.
  destruct c as [t [b|e]]; [reflexivity|]. simpl.
  unfold print, perform. destruct (builtin_print W (h e)); simpl;
    [reflexivity | now rewrite app_nil_r].
Qed.

(** With no date the image is skipped: one line is printed, nothing is
    opened, drawn or saved; when that line cannot be printed, the
    exception of [print] leaves [process_image]. *)
Lemma process_image_skipped (d : option string) :
  get_date_string W path = Ok d -> date_truthy d = false ->
  process_image W path out_dir font_path font_spec color_str pos_name
  = match builtin_print W (MsgSkipped path) with
    | Ok _ => ([EvPrint (MsgSkipped path)], Ok false)
    | Raise e => ([], Raise e)
    end.
Proof.
  intros Hd Ht. unfold process_image. rewrite Hd.
  unfold silent, act_bind at 1. rewrite Ht. cbn [negb].
  unfold print, perform. now destruct (builtin_print W (MsgSkipped path)).
Qed.

(** [True] is returned only after the image was saved: the save and the
    line that reports it are the last two events. *)
Lemma process_image_true_saved (t : list event) :
  process_image W path out_dir font_path font_spec color_str pos_name = (t, Ok true) ->
  exists before out_path quality,
    t = (before ++ [EvSave out_path quality; EvPrint (MsgSaved out_path)])%list.
Proof.
  unfold process_image. intros H.
  apply act_bind_ok in H as (t0 & d & t1 & Hd & H & ->).
  destruct (negb (date_truthy d)).
  { unfold print, perform in H.
    destruct (builtin_print W (MsgSkipped path)); simpl in H; discriminate H. }
  apply act_try_true in H.
  repeat match type of H with
         | act_bind _ _ = _ => apply act_bind_ok in H as (? & ? & ? & ? & H & ->)
         | (let '(_, _) := ?p in _) = _ => destruct p
         end.
  injection H as <-.
  match goal with
  | Hp : print _ _ = _ |- _ => apply print_ok_inv in Hp as [_ ->]
  end.
  match goal with
  | Hs : (if is_jpeg_ext ?ext then _ else perform (EvSave ?p None) _) = (?ts, _) |- _ =>
      assert (Hsave : exists pre quality, ts = (pre ++ [EvSave p quality])%list)
  end.
  { destruct (is_jpeg_ext _).
    - match goal with
      | Hb : act_bind _ _ = _ |- _ =>
          apply act_bind_ok in Hb as (tc & im & tsv & _ & Hsv & ->)
      end.
      unfold perform in Hsv. destruct (Image_save _ _ _ _); [|discriminate Hsv].
      injection Hsv as <-. now eexists tc, _.
    - match goal with
      | Hb : perform _ _ = _ |- _ => rename Hb into Hsv
      end.
      unfold perform in Hsv. destruct (Image_save _ _ _ _); [|discriminate Hsv].
      injection Hsv as <-. now eexists [], _. }
  destruct Hsave as (pre & quality & ->).
  eexists _, _, quality.
  rewrite app_nil_r, !app_assoc, <- app_assoc. reflexivity.
Qed.

(** [False] is returned in two ways: the image was skipped for want of
    a date, or an exception raised after that was caught and reported. *)
Lemma process_image_false (t : list event) :
  process_image W path out_dir font_path font_spec color_str pos_name = (t, Ok false) ->
  (exists d, get_date_string W path = Ok d /\ date_truthy d = false
             /\ t = [EvPrint (MsgSkipped path)])
  \/ (exists before e, t = (before ++ [EvPrint (MsgError path e)])%list).
Proof.
  unfold process_image. intros H.
  apply act_bind_ok in H as (t0 & d & t1 & Hd & H & ->).
  unfold silent in Hd. injection Hd as <- Hd.
  destruct (date_truthy d) eqn:Ht; cbn [negb] in H.
  - right. rewrite act_try_handled in H.
    match type of H with
    | match ?c with _ => _ end = _ => destruct c as [tb [b|e]] eqn:Hbody
    end.
    + injection H as <- ->. exfalso.
      repeat match type of Hbody with
             | act_bind _ _ = _ =>
                 apply act_bind_ok in Hbody as (? & ? & ? & ? & Hbody & ->)
             | (let '(_, _) := ?p in _) = _ => destruct p
             end.
      discriminate Hbody.
    + destruct (builtin_print W (MsgError path e)); [|discriminate H].
      injection H as <-. now exists tb, e.
  - left. exists d. unfold print, perform in H.
    destruct (builtin_print W (MsgSkipped path)); [|discriminate H].
    simpl in H. injection H as <-. auto.
Qed.

End ProcessImage.

(** C9 fails on the code: with a date resolved and an image that opens,
    converts and saves without error, [process_image] still returns
    [False] when the colour is a seven-character text after [#] that is
    no hexadecimal number: [parse_color] raises inside the guarded block,
    after the outline was drawn, and nothing is saved.  With the colour
    [#FFFFFF] the same call saves the image and returns [True]. *)
Theorem process_image_bad_colour :
  get_date_string photo_world "photos/a.jpg" = Ok (Some "2022-07-04")
  /\ process_image photo_world "photos/a.jpg" "photos/photos_watermark" ""
                   "0.04" "#FFFFFF" "bottom-right"
     = ([EvOpen "photos/a.jpg"; EvConvert "RGBA";
         EvDrawText (929, 778) "2022-07-04" (0, 0, 0);
         EvDrawText (929, 780) "2022-07-04" (0, 0, 0);
         EvDrawText (931, 778) "2022-07-04" (0, 0, 0);
         EvDrawText (931, 780) "2022-07-04" (0, 0, 0);
         EvDrawText (930, 779) "2022-07-04" (255, 255, 255);
         EvMakedirs "photos/photos_watermark"; EvConvert "RGB";
         EvSave "photos/photos_watermark/a_wm.jpg" (Some 95);
         EvPrint (MsgSaved "photos/photos_watermark/a_wm.jpg")],
        Ok true)
  /\ process_image photo_world "photos/a.jpg" "photos/photos_watermark" ""
                   "0.04" "#GGGGGG" "bottom-right"
     = ([EvOpen "photos/a.jpg"; EvConvert "RGBA";
         EvDrawText (929, 778) "2022-07-04" (0, 0, 0);
         EvDrawText (929, 780) "2022-07-04" (0, 0, 0);
         EvDrawText (931, 778) "2022-07-04" (0, 0, 0);
         EvDrawText (931, 780) "2022-07-04" (0, 0, 0);
         EvPrint (MsgError "photos/a.jpg" ValueError)],
        Ok false).
Proof. split; [|split]; vm_compute; reflexivity. Qed.

(* ===================================================================== *)
(** ** The range of the float operations                                 *)
(* ===================================================================== *)

Section FloatRange.

Lemma digits2_pos_size (p : positive) : digits2_pos p = Pos.size p.
Proof. induction p; simpl; now rewrite ?IHp. Qed.

Lemma Zdigits2_nonneg (m : Z) : 0 <= m -> 0 <= Zdigits2 m.
Proof. destruct m; simpl; lia. Qed.

(** [Zdigits2 m] bits hold [m]. *)
Lemma Zdigits2_bound (m : Z) : 0 <= m -> m < 2 ^ Zdigits2 m.
Proof.
  destruct m as [|p|p]; simpl; [lia | | lia]. intros _.
  rewrite digits2_pos_size.
  pose proof (Pos.size_gt p) as H.
  apply Pos2Z.pos_lt_pos in H. now rewrite Pos2Z.inj_pow in H.
Qed.

(** A number below [2 ^ k] has at most [k] bits. *)
Lemma Zdigits2_le (m k : Z) : 0 <= m -> 0 <= k -> m < 2 ^ k -> Zdigits2 m <= k.
Proof.
  destruct m as [|p|p]; simpl; [lia | | lia]. intros _ Hk Hm.
  rewrite digits2_pos_size.
  pose proof (Pos.size_le p) as H.
  apply Pos2Z.pos_le_pos in H. rewrite Pos2Z.inj_pow in H.
  change (Z.pos p~0) with (2 * Z.pos p) in H.
  destruct (Z_lt_le_dec k (Z.pos (Pos.size p))) as [Hlt|]; [|assumption].
  exfalso.
  assert (Hpow : 2 ^ (k + 1) <= 2 ^ Z.pos (Pos.size p)) by (apply Z.pow_le_mono_r; lia).
  rewrite Z.pow_add_r in Hpow by lia. lia.
Qed.

Lemma Zdigits2_pos (m : Z) : 0 < m -> 0 < Zdigits2 m.
Proof. destruct m; simpl; lia. Qed.

Lemma Zdigits2_succ (m : Z) : 0 <= m -> Zdigits2 (m + 1) <= Zdigits2 m + 1.
Proof.
  intros Hm. pose proof (Zdigits2_bound m Hm). pose proof (Zdigits2_nonneg m Hm).
  apply Zdigits2_le; [lia | lia |].
  rewrite Z.pow_add_r by lia. lia.
Qed.

Lemma Zdigits2_div (m n : Z) :
  0 <= m -> 0 <= n -> Zdigits2 (m / 2 ^ n) <= Z.max (Zdigits2 m - n) 0.
Proof.
  intros Hm Hn. pose proof (Zdigits2_bound m Hm) as Hb.
  pose proof (Zdigits2_nonneg m Hm) as Hd.
  assert (Hp : 0 < 2 ^ n) by (apply Z.pow_pos_nonneg; lia).
  apply Zdigits2_le; [apply Z.div_pos; lia | lia |].
  apply Z.div_lt_upper_bound; [lia|].
  destruct (Z_le_gt_dec n (Zdigits2 m)).
  - rewrite Z.max_l by lia. rewrite <- Z.pow_add_r by lia.
    now replace (n + (Zdigits2 m - n)) with (Zdigits2 m) by lia.
  - rewrite Z.max_r by lia.
    assert (2 ^ Zdigits2 m <= 2 ^ n) by (apply Z.pow_le_mono_r; lia). lia.
Qed.

Lemma Zdigits2_mul (a b : Z) :
  0 <= a -> 0 <= b -> Zdigits2 (a * b) <= Zdigits2 a + Zdigits2 b.
Proof.
  intros Ha Hb.
  pose proof (Zdigits2_bound a Ha). pose proof (Zdigits2_bound b Hb).
  pose proof (Zdigits2_nonneg a Ha). pose proof (Zdigits2_nonneg b Hb).
  apply Zdigits2_le; [nia | lia |].
  rewrite Z.pow_add_r by lia. nia.
Qed.

Lemma shr_1_m (mrs : shr_record) : 0 <= shr_m mrs -> shr_m (shr_1 mrs) = shr_m mrs / 2.
Proof.
  destruct mrs as [m r s]. simpl. intros Hm.
  destruct m as [|[p|p|]|p]; simpl; try lia; try reflexivity.
  - rewrite (Pos2Z.inj_xI p). apply (Z.div_unique _ 2 _ 1); lia.
  - rewrite (Pos2Z.inj_xO p). apply (Z.div_unique _ 2 _ 0); lia.
Qed.

Lemma pow2_xI (p : positive) : 2 ^ Z.pos p~1 = 2 * (2 ^ Z.pos p * 2 ^ Z.pos p).
Proof.
  rewrite (Pos2Z.inj_xI p).
  replace (2 * Z.pos p + 1) with (Z.pos p + Z.pos p + 1) by lia.
  rewrite Z.pow_add_r, Z.pow_add_r by lia. lia.
Qed.

Lemma pow2_xO (p : positive) : 2 ^ Z.pos p~0 = 2 ^ Z.pos p * 2 ^ Z.pos p.
Proof.
  rewrite (Pos2Z.inj_xO p).
  replace (2 * Z.pos p) with (Z.pos p + Z.pos p) by lia.
  now rewrite Z.pow_add_r by lia.
Qed.

Lemma iter_shr_1_m (p : positive) : forall mrs : shr_record,
  0 <= shr_m mrs -> shr_m (iter_pos shr_1 p mrs) = shr_m mrs / 2 ^ Z.pos p.
Proof.
  induction p as [p IH|p IH|]; intros mrs Hm; simpl iter_pos.
  - assert (Hp : 0 < 2 ^ Z.pos p) by (apply Z.pow_pos_nonneg; lia).
    assert (H1 : 0 <= shr_m (shr_1 mrs)).
    { rewrite shr_1_m by assumption. apply Z.div_pos; lia. }
    assert (H2 : 0 <= shr_m (iter_pos shr_1 p (shr_1 mrs))).
    { rewrite IH by assumption. apply Z.div_pos; lia. }
    rewrite IH, IH, shr_1_m by assumption.
    rewrite !Z.div_div by lia. now rewrite pow2_xI, Z.mul_assoc.
  - assert (Hp : 0 < 2 ^ Z.pos p) by (apply Z.pow_pos_nonneg; lia).
    assert (H2 : 0 <= shr_m (iter_pos shr_1 p mrs)).
    { rewrite IH by assumption. apply Z.div_pos; lia. }
    rewrite IH, IH by assumption.
    rewrite !Z.div_div by lia. now rewrite pow2_xO.
  - now apply shr_1_m.
Qed.

(** Shifting right by [n] places: the mantissa is divided, the exponent
    grows. *)
Lemma shr_spec (mrs : shr_record) (e n : Z) :
  0 <= shr_m mrs ->
  shr_m (fst (shr mrs e n)) = shr_m mrs / 2 ^ Z.max n 0
  /\ snd (shr mrs e n) = e + Z.max n 0.
Proof.
  intros Hm. destruct n as [|p|p]; simpl.
  - rewrite Z.div_1_r. lia.
  - rewrite iter_shr_1_m by assumption. split; [reflexivity|lia].
  - rewrite Z.div_1_r. lia.
Qed.

Lemma shr_record_of_loc_m (m : Z) (l : location) : shr_m (shr_record_of_loc m l) = m.
Proof. destruct l as [|[]]; reflexivity. Qed.

Lemma round_nearest_even_bounds (m : Z) (l : location) :
  m <= round_nearest_even m l <= m + 1.
Proof.
  destruct l as [|[]]; simpl; try lia. destruct (Z.even m); lia.
Qed.

(** One step of [binary_round_aux]: shift to the exponent of the
    format. *)
Lemma shr_fexp_spec (m e : Z) (l : location) :
  0 <= m ->
  let n := Z.max (fexp prec emax (Zdigits2 m + e) - e) 0 in
  shr_m (fst (shr_fexp prec emax m e l)) = m / 2 ^ n
  /\ snd (shr_fexp prec emax m e l) = e + n.
Proof.
  intros Hm. unfold shr_fexp.
  pose proof (shr_spec (shr_record_of_loc m l) e
                (fexp prec emax (Zdigits2 m + e) - e)) as H.
  rewrite shr_record_of_loc_m in H. now apply H.
Qed.

Lemma Zdigits2_mono (a b : Z) : 0 <= a <= b -> Zdigits2 a <= Zdigits2 b.
Proof.
  intros [Ha Hab]. assert (Hb : 0 <= b) by lia.
  pose proof (Zdigits2_bound b Hb). pose proof (Zdigits2_nonneg b Hb).
  apply Zdigits2_le; lia.
Qed.

Lemma fexp_value (x : Z) : fexp prec emax x = Z.max (x - 53) (-1074).
Proof. reflexivity. Qed.

(** What [binary_round_aux] returns for a mantissa that is not
    negative: never a NaN; a finite result has at most 53 bits, an
    exponent of at most 971 and a magnitude at most one bit above that
    of the argument; an infinity needs a magnitude beyond the format. *)
Lemma binary_round_aux_range (s : bool) (mx ex : Z) (lx : location) :
  0 <= mx ->
  match binary_round_aux prec emax s mx ex lx with
  | S754_zero _ => True
  | S754_finite _ m e =>
      Z.pos m < 2 ^ 53 /\ e <= 971
      /\ Zdigits2 (Z.pos m) + e <= Z.max (Zdigits2 mx + ex) (-1074) + 1
  | S754_infinity _ => 1023 < Zdigits2 mx + ex \/ 971 < ex
  | S754_nan => False
  end.
Proof.
  intros Hmx. unfold binary_round_aux.
  pose proof (shr_fexp_spec mx ex lx Hmx) as [Hm' He'].
  destruct (shr_fexp prec emax mx ex lx) as [mrs' e']. cbn [fst snd] in Hm', He'.
  pose proof (round_nearest_even_bounds (shr_m mrs') (loc_of_shr_record mrs')) as Hr.
  set (m1 := round_nearest_even (shr_m mrs') (loc_of_shr_record mrs')) in *.
  set (d := Zdigits2 mx) in *.
  set (n1 := Z.max (fexp prec emax (d + ex) - ex) 0) in *.
  assert (Hd : 0 <= d) by now apply Zdigits2_nonneg.
  assert (Hn1 : 0 <= n1) by lia.
  assert (Hm'0 : 0 <= shr_m mrs').
  { rewrite Hm'. apply Z.div_pos; [lia|]. apply Z.pow_pos_nonneg; lia. }
  assert (HB' : Zdigits2 (shr_m mrs') <= Z.max (d - n1) 0).
  { rewrite Hm'. now apply Zdigits2_div. }
  assert (Hm1 : 0 <= m1) by lia.
  assert (Hd1 : Zdigits2 m1 <= Zdigits2 (shr_m mrs') + 1).
  { etransitivity; [apply (Zdigits2_mono m1 (shr_m mrs' + 1)); lia|].
    now apply Zdigits2_succ. }
  pose proof (shr_fexp_spec m1 e' loc_Exact Hm1) as [Hm'' He''].
  destruct (shr_fexp prec emax m1 e' loc_Exact) as [mrs'' e'']. cbn [fst snd] in Hm'', He''.
  set (d1 := Zdigits2 m1) in *.
  set (n2 := Z.max (fexp prec emax (d1 + e') - e') 0) in *.
  assert (Hd1' : 0 <= d1) by now apply Zdigits2_nonneg.
  assert (Hn2 : 0 <= n2) by lia.
  assert (Hm''0 : 0 <= shr_m mrs'').
  { rewrite Hm''. apply Z.div_pos; [lia|]. apply Z.pow_pos_nonneg; lia. }
  assert (HB'' : Zdigits2 (shr_m mrs'') <= Z.max (d1 - n2) 0).
  { rewrite Hm''. now apply Zdigits2_div. }
  pose proof (fexp_value (d + ex)) as F1. pose proof (fexp_value (d1 + e')) as F2.
  destruct (shr_m mrs'') as [|m|m] eqn:Hm; [exact I | | lia].
  pose proof (Zdigits2_pos (Z.pos m) eq_refl) as Hpos.
  pose proof (Zdigits2_bound (Z.pos m) Hm''0) as Hbound.
  destruct (e'' <=? emax - prec) eqn:Hle.
  - unfold emax, prec in Hle.
    assert (H53 : Zdigits2 (Z.pos m) <= 53) by lia.
    assert (2 ^ Zdigits2 (Z.pos m) <= 2 ^ 53) by (apply Z.pow_le_mono_r; lia).
    split; [lia|]. split; lia.
  - unfold emax, prec in Hle. lia.
Qed.

Lemma iter_xO_value (p d : positive) :
  Z.pos (Pos.iter xO p d) = Z.pos p * 2 ^ Z.pos d.
Proof.
  induction d as [|d IH] using Pos.peano_ind.
  - cbn [Pos.iter]. rewrite (Pos2Z.inj_xO p). change (2 ^ 1) with 2. lia.
  - rewrite Pos.iter_succ, Pos2Z.inj_succ, Z.pow_succ_r by lia.
    rewrite (Pos2Z.inj_xO (Pos.iter xO p d)), IH. lia.
Qed.

Lemma shl_align_range (p : positive) (e e' : Z) :
  Zdigits2 (Z.pos (fst (shl_align p e e'))) + snd (shl_align p e e')
  <= Zdigits2 (Z.pos p) + e
  /\ snd (shl_align p e e') <= e.
Proof.
  unfold shl_align. destruct (e' - e) as [|k|k] eqn:Hk; cbn [fst snd]; [lia | lia |].
  rewrite iter_xO_value. split; [|lia].
  pose proof (Zdigits2_bound (Z.pos p) ltac:(lia)) as Hb.
  pose proof (Zdigits2_nonneg (Z.pos p) ltac:(lia)) as Hd.
  assert (Hp : 0 < 2 ^ Z.pos k) by (apply Z.pow_pos_nonneg; lia).
  assert (Zdigits2 (Z.pos p * 2 ^ Z.pos k) <= Zdigits2 (Z.pos p) + Z.pos k); [|lia].
  apply Zdigits2_le; [nia | lia |].
  rewrite Z.pow_add_r by lia. nia.
Qed.

Lemma binary_round_range (s : bool) (p : positive) (e : Z) :
  match binary_round prec emax s p e with
  | S754_zero _ => True
  | S754_finite _ m e' =>
      Z.pos m < 2 ^ 53 /\ e' <= 971
      /\ Zdigits2 (Z.pos m) + e' <= Z.max (Zdigits2 (Z.pos p) + e) (-1074) + 1
  | S754_infinity _ => 1023 < Zdigits2 (Z.pos p) + e \/ 971 < e
  | S754_nan => False
  end.
Proof.
  unfold binary_round.
  pose proof (shl_align_range p e (fexp prec emax (Z.pos (digits2_pos p) + e))) as [H1 H2].
  destruct (shl_align p e _) as [mz ez]. cbn [fst snd] in H1, H2.
  pose proof (binary_round_aux_range s (Z.pos mz) ez loc_Exact ltac:(lia)) as H.
  destruct (binary_round_aux prec emax s (Z.pos mz) ez loc_Exact); trivial; lia.
Qed.

(** An integer below [2 ^ 1022] in absolute value converts to a float:
    zero, or a finite number of a magnitude of at most 1023 bits. *)
Lemma float_of_int_converts (n : Z) :
  Z.abs n < 2 ^ 1022 ->
  exists w, float_of_int n = Ok w
            /\ match w with
               | S754_zero _ => True
               | S754_finite _ m e => e <= 971 /\ Zdigits2 (Z.pos m) + e <= 1023
               | _ => False
               end.
Proof.
  intros Hn. unfold float_of_int, binary_normalize.
  destruct n as [|p|p].
  - now eexists.
  - pose proof (binary_round_range false p 0) as H.
    assert (Zdigits2 (Z.pos p) <= 1022) by (apply Zdigits2_le; lia).
    destruct (binary_round prec emax false p 0) as [s|s| |s m e].
    + exists (S754_zero s). now split.
    + exfalso. lia.
    + contradiction.
    + exists (S754_finite s m e). split; [reflexivity|]. lia.
  - pose proof (binary_round_range true p 0) as H.
    assert (Zdigits2 (Z.pos p) <= 1022) by (apply Zdigits2_le; lia).
    destruct (binary_round prec emax true p 0) as [s|s| |s m e].
    + exists (S754_zero s). now split.
    + exfalso. lia.
    + contradiction.
    + exists (S754_finite s m e). split; [reflexivity|]. lia.
Qed.

Lemma round_ratio_valid (s : bool) (p q : positive) : float_valid (round_ratio s p q).
Proof.
  unfold round_ratio, SFdiv_core_binary.
  set (e' := Z.min _ _). set (m' := match (Z.sub _ _) with Z0 => _ | Zpos _ => _ | Zneg _ => _ end).
  assert (Hm' : 0 <= m').
  { subst m'. destruct (0 - 0 - e'); try lia. apply Z.shiftl_nonneg. lia. }
  pose proof (Z.div_pos m' (Z.pos q) Hm' ltac:(lia)) as Hq.
  unfold Z.div in Hq. destruct (Z.div_eucl m' (Z.pos q)) as [q0 r].
  pose proof (binary_round_aux_range s q0 e' (new_location (Z.pos q) r) Hq) as H.
  destruct (binary_round_aux prec emax s q0 e' _); simpl; trivial; lia.
Qed.

Lemma float_of_decimal_valid (s : bool) (m e : Z) : float_valid (float_of_decimal s m e).
Proof.
  unfold float_of_decimal. destruct m as [|p|p]; simpl; trivial.
  destruct (0 <=? e).
  - pose proof (binary_round_range s (p * Z.to_pos (10 ^ e)) 0) as H.
    destruct (binary_round prec emax s _ 0); simpl; trivial; lia.
  - apply round_ratio_valid.
Qed.

(** A finite float that [float] returns has at most 53 bits and an
    exponent of at most 971. *)
Lemma py_float_valid (spec : string) (x : spec_float) :
  py_float spec = Ok x -> float_valid x.
Proof.
  unfold py_float.
  destruct (if has_underscore _ then _ else _) as [u|]; [|discriminate].
  unfold float_from_string_inner, ascii_strtod.
  set (t := rstrip_ISSPACE (skip_ISSPACE u)).
  destruct (match t with
            | String "+" r => (false, r)
            | String "-" r => (true, r)
            | _ => (false, t)
            end) as [sign r].
  unfold strtod_number.
  destruct (scan_decimal 0 0 r) as [[m1 n1] r1].
  destruct (match r1 with
            | String "." r0 => scan_decimal m1 0 r0
            | _ => (m1, 0, r1)
            end) as [[m2 n2] r2].
  destruct (n1 + n2 =? 0).
  - unfold parse_inf_or_nan.
    destruct (String.prefix "infinity" _).
    { destruct (String.substring 8 _ r); [|discriminate]. now intros [= <-]. }
    destruct (String.prefix "inf" _).
    { destruct (String.substring 3 _ r); [|discriminate]. now intros [= <-]. }
    destruct (String.prefix "nan" _); [|discriminate].
    destruct (String.substring 3 _ r); [|discriminate]. now intros [= <-].
  - destruct (scan_exponent r2) as [e r3].
    destruct r3; [|discriminate]. intros [= <-]. apply float_of_decimal_valid.
Qed.
(** A valid float strictly between 0 and 1 is positive, finite and of a
    magnitude of at most 0 bits. *)
Lemma proportion_range (val : spec_float) :
  float_valid val ->
  SFltb float_zero val = true -> SFltb val float_one = true ->
  exists m e, val = S754_finite false m e /\ e <= -52 /\ Zdigits2 (Z.pos m) + e <= 0.
Proof.
  rewrite float_one_value. unfold float_zero, SFltb.
  destruct val as [s|s| |s m e].
  - intros _ H; destruct s; discriminate H.
  - intros _ H0 H1; destruct s; [discriminate H0 | discriminate H1].
  - intros _ H; discriminate H.
  - destruct s.
    + intros _ H; discriminate H.
    + intros [Hm He] _.
      unfold SFcompare.
      destruct (e ?= -52) eqn:Hc.
      * apply Z.compare_eq in Hc. subst e.
        rewrite Pos.compare_cont_spec.
        destruct (m ?= 4503599627370496)%positive eqn:Hcmp.
        -- intros H; discriminate H.
        -- intros _. change (m < 4503599627370496)%positive in Hcmp.
           apply Pos2Z.pos_lt_pos in Hcmp.
           exists m, (-52). split; [reflexivity|]. split; [lia|].
           assert (Zdigits2 (Z.pos m) <= 52); [|lia].
           apply Zdigits2_le; [lia | lia |]. lia.
        -- intros H; discriminate H.
      * change (e < -52) in Hc. intros _.
        exists m, e. split; [reflexivity|]. split; [lia|].
        assert (Zdigits2 (Z.pos m) <= 53); [|lia].
        apply Zdigits2_le; lia.
      * intros H; discriminate H.
Qed.

(** The product of an image width and a proportion converts back to an
    integer. *)
Lemma proportion_converts (val : spec_float) (img_w : Z) :
  float_valid val ->
  SFltb float_zero val = true -> SFltb val float_one = true ->
  Z.abs img_w < 2 ^ 1022 ->
  exists w n, float_of_int img_w = Ok w /\ float_to_int (float_mul w val) = Ok n.
Proof.
  intros Hv H0 H1 Hw.
  destruct (proportion_range val Hv H0 H1) as (my & ey & -> & Hey & Hmag).
  destruct (float_of_int_converts img_w Hw) as (w & Hconv & Hrange).
  exists w. rewrite Hconv.
  destruct w as [sw|sw| |sw mw ew]; try contradiction.
  - exists 0. split; reflexivity.
  - unfold float_mul, SFmul.
    pose proof (binary_round_aux_range (xorb sw false) (Z.pos (mw * my)) (ew + ey)
                  loc_Exact ltac:(lia)) as H.
    pose proof (Zdigits2_mul (Z.pos mw) (Z.pos my) ltac:(lia) ltac:(lia)) as Hmul.
    rewrite <- Pos2Z.inj_mul in Hmul.
    destruct (binary_round_aux prec emax (xorb sw false) (Z.pos (mw * my)) (ew + ey) loc_Exact)
      as [s|s| |s m e].
    + exists 0. split; reflexivity.
    + exfalso. lia.
    + contradiction.
    + eexists. split; reflexivity.
Qed.

End FloatRange.

(* ===================================================================== *)
(** ** Further properties of [format_exif_raw]                           *)
(* ===================================================================== *)

Lemma zfill_length (w : nat) (n : Z) : String.length (zfill w n) = w.
Proof.
  induction w as [|w IH]; [reflexivity|].
  rewrite zfill_S. cbn [String.length]. now rewrite IH.
Qed.

Lemma append_length (a b : string) :
  String.length (a ++ b) = (String.length a + String.length b)%nat.
Proof.
  induction a as [|c a IH]; [reflexivity|].
  rewrite append_String. simpl. now rewrite IH.
Qed.

Lemma date_text_length (s1 s2 : ascii) (y m d : Z) :
  String.length (date_text s1 s2 y m d) = 10%nat.
Proof.
  assert (Hc : forall c s, String.length (String c s) = S (String.length s))
    by reflexivity.
  unfold date_text.
  now rewrite append_length, zfill_length, Hc, append_length, zfill_length, Hc,
    zfill_length.
Qed.

(** The first field of a text [D rest], where [D] has no white space and
    [rest] is empty or starts with a blank. *)
Lemma first_field_of_text (D rest : string) :
  D <> "" ->
  string_forall (fun c => negb (Py_UNICODE_ISSPACE c)) D = true ->
  date_suffix rest ->
  fst (fields " " (strip (D ++ rest))) = D.
Proof.
  intros Hne Hns Hrest.
  assert (Hnb : string_forall (fun c => negb (Ascii.eqb c " ")) D = true).
  { revert Hns. apply string_forall_impl. intros c Hc.
    apply negb_true_iff in Hc. apply negb_true_iff.
    destruct (Ascii.eqb_spec c " ") as [->|]; [discriminate Hc | reflexivity]. }
  assert (Hstrip : strip (D ++ rest) = D ++ rstrip rest).
  { unfold strip. destruct D as [|c D]; [contradiction|].
    pose proof Hns as Hns'. simpl in Hns'. apply andb_true_iff in Hns' as [Hc HD'].
    apply negb_true_iff in Hc.
    rewrite append_String, lstrip_head by exact Hc.
    rewrite <- append_String, rstrip_app.
    destruct (rstrip rest) as [|x r].
    - rewrite append_empty_r. now apply rstrip_no_space.
    - reflexivity. }
  rewrite Hstrip, (fields_app _ _ _ Hnb). simpl fst.
  destruct (rstrip_suffix rest Hrest) as [->|[t ->]].
  - apply append_empty_r.
  - rewrite fields_sep. apply append_empty_r.
Qed.

Lemma append_not_empty (D rest : string) : D <> "" -> String.eqb (D ++ rest) "" = false.
Proof. destruct D; [contradiction | reflexivity]. Qed.

Lemma year_digits_zfill (y : Z) :
  0 <= y <= 9999 ->
  exists w : nat,
    (w <= 3)%nat /\ year_digits y = zfill (S w) y /\ y < 10 ^ Z.of_nat (S w).
Proof.
  intros Hy. unfold year_digits.
  destruct (y <? 10) eqn:H1; [exists 0%nat; repeat split; simpl; lia|].
  destruct (y <? 100) eqn:H2; [exists 1%nat; repeat split; simpl; lia|].
  destruct (y <? 1000) eqn:H3; [exists 2%nat; repeat split; simpl; lia|].
  exists 3%nat. repeat split; simpl; lia.
Qed.

(** The components of three runs of digits with hyphens between them. *)
Lemma date_components_of_digits (a b c : string) :
  a <> "" ->
  string_forall Py_ISDIGIT a = true -> string_forall Py_ISDIGIT b = true ->
  string_forall Py_ISDIGIT c = true ->
  date_components (a ++ String "-" (b ++ String "-" c)) = [a; b; c].
Proof.
  intros Hne Ha Hb Hc.
  assert (Hd : forall s, string_forall Py_ISDIGIT s = true ->
                         string_forall date_char s = true).
  { intros s. apply string_forall_impl. intros x Hx. unfold date_char. now rewrite Hx. }
  assert (Hcons : forall x s, string_forall date_char (String x s)
                              = date_char x && string_forall date_char s) by reflexivity.
  assert (Hr : forall s, string_forall Py_ISDIGIT s = true -> replace "-" ":" s = s).
  { intros s Hs. apply replace_absent, digits_without; [|exact Hs].
    left. vm_compute. reflexivity. }
  assert (Hrc : forall x s, replace "-" ":" (String x s)
                = String (if Ascii.eqb x "-" then ":"%char else x) (replace "-" ":" s))
    by reflexivity.
  assert (Hz : forall s, string_forall Py_ISDIGIT s = true ->
                         string_forall (fun x => negb (Ascii.eqb x ":")) s = true).
  { intros s Hs. apply digits_without; [|exact Hs]. right. vm_compute. reflexivity. }
  unfold date_components.
  rewrite <- (append_empty_r (a ++ String "-" (b ++ String "-" c))).
  rewrite date_part_of_text.
  - rewrite replace_app, (Hr a Ha), Hrc, replace_app, (Hr b Hb), Hrc, (Hr c Hc).
    change (if Ascii.eqb "-" "-" then ":"%char else "-"%char) with ":"%char.
    rewrite split_app_sep, split_app_sep, split_none by (apply Hz; assumption).
    reflexivity.
  - destruct a; [contradiction | discriminate].
  - rewrite string_forall_app, Hcons, string_forall_app, Hcons,
      (Hd a Ha), (Hd b Hb), (Hd c Hc). reflexivity.
  - now left.
Qed.

Lemma strftime_length (y m d : Z) :
  0 <= y <= 9999 ->
  (7 <= String.length (strftime_Ymd (mk_datetime y m d)) <= 10)%nat.
Proof.
  intros Hy. rewrite strftime_text.
  destruct (year_digits_zfill y Hy) as (w & Hw & -> & _).
  assert (Hc : forall c s, String.length (String c s) = S (String.length s))
    by reflexivity.
  rewrite append_length, zfill_length, Hc, append_length, zfill_length, Hc,
    zfill_length. lia.
Qed.

(** X1. Whatever its argument, a date that [format_exif_raw] returns is
    the text that [strftime] writes for a real calendar date of the years
    1 to 9999: the year in decimal, a hyphen, the month on two digits, a
    hyphen, the day on two digits.  An invalid triple is never coerced
    into a date.  The text has seven to ten characters; for a year from
    1000 on it is the ten-character text [YYYY-MM-DD]. *)
Theorem format_exif_raw_canonical (v : pyval) (s : string) :
  format_exif_raw v = Ok (Some s) ->
  exists y m d : Z,
    valid_date y m d = true
    /\ 1 <= y <= 9999 /\ 1 <= m <= 12 /\ 1 <= d <= days_in_month y m
    /\ s = year_digits y ++ String "-" (zfill 2 m ++ String "-" (zfill 2 d))
    /\ (7 <= String.length s <= 10)%nat
    /\ (1000 <= y -> s = date_text "-" "-" y m d /\ String.length s = 10%nat).
Proof.
  intros H. destruct (format_exif_raw_some v s H) as (y & m & d & Hv & ->).
  exists y, m, d. split; [exact Hv|].
  pose proof (valid_date_bounds y m d Hv) as (Hy & Hm & _).
  assert (Hd : 1 <= d <= days_in_month y m).
  { unfold valid_date in Hv. lia. }
  repeat (split; [lia|]). split; [apply strftime_text|].
  split; [apply strftime_length; lia|].
  intros Hy4. rewrite strftime_date_text by exact Hy4.
  split; [reflexivity | apply date_text_length].
Qed.

Lemma format_exif_raw_canonical_witness :
  exists y m d : Z,
    valid_date y m d = true
    /\ 1 <= y <= 9999 /\ 1 <= m <= 12 /\ 1 <= d <= days_in_month y m
    /\ "2024-02-29" = year_digits y ++ String "-" (zfill 2 m ++ String "-" (zfill 2 d))
    /\ (7 <= String.length "2024-02-29" <= 10)%nat
    /\ (1000 <= y -> "2024-02-29" = date_text "-" "-" y m d
                     /\ String.length "2024-02-29" = 10%nat).
Proof.
  apply (format_exif_raw_canonical (VStr "2024-02-29 23:59:59")).
  vm_compute. reflexivity.
Defined.

(** X2. Normalising is idempotent: a date that [format_exif_raw] returned
    is returned unchanged when it is normalised again. *)
Theorem format_exif_raw_idempotent (v : pyval) (s : string) :
  format_exif_raw v = Ok (Some s) ->
  format_exif_raw (VStr s) = Ok (Some s).
Proof.
  intros H. destruct (format_exif_raw_some v s H) as (y & m & d & Hv & ->).
  pose proof (valid_date_bounds _ _ _ Hv) as (Hy & Hm & Hd).
  destruct (year_digits_zfill y ltac:(lia)) as (w & Hw & Hyd & Hlt).
  rewrite strftime_text, Hyd.
  rewrite format_exif_raw_text.
  rewrite date_components_of_digits
    by (try apply zfill_digits; rewrite zfill_S; discriminate).
  replace (String.eqb (zfill (S w) y ++ String "-" (zfill 2 m ++ String "-" (zfill 2 d))) "")
    with false by (rewrite zfill_S; reflexivity).
  unfold date_of_components.
  change (unpack3 (slice_to [zfill (S w) y; zfill 2 m; zfill 2 d] 3))
    with (Ok (zfill (S w) y, zfill 2 m, zfill 2 d)).
  cbn [rbind Datatypes.length Nat.leb].
  rewrite !py_int_zfill by (simpl; lia). cbn [rbind].
  rewrite datetime_new_valid by exact Hv. cbn [rbind try_except].
  now rewrite strftime_text, Hyd.
Qed.

Lemma format_exif_raw_idempotent_witness :
  format_exif_raw (VStr "2022-07-04") = Ok (Some "2022-07-04").
Proof.
  apply (format_exif_raw_idempotent (VStr "2022:07:04 10:00:00")).
  vm_compute. reflexivity.
Defined.

(** X3. Only what stands before the first blank counts: for a text [D]
    without white space, what follows [D] after a blank (the time of day,
    or anything else) never changes the result. *)
Theorem format_exif_raw_ignores_suffix (D t : string) :
  D <> "" ->
  string_forall (fun c => negb (Py_UNICODE_ISSPACE c)) D = true ->
  format_exif_raw (VStr (D ++ String " " t)) = format_exif_raw (VStr D).
Proof.
  intros Hne Hns. rewrite !format_exif_raw_text.
  assert (H1 : date_components (D ++ String " " t) = date_components D).
  { unfold date_components.
    rewrite (first_field_of_text D (String " " t) Hne Hns) by (right; now exists t).
    rewrite <- (append_empty_r D) at 2.
    now rewrite (first_field_of_text D "" Hne Hns) by now left. }
  rewrite H1, append_not_empty by assumption.
  destruct D; [contradiction | reflexivity].
Qed.

Lemma format_exif_raw_ignores_suffix_witness :
  format_exif_raw (VStr ("2022:07:04" ++ String " " "garbage 99:99"))
  = format_exif_raw (VStr "2022:07:04").
Proof.
  apply format_exif_raw_ignores_suffix.
  - discriminate.
  - reflexivity.
Defined.

(* ===================================================================== *)
(** ** The calendar of the file system tier                              *)
(* ===================================================================== *)

Lemma get_date_from_piexif_normalised (W : World) (path d : string) :
  get_date_from_piexif W path = Ok (Some d) ->
  exists v, format_exif_raw v = Ok (Some d).
Proof.
  unfold get_date_from_piexif.
  destruct (negb (HAVE_PIEXIF W)); [discriminate|].
  intros H. apply try_except_some in H.
  destruct (piexif_load W path) as [exif|]; [|discriminate].
  cbn [rbind] in H.
  destruct (truthy _).
  - destruct (decode_or_str _) as [raw|]; [|discriminate]. now exists (VStr raw).
  - destruct (truthy _); [|discriminate].
    destruct (decode_or_str _) as [raw|]; [|discriminate]. now exists (VStr raw).
Qed.

Lemma get_date_from_pillow_normalised (W : World) (path d : string) :
  get_date_from_pillow W path = Ok (Some d) ->
  exists v, format_exif_raw v = Ok (Some d).
Proof.
  unfold get_date_from_pillow. intros H. apply try_except_some in H.
  destruct (Image_open W path) as [img|]; [|discriminate]. cbn [rbind] in H.
  destruct (img_getexif img) as [exif|]; [|discriminate]. cbn [rbind] in H.
  destruct (exif_falsy exif); [discriminate|].
  revert H. generalize (default ∅ exif). intros m.
  induction pillow_tag_order as [|t l IH]; simpl; [discriminate|].
  destruct (probe_tag W m t) as [v|]; [|exact IH].
  intros H. now exists v.
Qed.

(** X4. [get_date_string] raises nothing, and from whichever tier the
    date comes (either metadata backend or the modification time), a date
    it returns is the text that [strftime] writes for a real calendar
    date of the years 1 to 9999: the year in decimal, a hyphen, the
    month on two digits, a hyphen, the day on two digits.  It has seven
    to ten characters, so it is never empty, and for a year from 1000 on
    it is the ten-character text [YYYY-MM-DD]. *)
Theorem get_date_string_canonical (W : World) (path : string) :
  returns (get_date_string W path)
  /\ (forall s : string,
         get_date_string W path = Ok (Some s) ->
         exists y m d : Z,
           valid_date y m d = true
           /\ s = year_digits y ++ String "-" (zfill 2 m ++ String "-" (zfill 2 d))
           /\ (7 <= String.length s <= 10)%nat
           /\ (1000 <= y -> s = date_text "-" "-" y m d /\ String.length s = 10%nat)).
Proof.
  split; [apply get_date_string_returns|].
  assert (Hdate : forall y m d, valid_date y m d = true ->
            exists y' m' d' : Z,
              valid_date y' m' d' = true
              /\ strftime_Ymd (mk_datetime y m d)
                 = year_digits y' ++ String "-" (zfill 2 m' ++ String "-" (zfill 2 d'))
              /\ (7 <= String.length (strftime_Ymd (mk_datetime y m d)) <= 10)%nat
              /\ (1000 <= y' ->
                  strftime_Ymd (mk_datetime y m d) = date_text "-" "-" y' m' d'
                  /\ String.length (strftime_Ymd (mk_datetime y m d)) = 10%nat)).
  { intros y m d Hv. exists y, m, d. split; [exact Hv|].
    pose proof (valid_date_bounds y m d Hv) as (Hy & _ & _).
    split; [apply strftime_text|]. split; [apply strftime_length; lia|].
    intros Hy4. rewrite strftime_date_text by exact Hy4.
    split; [reflexivity | apply date_text_length]. }
  assert (Hnorm : forall v s, format_exif_raw v = Ok (Some s) ->
            exists y m d : Z,
              valid_date y m d = true
              /\ s = year_digits y ++ String "-" (zfill 2 m ++ String "-" (zfill 2 d))
              /\ (7 <= String.length s <= 10)%nat
              /\ (1000 <= y -> s = date_text "-" "-" y m d /\ String.length s = 10%nat)).
  { intros v s H. destruct (format_exif_raw_some v s H) as (y & m & d & Hv & ->).
    now apply Hdate. }
  assert (Hrest : forall s,
    (d <- get_date_from_pillow W path ;;
     if date_truthy d then Ok d
     else try_except
            (mtime <- os_path_getmtime W path ;;
             dt <- fromtimestamp W mtime ;;
             Ok (Some (strftime_Ymd dt)))
            (fun _ => Ok None)) = Ok (Some s) ->
    exists y m d : Z,
      valid_date y m d = true
      /\ s = year_digits y ++ String "-" (zfill 2 m ++ String "-" (zfill 2 d))
      /\ (7 <= String.length s <= 10)%nat
      /\ (1000 <= y -> s = date_text "-" "-" y m d /\ String.length s = 10%nat)).
  { intros s. destruct (get_date_from_pillow W path) as [d2|] eqn:H2; [|discriminate].
    cbn [rbind]. destruct (date_truthy d2).
    - intros [= ->]. destruct (get_date_from_pillow_normalised W path s H2) as [v Hv].
      now apply (Hnorm v).
    - intros H. apply try_except_some in H.
      destruct (os_path_getmtime W path) as [x|]; [|discriminate]. cbn [rbind] in H.
      destruct (fromtimestamp W x) as [dt|] eqn:Hdt; [|discriminate]. cbn [rbind] in H.
      injection H as <-. pose proof (fromtimestamp_valid W x _ Hdt) as Hv.
      destruct dt as [y m d]. now apply Hdate. }
  intros s. unfold get_date_string.
  destruct (HAVE_PIEXIF W); [|apply Hrest].
  destruct (get_date_from_piexif W path) as [d1|] eqn:H1; [|discriminate].
  cbn [rbind]. destruct (date_truthy d1); [|apply Hrest].
  intros [= ->]. destruct (get_date_from_piexif_normalised W path s H1) as [v Hv].
  now apply (Hnorm v).
Qed.

Lemma get_date_string_canonical_witness :
  exists y m d : Z,
    valid_date y m d = true
    /\ "2023-03-01" = year_digits y ++ String "-" (zfill 2 m ++ String "-" (zfill 2 d))
    /\ (7 <= String.length "2023-03-01" <= 10)%nat
    /\ (1000 <= y -> "2023-03-01" = date_text "-" "-" y m d
                     /\ String.length "2023-03-01" = 10%nat).
Proof.
  apply (proj2 (get_date_string_canonical plain_world "a.png")).
  vm_compute. reflexivity.
Defined.

(* ===================================================================== *)
(** ** Further properties of the tiers                                   *)
(* ===================================================================== *)

(** X5. Within a backend there is no second try: when the first field
    that is present and non-empty does not normalise to a date, the
    backend yields [None] whatever the later fields hold.  This holds for
    the capture date of the primary backend and for the tag the secondary
    backend settles on. *)
Theorem first_field_is_final (W : World) (path : string) :
  (forall exif : gmap string (gmap Z pyval),
      HAVE_PIEXIF W = true -> piexif_load W path = Ok exif ->
      truthy (piexif_field exif "Exif" ExifIFD_DateTimeOriginal) = true ->
      date_of_field (piexif_field exif "Exif" ExifIFD_DateTimeOriginal) = Ok None ->
      get_date_from_piexif W path = Ok None)
  /\ (forall (img : PilImage) (exif : gmap Z pyval) (tname : string) (v : pyval),
         Image_open W path = Ok img -> img_getexif img = Ok (Some exif) ->
         probed W exif tname v -> format_exif_raw v = Ok None ->
         get_date_from_pillow W path = Ok None).
Proof.
  split.
  - intros exif Hhave Hload Ht Hd.
    now rewrite (get_date_from_piexif_loaded W path exif Hhave Hload), Ht.
  - intros img exif tname v Hopen Hexif Hp Hv.
    now rewrite (pillow_probed W path img exif tname v Hopen Hexif Hp).
Qed.

Lemma first_field_is_final_witness :
  get_date_from_piexif unset_clock_world "a.jpg" = Ok None
  /\ get_date_from_pillow unset_clock_world "a.jpg" = Ok None.
Proof.
  destruct (first_field_is_final unset_clock_world "a.jpg") as [H1 H2].
  split.
  - apply (H1 {[ "Exif" := {[ 36867 := VBytes "0000:00:00 00:00:00" ]};
                 "0th" := {[ 306 := VBytes "2021:05:05 08:00:00" ]} ]});
      vm_compute; reflexivity.
  - apply (H2 (sample_image (Some {[ 36867 := VStr "0000:00:00 00:00:00";
                                     306 := VStr "2020:01:01 00:00:00" ]}))
              {[ 36867 := VStr "0000:00:00 00:00:00";
                 306 := VStr "2020:01:01 00:00:00" ]}
              "DateTimeOriginal" (VStr "0000:00:00 00:00:00"));
      try (vm_compute; reflexivity).
    constructor. exists 36867.
    split; [|split; [|split]]; try (vm_compute; reflexivity). lia.
Defined.

(** X6. Each backend absorbs its own failures and yields [None]: the
    primary backend when the library is missing, when loading raises and
    when decoding the field raises; the secondary backend when the image
    does not open, when reading its metadata raises and when the metadata
    is [None] or an empty dictionary. *)
Theorem backends_absorb_errors (W : World) (path : string) :
  (HAVE_PIEXIF W = false -> get_date_from_piexif W path = Ok None)
  /\ (forall e, piexif_load W path = Raise e -> get_date_from_piexif W path = Ok None)
  /\ (forall exif e,
         HAVE_PIEXIF W = true -> piexif_load W path = Ok exif ->
         truthy (piexif_field exif "Exif" ExifIFD_DateTimeOriginal) = true ->
         decode_or_str (piexif_field exif "Exif" ExifIFD_DateTimeOriginal) = Raise e ->
         get_date_from_piexif W path = Ok None)
  /\ (forall e, Image_open W path = Raise e -> get_date_from_pillow W path = Ok None)
  /\ (forall img e,
         Image_open W path = Ok img -> img_getexif img = Raise e ->
         get_date_from_pillow W path = Ok None)
  /\ (forall img exif,
         Image_open W path = Ok img -> img_getexif img = Ok exif ->
         exif = None \/ exif = Some ∅ ->
         get_date_from_pillow W path = Ok None).
Proof.
  split; [|split; [|split; [|split; [|split]]]].
  - intros H. unfold get_date_from_piexif. now rewrite H.
  - intros e H. unfold get_date_from_piexif. rewrite H.
    now destruct (negb (HAVE_PIEXIF W)).
  - intros exif e Hhave Hload Ht Hd.
    rewrite (get_date_from_piexif_loaded W path exif Hhave Hload), Ht.
    unfold date_of_field. now rewrite Hd.
  - intros e H. unfold get_date_from_pillow. now rewrite H.
  - intros img e Hopen H. unfold get_date_from_pillow. rewrite Hopen. cbn [rbind].
    now rewrite H.
  - intros img exif Hopen Hexif Hnone. unfold get_date_from_pillow.
    rewrite Hopen. cbn [rbind]. rewrite Hexif. cbn [rbind].
    now destruct Hnone as [->| ->].
Qed.

Lemma backends_absorb_errors_witness :
  get_date_from_piexif plain_world "a.png" = Ok None
  /\ get_date_from_pillow plain_world "a.png" = Ok None.
Proof.
  destruct (backends_absorb_errors plain_world "a.png") as (H1 & _ & _ & _ & _ & H6).
  split.
  - now apply H1.
  - apply (H6 (sample_image None) None); auto.
Defined.

(** X7. The order of the fall-through: when the primary backend is
    missing or yields nothing, a date of the secondary backend is the
    result, whatever the modification time of the file. *)
Theorem secondary_before_mtime (W : World) (path d : string) :
  (HAVE_PIEXIF W = true -> yields_nothing (get_date_from_piexif W path)) ->
  get_date_from_pillow W path = Ok (Some d) ->
  get_date_string W path = Ok (Some d).
Proof.
  intros Hp Hd. unfold get_date_string.
  rewrite Hd. cbn [rbind]. rewrite (get_date_from_pillow_truthy W path d Hd).
  destruct (HAVE_PIEXIF W); [|reflexivity].
  destruct (Hp eq_refl) as (d1 & -> & Ht). cbn [rbind]. now rewrite Ht.
Qed.

Lemma secondary_before_mtime_witness :
  get_date_string secondary_world "a.jpg" = Ok (Some "2020-01-01").
Proof.
  apply secondary_before_mtime.
  - intros _. exists None. split; vm_compute; reflexivity.
  - vm_compute. reflexivity.
Defined.

(* ===================================================================== *)
(** ** Further properties of the layout, the colour and the font size    *)
(* ===================================================================== *)

(** X8. When the text with a margin on both sides fits in the image, the
    text lies inside the image for every anchor name, known or not; for
    every anchor but the centre it keeps the margin to the edges. *)
Theorem calc_pos_inside (pos_name : string) (iw ih tw th m x y : Z) :
  0 <= m -> tw + 2 * m <= iw -> th + 2 * m <= ih ->
  calc_pos pos_name (iw, ih) (tw, th) m = (x, y) ->
  (0 <= x /\ x + tw <= iw /\ 0 <= y /\ y + th <= ih)
  /\ (pos_name <> "center" ->
      m <= x /\ x + tw <= iw - m /\ m <= y /\ y + th <= ih - m).
Proof.
  intros Hm Hw Hh. unfold calc_pos.
  destruct (String.eqb pos_name "top-left"); [intros [= <- <-]; lia|].
  destruct (String.eqb pos_name "top-right"); [intros [= <- <-]; lia|].
  destruct (String.eqb pos_name "bottom-left"); [intros [= <- <-]; lia|].
  destruct (String.eqb_spec pos_name "center") as [->|Hne].
  - intros [= <- <-]. split; [|congruence].
    pose proof (Z.div_mod (iw - tw) 2). pose proof (Z.mod_pos_bound (iw - tw) 2).
    pose proof (Z.div_mod (ih - th) 2). pose proof (Z.mod_pos_bound (ih - th) 2).
    lia.
  - intros [= <- <-]. lia.
Qed.

Lemma calc_pos_inside_witness :
  (0 <= 930 /\ 930 + 60 <= 1000 /\ 0 <= 779 /\ 779 + 11 <= 800)
  /\ ("bottom-right" <> "center" ->
      10 <= 930 /\ 930 + 60 <= 1000 - 10 /\ 10 <= 779 /\ 779 + 11 <= 800 - 10).
Proof.
  apply (calc_pos_inside "bottom-right" 1000 800 60 11 10 930 779); try lia.
  reflexivity.
Defined.

(** X9. The centre anchor balances the free space: the gap on the right
    of the text exceeds the gap on its left by zero or one pixel, and so
    do the gaps below and above, also when the text is larger than the
    image.  Opposite corners mirror each other. *)
Theorem calc_pos_balanced (iw ih tw th m : Z) :
  let c := calc_pos "center" (iw, ih) (tw, th) m in
  let tl := calc_pos "top-left" (iw, ih) (tw, th) m in
  let br := calc_pos "bottom-right" (iw, ih) (tw, th) m in
  0 <= (iw - tw - fst c) - fst c <= 1
  /\ 0 <= (ih - th - snd c) - snd c <= 1
  /\ fst tl + fst br = iw - tw
  /\ snd tl + snd br = ih - th.
Proof.
  cbv zeta.
  change (calc_pos "center" (iw, ih) (tw, th) m) with ((iw - tw) / 2, (ih - th) / 2).
  change (calc_pos "top-left" (iw, ih) (tw, th) m) with (m, m).
  change (calc_pos "bottom-right" (iw, ih) (tw, th) m) with (iw - tw - m, ih - th - m).
  cbn [fst snd].
  pose proof (Z.div_mod (iw - tw) 2). pose proof (Z.mod_pos_bound (iw - tw) 2).
  pose proof (Z.div_mod (ih - th) 2). pose proof (Z.mod_pos_bound (ih - th) 2).
  lia.
Qed.

Lemma hex_pairs_ok : all_from hex_pair_ok (Z.to_nat 256) 0 = true.
Proof. vm_compute. reflexivity. Qed.

Lemma py_int_hex_pair (upper : bool) (n : Z) :
  0 <= n < 256 ->
  py_int (String (hex_digit upper (n / 16)) (String (hex_digit upper (n mod 16)) "")) 16
  = Ok n.
Proof.
  intros Hn.
  pose proof (all_from_spec hex_pair_ok (Z.to_nat 256) 0 n hex_pairs_ok) as H.
  rewrite Z2Nat.id in H by lia. specialize (H ltac:(lia)).
  unfold hex_pair_ok in H.
  destruct (py_int (String (hex_digit true _) _) 16) as [a|] eqn:Ha; [|discriminate].
  destruct (py_int (String (hex_digit false _) _) 16) as [b|] eqn:Hb; [|discriminate].
  destruct upper; [rewrite Ha | rewrite Hb]; f_equal; lia.
Qed.

Lemma hex_digit_no_space (upper : bool) (k : Z) :
  0 <= k < 16 -> Py_UNICODE_ISSPACE (hex_digit upper k) = false.
Proof.
  intros Hk. unfold Py_UNICODE_ISSPACE, hex_digit.
  destruct (k <? 10) eqn:Hlt; [rewrite code_chr by lia; lia|].
  destruct upper; rewrite code_chr by lia; lia.
Qed.

(** X10. The hexadecimal form round-trips: for components from 0 to 255
    written as [#RRGGBB], with upper or lower case letters, [parse_color]
    returns exactly those components. *)
Theorem parse_color_hex_round_trip (upper : bool) (r g b : Z) :
  0 <= r < 256 -> 0 <= g < 256 -> 0 <= b < 256 ->
  parse_color (hex_color upper r g b) = Ok (r, g, b).
Proof.
  intros Hr Hg Hb.
  assert (Hd : forall n, 0 <= n < 256 -> 0 <= n / 16 < 16 /\ 0 <= n mod 16 < 16).
  { intros n Hn. split; [|apply Z.mod_pos_bound; lia].
    split; [apply Z.div_pos; lia | apply Z.div_lt_upper_bound; lia]. }
  assert (Hstrip : strip (or_empty (hex_color upper r g b)) = hex_color upper r g b).
  { unfold or_empty, hex_color, strip. cbn [String.eqb].
    rewrite lstrip_head by reflexivity.
    apply rstrip_no_space. cbn [string_forall].
    rewrite !hex_digit_no_space by (apply Hd; assumption). reflexivity. }
  unfold parse_color. rewrite Hstrip.
  change (startswith (hex_color upper r g b) "#" && (len (hex_color upper r g b) =? 7))
    with true. cbv iota.
  change (str_slice (hex_color upper r g b) 1 3)
    with (String (hex_digit upper (r / 16)) (String (hex_digit upper (r mod 16)) "")).
  change (str_slice (hex_color upper r g b) 3 5)
    with (String (hex_digit upper (g / 16)) (String (hex_digit upper (g mod 16)) "")).
  change (str_slice (hex_color upper r g b) 5 7)
    with (String (hex_digit upper (b / 16)) (String (hex_digit upper (b mod 16)) "")).
  rewrite !py_int_hex_pair by assumption. reflexivity.
Qed.

Lemma parse_color_hex_round_trip_witness :
  parse_color "#ff8000" = Ok (255, 128, 0).
Proof.
  apply (parse_color_hex_round_trip false 255 128 0); lia.
Defined.

Lemma py_int_raises (s : string) (base : Z) (e : exn) :
  py_int s base = Raise e -> e = ValueError.
Proof.
  unfold py_int. destruct (PyLong_FromString _ _); congruence.
Qed.

(** X11. [parse_color] raises on nothing but a text of the hexadecimal
    form (seven characters after stripping, the first a [#]), and then
    with [ValueError]; every other text gives one of the six colours of
    the table, white included. *)
Theorem parse_color_outside_hex (s : string) :
  (forall e, parse_color s = Raise e -> hex_form s = true /\ e = ValueError)
  /\ (hex_form s = false -> exists c, parse_color s = Ok c /\ In c palette).
Proof.
  unfold parse_color, hex_form. split.
  - intros e. destruct (startswith _ _ && _); [|discriminate].
    intros H. split; [reflexivity|].
    destruct (py_int (str_slice _ 1 3) 16) as [r|e1] eqn:Hr; cbn [rbind] in H;
      [|apply py_int_raises in Hr; congruence].
    destruct (py_int (str_slice _ 3 5) 16) as [g|e2] eqn:Hg; cbn [rbind] in H;
      [|apply py_int_raises in Hg; congruence].
    destruct (py_int (str_slice _ 5 7) 16) as [b|e3] eqn:Hb; cbn [rbind] in H;
      [discriminate H | apply py_int_raises in Hb; congruence].
  - intros ->. eexists. split; [reflexivity|].
    destruct (names !! lower (strip (or_empty s))) as [c|] eqn:Hc.
    + unfold names in Hc. apply elem_of_list_to_map_2 in Hc.
      apply list_elem_of_In in Hc. cbn [default].
      simpl in Hc. unfold palette. simpl.
      repeat (destruct Hc as [Hc|Hc]; [injection Hc as _ <-; tauto|]).
      contradiction.
    + simpl. now left.
Qed.

Lemma parse_color_outside_hex_witness :
  exists c, parse_color "Navy" = Ok c /\ In c palette.
Proof.
  apply (proj2 (parse_color_outside_hex "Navy")). reflexivity.
Defined.

(** X12. A specification that parses strictly between 0 and 1 never falls
    back to the default: for every image width below [2 ^ 1022] in
    absolute value the width converts to a float, the product converts
    back to an integer [n], and the size is [max(12, n)], at least 12. *)
Theorem compute_font_px_proportion (spec : string) (img_w : Z) (val : spec_float) :
  py_float spec = Ok val ->
  SFltb float_zero val = true -> SFltb val float_one = true ->
  Z.abs img_w < 2 ^ 1022 ->
  exists w n,
    float_of_int img_w = Ok w
    /\ float_to_int (float_mul w val) = Ok n
    /\ compute_font_px spec img_w = Ok (Z.max 12 n)
    /\ 12 <= Z.max 12 n.
Proof.
  intros Hval H0 H1 Hw.
  destruct (proportion_converts val img_w (py_float_valid spec val Hval) H0 H1 Hw)
    as (w & n & Hconv & Hint).
  exists w, n. split; [exact Hconv|]. split; [exact Hint|]. split; [|lia].
  unfold compute_font_px. rewrite Hval. cbn [rbind].
  rewrite (SFltb_not_SFleb _ _ H1), H0, H1, Hconv. cbn [andb rbind].
  rewrite Hint. reflexivity.
Qed.

Lemma compute_font_px_proportion_witness :
  exists w n,
    float_of_int 4000 = Ok w
    /\ float_to_int (float_mul w (S754_finite false 5764607523034235 (-57))) = Ok n
    /\ compute_font_px "0.04" 4000 = Ok (Z.max 12 n)
    /\ 12 <= Z.max 12 n.
Proof.
  apply compute_font_px_proportion; try (vm_compute; reflexivity).
Defined.

(* ===================================================================== *)
(** ** Further properties of [process_image]                             *)
(* ===================================================================== *)

Section Traces.

Context {A B : Type}.

Lemma act_bind_silent_ok (a : A) (k : A -> action B) :
  act_bind (silent (Ok a)) k = k a.
Proof. unfold silent, act_bind. now destruct (k a). Qed.

Lemma silent_ok_inv (r : result A) (t : list event) (a : A) :
  silent r = (t, Ok a) -> r = Ok a /\ t = [].
Proof. unfold silent. now intros [= <- ->]. Qed.

Lemma perform_ok_inv (ev : event) (r : result A) (t : list event) (a : A) :
  perform ev r = (t, Ok a) -> r = Ok a /\ t = [ev].
Proof. unfold perform. destruct r; [now intros [= <- ->] | discriminate]. Qed.

Lemma quiet_silent (r : result A) : forallb quiet (fst (silent r)) = true.
Proof. reflexivity. Qed.

Lemma quiet_perform (ev : event) (r : result A) :
  quiet ev = true -> forallb quiet (fst (perform ev r)) = true.
Proof. intros H. destruct r; simpl; [now rewrite H | reflexivity]. Qed.

Lemma quiet_bind (c : action A) (k : A -> action B) :
  forallb quiet (fst c) = true ->
  (forall a, forallb quiet (fst (k a)) = true) ->
  forallb quiet (fst (act_bind c k)) = true.
Proof.
  intros Hc Hk. destruct c as [t [a|e]]; simpl in *; [|exact Hc].
  specialize (Hk a). destruct (k a) as [t' r]. simpl in *.
  now rewrite forallb_app, Hc, Hk.
Qed.

Lemma quiet_try (c : action A) (h : exn -> action A) :
  forallb quiet (fst c) = true ->
  (forall e, forallb quiet (fst (h e)) = true) ->
  forallb quiet (fst (act_try c h)) = true.
Proof.
  intros Hc Hh. destruct c as [t [a|e]]; simpl in *; [exact Hc|].
  specialize (Hh e). destruct (h e) as [t' r]. simpl in *.
  now rewrite forallb_app, Hc, Hh.
Qed.

Lemma guarded_bind (W : World) (c : action A) (k : A -> action bool) :
  forallb quiet (fst c) = true ->
  (forall a, guarded_outcome W (k a)) ->
  guarded_outcome W (act_bind c k).
Proof.
  intros Hc Hk. destruct c as [t [a|e]]; simpl in *; [|now left].
  specialize (Hk a). destruct (k a) as [t' [b|e]]; simpl in *.
  - destruct Hk as (-> & before & p & q & -> & Hq). split; [reflexivity|].
    exists (t ++ before)%list, p, q. split; [apply app_assoc|].
    now rewrite forallb_app, Hc, Hq.
  - destruct Hk as [Hq | (before & p & q & -> & Hq & Hp)].
    + left. now rewrite forallb_app, Hc, Hq.
    + right. exists (t ++ before)%list, p, q. split; [apply app_assoc|].
      split; [now rewrite forallb_app, Hc, Hq | exact Hp].
Qed.

End Traces.

Lemma quiet_for {A : Type} (l : list A) (body : A -> action unit) :
  (forall a, forallb quiet (fst (body a)) = true) ->
  forallb quiet (fst (act_for l body)) = true.
Proof.
  intros Hb. induction l as [|a l IH]; [reflexivity|].
  cbn [act_for]. apply quiet_bind; [apply Hb | intros _; exact IH].
Qed.

Lemma quiet_no_print (t : list event) :
  forallb quiet t = true -> existsb is_print t = false.
Proof.
  induction t as [|ev t IH]; [reflexivity|]. simpl. unfold quiet at 1.
  destruct (is_print ev); [discriminate|]. destruct (is_save ev); [discriminate|].
  exact IH.
Qed.

Lemma quiet_no_save (t : list event) :
  forallb quiet t = true -> existsb is_save t = false.
Proof.
  induction t as [|ev t IH]; [reflexivity|]. simpl. unfold quiet at 1.
  destruct (is_print ev); [discriminate|]. destruct (is_save ev); [discriminate|].
  exact IH.
Qed.

Lemma quiet_filter_save (t : list event) :
  forallb quiet t = true -> List.filter is_save t = [].
Proof.
  induction t as [|ev l IH]; [reflexivity|]. intros Hq.
  simpl in Hq. apply andb_true_iff in Hq as [Hev Hl]. simpl.
  unfold quiet in Hev. destruct (is_save ev); [now rewrite andb_false_r in Hev|].
  now apply IH.
Qed.

Lemma raised_after_no_print (W : World) (t : list event) (e : exn) :
  raised_after W t e -> existsb is_print t = false.
Proof.
  intros [Hq | (before & p & q & -> & Hq & _)].
  - now apply quiet_no_print.
  - now rewrite existsb_app, (quiet_no_print _ Hq).
Qed.

Lemma raised_after_saves (W : World) (t : list event) (e : exn) :
  raised_after W t e -> (length (List.filter is_save t) <= 1)%nat.
Proof.
  intros [Hq | (before & p & q & -> & Hq & _)].
  - rewrite (quiet_filter_save _ Hq). simpl. lia.
  - rewrite List.filter_app, (quiet_filter_save _ Hq). simpl. lia.
Qed.

(** A save in the events of a guarded block that has raised was
    completed before the exception: the exception is that of printing
    the line that reports the save. *)
Lemma raised_after_saved (W : World) (t : list event) (e : exn) :
  raised_after W t e -> existsb is_save t = true ->
  exists p q, In (EvSave p q) t /\ builtin_print W (MsgSaved p) = Raise e.
Proof.
  intros [Hq | (before & p & q & -> & Hq & Hp)] Hs.
  - rewrite (quiet_no_save _ Hq) in Hs. discriminate Hs.
  - exists p, q. split; [|exact Hp]. apply in_or_app. right. now left.
Qed.

(** The ways a call of [process_image] ends: the image is skipped; it is
    saved and reported; a failure is reported; or printing the skip
    line or the error line raises. *)
Lemma process_image_outcome (W : World)
      (path out_dir font_path font_spec color_str pos_name : string) :
  let run := process_image W path out_dir font_path font_spec color_str pos_name in
  run = ([EvPrint (MsgSkipped path)], Ok false)
  \/ (exists e, builtin_print W (MsgSkipped path) = Raise e /\ run = ([], Raise e))
  \/ (exists before p q,
        run = ((before ++ [EvSave p q; EvPrint (MsgSaved p)])%list, Ok true)
        /\ forallb quiet before = true)
  \/ (exists before e,
        run = ((before ++ [EvPrint (MsgError path e)])%list, Ok false)
        /\ raised_after W before e)
  \/ (exists before e e',
        run = (before, Raise e')
        /\ raised_after W before e
        /\ builtin_print W (MsgError path e) = Raise e').
Proof.
  cbv zeta. unfold process_image.
  destruct (get_date_string_returns W path) as [d ->].
  rewrite act_bind_silent_ok.
  destruct (date_truthy d); cbn [negb].
  - do 2 right.
    match goal with
    | |- context [act_try ?c _] =>
        assert (Hg : guarded_outcome W c);
          [|rewrite act_try_handled; destruct c as [tb [b|e]]]
    end.
    { apply guarded_bind; [apply quiet_perform; reflexivity | intros im0].
      apply guarded_bind; [apply quiet_perform; reflexivity | intros im].
      destruct (img_size im) as [w h].
      apply guarded_bind; [apply quiet_silent | intros px].
      apply guarded_bind.
      { apply quiet_try; [|intros _; apply quiet_silent].
        destruct (_ && _); apply quiet_silent. }
      intros font.
      apply guarded_bind; [apply quiet_silent | intros draw].
      apply guarded_bind; [apply quiet_silent | intros [tw th]].
      destruct (calc_pos _ _ _ _) as [x y].
      apply guarded_bind.
      { apply quiet_for. intros a. apply quiet_perform. reflexivity. }
      intros _.
      apply guarded_bind; [apply quiet_silent | intros fill].
      apply guarded_bind; [apply quiet_perform; reflexivity | intros _].
      destruct (os_path_splitext W _) as [name ext].
      apply guarded_bind; [apply quiet_perform; reflexivity | intros _].
      cbv zeta. set (out_path := os_path_join W out_dir (name ++ "_wm" ++ ext)).
      unfold print.
      destruct (is_jpeg_ext ext).
      { destruct (Image_convert W im "RGB") as [rgb_im|e]; [|now left].
        simpl. destruct (Image_save _ _ _ _) as [[]|e]; simpl; [|now left].
        destruct (builtin_print W (MsgSaved out_path)) as [[]|e] eqn:Hp; simpl.
        { split; [reflexivity|]. eexists [EvConvert "RGB"], _, _. split; reflexivity. }
        right. exists [EvConvert "RGB"], out_path, (Some 95).
        split; [reflexivity|]. split; [reflexivity | exact Hp]. }
      simpl. destruct (Image_save _ _ _ _) as [[]|e]; simpl; [|now left].
      destruct (builtin_print W (MsgSaved out_path)) as [[]|e] eqn:Hp; simpl.
      { split; [reflexivity|]. eexists [], _, _. split; reflexivity. }
      right. exists [], out_path, None.
      split; [reflexivity|]. split; [reflexivity | exact Hp]. }
    + left. destruct Hg as (-> & before & p & q & -> & Hq).
      exists before, p, q. split; [reflexivity | exact Hq].
    + right. simpl in Hg.
      destruct (builtin_print W (MsgError path e)) as [[]|e'] eqn:Hp.
      * left. exists tb, e. split; [reflexivity | exact Hg].
      * right. exists tb, e, e'. split; [reflexivity|]. split; [exact Hg | exact Hp].
  - unfold print, perform.
    destruct (builtin_print W (MsgSkipped path)) as [[]|e] eqn:Hp.
    + left. reflexivity.
    + right. left. exists e. split; reflexivity.
Qed.

(** X13. A call of [process_image] that returns has printed exactly one
    line, as its last act, and its flag is [True] exactly when that line
    reports a saved file.  No error of the image (opening, converting,
    fonts, drawing, the colour, the directory, saving) leaves the call:
    a call raises only what [print] raises for the line of a skipped
    image or for the line that reports an error, and has then printed
    nothing. *)
Theorem process_image_one_report (W : World)
        (path out_dir font_path font_spec color_str pos_name : string) :
  let run := process_image W path out_dir font_path font_spec color_str pos_name in
  match snd run with
  | Ok b =>
      exists before m,
        fst run = (before ++ [EvPrint m])%list
        /\ existsb is_print before = false
        /\ (b = true <-> exists out_path, m = MsgSaved out_path)
  | Raise e =>
      existsb is_print (fst run) = false
      /\ (builtin_print W (MsgSkipped path) = Raise e
          \/ exists e', builtin_print W (MsgError path e') = Raise e)
  end.
Proof.
  cbv zeta.
  destruct (process_image_outcome W path out_dir font_path font_spec color_str pos_name)
    as [H | [(e & Hp & H) | [(before & p & q & H & Hq)
       | [(before & e & H & Hr) | (before & e & e' & H & Hr & Hp)]]]];
    rewrite H; cbn [fst snd].
  - exists [], (MsgSkipped path). split; [reflexivity|]. split; [reflexivity|].
    split; [discriminate | intros [? [=]]].
  - split; [reflexivity | now left].
  - exists (before ++ [EvSave p q])%list, (MsgSaved p).
    split; [now rewrite <- app_assoc|]. split.
    + rewrite existsb_app, (quiet_no_print _ Hq). reflexivity.
    + split; [now exists p | reflexivity].
  - exists before, (MsgError path e). split; [reflexivity|].
    split; [exact (raised_after_no_print _ _ _ Hr)|].
    split; [discriminate | intros [? [=]]].
  - split; [exact (raised_after_no_print _ _ _ Hr)|]. right. now exists e.
Qed.

(** X14. [True] means saved, and no call saves twice: a call of
    [process_image] completes at most one save, and one that returns
    [True] has completed one.  The converse fails in one way only: when
    a call that does not return [True] has completed a save, printing
    the line that reports it has raised, so the file is written although
    the call reports a failure. *)
Theorem process_image_true_means_saved (W : World)
        (path out_dir font_path font_spec color_str pos_name : string) :
  let run := process_image W path out_dir font_path font_spec color_str pos_name in
  (length (List.filter is_save (fst run)) <= 1)%nat
  /\ (snd run = Ok true -> existsb is_save (fst run) = true)
  /\ (snd run <> Ok true -> existsb is_save (fst run) = true ->
      exists p q e, In (EvSave p q) (fst run)
                    /\ builtin_print W (MsgSaved p) = Raise e).
Proof.
  cbv zeta.
  destruct (process_image_outcome W path out_dir font_path font_spec color_str pos_name)
    as [H | [(e & Hp & H) | [(before & p & q & H & Hq)
       | [(before & e & H & Hr) | (before & e & e' & H & Hr & Hp)]]]];
    rewrite H; cbn [fst snd].
  - split; [simpl; lia|]. split; [discriminate|]. intros _ Hs. discriminate Hs.
  - split; [simpl; lia|]. split; [discriminate|]. intros _ Hs. discriminate Hs.
  - split; [|split].
    + rewrite List.filter_app, (quiet_filter_save _ Hq). simpl. lia.
    + intros _. rewrite existsb_app. simpl. now rewrite orb_true_r.
    + intros Hne. now contradiction Hne.
  - split; [|split].
    + rewrite List.filter_app, length_app. simpl.
      pose proof (raised_after_saves _ _ _ Hr). lia.
    + discriminate.
    + intros _ Hs. rewrite existsb_app in Hs. simpl in Hs. rewrite orb_false_r in Hs.
      destruct (raised_after_saved _ _ _ Hr Hs) as (p & q & Hin & Hp).
      exists p, q, e. split; [|exact Hp]. apply in_or_app. now left.
  - split; [|split].
    + exact (raised_after_saves _ _ _ Hr).
    + discriminate.
    + intros _ Hs. destruct (raised_after_saved _ _ _ Hr Hs) as (p & q & Hin & Hp').
      now exists p, q, e.
Qed.

(** The converse does fail: on a standard output that cannot encode the
    name of the output directory the image is saved, the line that
    reports it raises, the handler prints the error line and the call
    returns [False]. *)
Example saved_but_reported_failed :
  process_image narrow_world "photos/b.png" nino_out "" "24" "yellow" "top-left"
  = ([ EvOpen "photos/b.png"; EvConvert "RGBA";
       EvDrawText (9, 9) "2022-07-04" (0, 0, 0);
       EvDrawText (9, 11) "2022-07-04" (0, 0, 0);
       EvDrawText (11, 9) "2022-07-04" (0, 0, 0);
       EvDrawText (11, 11) "2022-07-04" (0, 0, 0);
       EvDrawText (10, 10) "2022-07-04" (255, 255, 0);
       EvMakedirs nino_out;
       EvSave (sample_join nino_out "b_wm.png") None;
       EvPrint (MsgError "photos/b.png" UnicodeEncodeError) ],
     Ok false).
Proof. vm_compute. reflexivity. Qed.

Lemma outline_trace (draw : Draw) (x y : Z) (text : string) (font : Font)
      (t : list event) (u : unit) :
  act_for outline_offsets
    (fun d => perform (EvDrawText (x + fst d, y + snd d) text outline_color)
                (draw_text draw (x + fst d, y + snd d) text font outline_color))
  = (t, Ok u) ->
  t = [ EvDrawText (x - 1, y - 1) text outline_color;
        EvDrawText (x - 1, y + 1) text outline_color;
        EvDrawText (x + 1, y - 1) text outline_color;
        EvDrawText (x + 1, y + 1) text outline_color ].
Proof.
  unfold outline_offsets. cbn [act_for fst snd]. intros H.
  apply act_bind_ok in H as (t1 & u1 & r1 & Hp1 & H & ->).
  apply perform_ok_inv in Hp1 as [_ ->].
  apply act_bind_ok in H as (t2 & u2 & r2 & Hp2 & H & ->).
  apply perform_ok_inv in Hp2 as [_ ->].
  apply act_bind_ok in H as (t3 & u3 & r3 & Hp3 & H & ->).
  apply perform_ok_inv in Hp3 as [_ ->].
  apply act_bind_ok in H as (t4 & u4 & r4 & Hp4 & H & ->).
  apply perform_ok_inv in Hp4 as [_ ->].
  injection H as <-. reflexivity.
Qed.

(** X15. A call of [process_image] that returns [True] did exactly this,
    in this order: it opened the file, converted it to RGBA, drew the
    resolved date four times in black one pixel off the position that
    [calc_pos] gives for the converted image's size, the measured text
    and the margin 10, drew it once more at that position in the parsed
    colour, made the output directory, saved under the base name with
    [_wm] before the extension (for a JPEG extension after a conversion
    to RGB and with quality 95) and printed the saved path. *)
Theorem process_image_success_trace (W : World)
        (path out_dir font_path font_spec color_str pos_name : string)
        (t : list event) :
  process_image W path out_dir font_path font_spec color_str pos_name = (t, Ok true) ->
  exists date im0 im draw font tw th fill,
    get_date_string W path = Ok (Some date)
    /\ Image_open W path = Ok im0
    /\ Image_convert W im0 "RGBA" = Ok im
    /\ ImageDraw_Draw W im = Ok draw
    /\ _measure_text draw date font = Ok (tw, th)
    /\ parse_color color_str = Ok fill
    /\ t = saved_trace path out_dir date
             (calc_pos pos_name (img_size im) (tw, th) 10) fill
             (is_jpeg_ext (snd (os_path_splitext W (os_path_basename W path))))
             (os_path_join W out_dir
                (fst (os_path_splitext W (os_path_basename W path)) ++ "_wm"
                 ++ snd (os_path_splitext W (os_path_basename W path)))).
Proof.
  unfold process_image. intros H.
  apply act_bind_ok in H as (t0 & d & t1 & Hd & H & ->).
  apply silent_ok_inv in Hd as [Hd ->].
  destruct (date_truthy d) eqn:Ht; cbn [negb] in H; cycle 1.
  { unfold print, perform in H.
    destruct (builtin_print W (MsgSkipped path)); simpl in H; discriminate H. }
  destruct d as [date|]; [|discriminate Ht].
  change (default "" (Some date)) with date in H.
  apply act_try_true in H.
  apply act_bind_ok in H as (to & im0 & rr1 & Hopen & H & ->).
  apply perform_ok_inv in Hopen as [Hopen ->].
  apply act_bind_ok in H as (tc & im & rr2 & Hconv & H & ->).
  apply perform_ok_inv in Hconv as [Hconv ->].
  destruct (img_size im) as [w h] eqn:Hsize.
  apply act_bind_ok in H as (tp & px & rr3 & Hpx & H & ->).
  apply silent_ok_inv in Hpx as [_ ->].
  apply act_bind_ok in H as (tf & font & rr4 & Hfont & H & ->).
  assert (tf = []) as ->.
  { pose proof (quiet_try
      (if negb (String.eqb font_path "") && os_path_isfile W font_path
       then silent (ImageFont_truetype W font_path px)
       else silent (ImageFont_load_default W))
      (fun _ => silent (ImageFont_load_default W))) as Hq.
    assert (Hfst : fst (act_try
      (if negb (String.eqb font_path "") && os_path_isfile W font_path
       then silent (ImageFont_truetype W font_path px)
       else silent (ImageFont_load_default W))
      (fun _ => silent (ImageFont_load_default W))) = []).
    { destruct (_ && _).
      - destruct (ImageFont_truetype W font_path px); [reflexivity|].
        unfold silent, act_try. now destruct (ImageFont_load_default W).
      - destruct (ImageFont_load_default W) as [f|e]; [reflexivity|].
        reflexivity. }
    rewrite Hfont in Hfst. exact Hfst. }
  apply act_bind_ok in H as (td & draw & rr5 & Hdraw & H & ->).
  apply silent_ok_inv in Hdraw as [Hdraw ->].
  apply act_bind_ok in H as (tm & [tw th] & rr6 & Hm & H & ->).
  apply silent_ok_inv in Hm as [Hm ->].
  destruct (calc_pos pos_name (w, h) (tw, th) default_margin) as [x y] eqn:Hpos.
  apply act_bind_ok in H as (tl & u & rr7 & Hout & H & ->).
  apply outline_trace in Hout as ->.
  apply act_bind_ok in H as (tk & fill & rr8 & Hfill & H & ->).
  apply silent_ok_inv in Hfill as [Hfill ->].
  apply act_bind_ok in H as (tx & u' & rr9 & Htext & H & ->).
  apply perform_ok_inv in Htext as [_ ->].
  destruct (os_path_splitext W (os_path_basename W path)) as [name ext].
  apply act_bind_ok in H as (tmk & u'' & rr10 & Hmk & H & ->).
  apply perform_ok_inv in Hmk as [_ ->].
  apply act_bind_ok in H as (ts & u3 & rr11 & Hsave & H & ->).
  apply act_bind_ok in H as (tpr & u4 & rr12 & Hpr & H & ->).
  apply print_ok_inv in Hpr as [_ ->]. injection H as <-.
  exists date, im0, im, draw, font, tw, th, fill.
  repeat (split; [assumption|]).
  unfold saved_trace. change 10 with default_margin. rewrite Hsize, Hpos.
  cbn [fst snd].
  assert (ts = if is_jpeg_ext ext
               then [EvConvert "RGB"; EvSave (os_path_join W out_dir (name ++ "_wm" ++ ext)) (Some 95)]
               else [EvSave (os_path_join W out_dir (name ++ "_wm" ++ ext)) None]) as ->.
  { destruct (is_jpeg_ext ext).
    - apply act_bind_ok in Hsave as (tcv & rgb_im & tsv & Hcv & Hsv & ->).
      apply perform_ok_inv in Hcv as [_ ->].
      apply perform_ok_inv in Hsv as [_ ->]. reflexivity.
    - apply perform_ok_inv in Hsave as [_ ->]. reflexivity. }
  destruct (is_jpeg_ext ext); reflexivity.
Qed.

Lemma process_image_success_trace_witness :
  exists date im0 im draw font tw th fill,
    get_date_string photo_world "photos/b.png" = Ok (Some date)
    /\ Image_open photo_world "photos/b.png" = Ok im0
    /\ Image_convert photo_world im0 "RGBA" = Ok im
    /\ ImageDraw_Draw photo_world im = Ok draw
    /\ _measure_text draw date font = Ok (tw, th)
    /\ parse_color "yellow" = Ok fill
    /\ [ EvOpen "photos/b.png"; EvConvert "RGBA";
         EvDrawText (9, 9) "2022-07-04" (0, 0, 0);
         EvDrawText (9, 11) "2022-07-04" (0, 0, 0);
         EvDrawText (11, 9) "2022-07-04" (0, 0, 0);
         EvDrawText (11, 11) "2022-07-04" (0, 0, 0);
         EvDrawText (10, 10) "2022-07-04" (255, 255, 0);
         EvMakedirs "out";
         EvSave "out/b_wm.png" None;
         EvPrint (MsgSaved "out/b_wm.png") ]
       = saved_trace "photos/b.png" "out" date
             (calc_pos "top-left" (img_size im) (tw, th) 10) fill
             (is_jpeg_ext (snd (os_path_splitext photo_world
                                  (os_path_basename photo_world "photos/b.png"))))
             (os_path_join photo_world "out"
                (fst (os_path_splitext photo_world
                        (os_path_basename photo_world "photos/b.png")) ++ "_wm"
                 ++ snd (os_path_splitext photo_world
                           (os_path_basename photo_world "photos/b.png")))).
Proof.
  apply (process_image_success_trace photo_world "photos/b.png" "out" "" "24"
           "yellow" "top-left").
  vm_compute. reflexivity.
Defined.

(* ===================================================================== *)
(** ** [input_nonempty] and [list_images_in_dir]                         *)
(* ===================================================================== *)

Lemma rstrip_idempotent (s : string) : rstrip (rstrip s) = rstrip s.
Proof.
  induction s as [|c s IH]; [reflexivity|].
  cbn [rstrip]. destruct (rstrip s) as [|c' r] eqn:Hr.
  - destruct (Py_UNICODE_ISSPACE c) eqn:Hc; [reflexivity|].
    cbn [rstrip]. now rewrite Hc.
  - cbn [rstrip]. cbn [rstrip] in IH. rewrite IH. reflexivity.
Qed.

Lemma lstrip_cases (s : string) :
  lstrip s = "" \/ exists c r, lstrip s = String c r /\ Py_UNICODE_ISSPACE c = false.
Proof.
  induction s as [|c s IH]; [now left|].
  cbn [lstrip]. destruct (Py_UNICODE_ISSPACE c) eqn:Hc; [exact IH|].
  right. now exists c, s.
Qed.

Lemma strip_idempotent (s : string) : strip (strip s) = strip s.
Proof.
  unfold strip.
  destruct (lstrip_cases s) as [-> | (c & r & -> & Hc)]; [reflexivity|].
  assert (H : exists r', rstrip (String c r) = String c r').
  { cbn [rstrip]. destruct (rstrip r); [rewrite Hc|]; eauto. }
  destruct H as [r' Hr]. rewrite Hr, (lstrip_head _ _ Hc), <- Hr.
  apply rstrip_idempotent.
Qed.

(** What [input_nonempty] does with the call number [n] of [input]. *)
Lemma input_nonempty_eq (S : Shell) (n : nat) (p : prompt) (default : string) :
  input_nonempty S n p default
  = ([EvPrompt p default],
     match input S n with
     | Ok s => Ok (if String.eqb (strip s) "" then default else strip s)
     | Raise e => Raise e
     end).
Proof. unfold input_nonempty, prog_bind, prog_ret. now destruct (input S n). Qed.

(** X16. What [input_nonempty] returns is the default or a text that is
    not empty and has no white space at either end, the stripped line;
    it is empty only when the default is empty and the line was blank.
    It raises only what [input] raises. *)
Theorem input_nonempty_answer (S : Shell) (n : nat) (p : prompt)
        (default : string) (t : list main_event) (r : result string) :
  input_nonempty S n p default = (t, r) ->
  match r with
  | Ok s =>
      exists typed,
        input S n = Ok typed
        /\ (s = default /\ strip typed = ""
            \/ s = strip typed /\ s <> "" /\ strip s = s)
  | Raise e => input S n = Raise e
  end.
Proof.
  rewrite input_nonempty_eq. intros [= <- <-].
  destruct (input S n) as [typed|e]; [|reflexivity].
  exists typed. split; [reflexivity|].
  destruct (String.eqb_spec (strip typed) "") as [He|Hne].
  - left. now split.
  - right. split; [reflexivity|]. split; [exact Hne|]. apply strip_idempotent.
Qed.

Lemma input_nonempty_answer_witness :
  exists typed,
    input (sample_shell (Ok []) ["  center " ]) 0 = Ok typed
    /\ ("center" = "bottom-right" /\ strip typed = ""
        \/ "center" = strip typed /\ "center" <> "" /\ strip "center" = "center").
Proof.
  apply (input_nonempty_answer (sample_shell (Ok []) ["  center "]) 0
           PromptPosition "bottom-right" [EvPrompt PromptPosition "bottom-right"]
           (Ok "center")).
  vm_compute. reflexivity.
Defined.

Lemma ascii_compare_N (a b : ascii) :
  Ascii.compare a b = N.compare (N_of_ascii a) (N_of_ascii b).
Proof. reflexivity. Qed.

Lemma string_compare_trans (s1 : string) : forall s2 s3 : string,
  String.compare s1 s2 <> Gt -> String.compare s2 s3 <> Gt ->
  String.compare s1 s3 <> Gt.
Proof.
  induction s1 as [|a s1 IH]; intros [|b s2] [|c s3]; cbn [String.compare];
    try congruence.
  rewrite !ascii_compare_N.
  destruct (N.compare_spec (N_of_ascii a) (N_of_ascii b)) as [Hab|Hab|Hab];
    destruct (N.compare_spec (N_of_ascii b) (N_of_ascii c)) as [Hbc|Hbc|Hbc];
    try congruence; intros H1 H2.
  - rewrite Hab, Hbc, N.compare_refl. now apply (IH s2).
  - rewrite Hab. apply N.compare_lt_iff in Hbc. now rewrite Hbc.
  - rewrite <- Hbc. apply N.compare_lt_iff in Hab. now rewrite Hab.
  - assert (Hac : (N_of_ascii a < N_of_ascii c)%N) by lia.
    apply N.compare_lt_iff in Hac. now rewrite Hac.
Qed.

#[local] Instance str_le_trans : Transitive str_le.
Proof.
  intros s1 s2 s3. unfold str_le, String.leb. intros H1 H2.
  pose proof (string_compare_trans s1 s2 s3) as H.
  destruct (String.compare s1 s2); try discriminate;
    destruct (String.compare s2 s3); try discriminate;
    destruct (String.compare s1 s3); try reflexivity;
    exfalso; apply H; congruence.
Qed.

#[local] Instance str_le_antisym : AntiSymm eq str_le.
Proof. intros s1 s2. apply String.leb_antisym. Qed.

#[local] Instance str_le_total : Total str_le.
Proof. intros s1 s2. apply String.leb_total. Qed.

Lemma sorted_Sorted (files : list string) : Sorted.Sorted str_le (sorted files).
Proof. apply sorting.Sorted_merge_sort. exact str_le_total. Qed.

Lemma sorted_Permutation (files : list string) : sorted files ≡ₚ files.
Proof. apply sorting.merge_sort_Permutation. Qed.

Lemma sorted_order_independent (l1 l2 : list string) :
  l1 ≡ₚ l2 -> sorted l1 = sorted l2.
Proof.
  intros H. apply (sorting.Sorted_unique str_le); try apply sorted_Sorted.
  now rewrite !sorted_Permutation.
Qed.

Lemma collect_images_filter (W : World) (d : string) (names : list string) :
  forall files,
    fold_left (collect_image W d) names files
    = (files
       ++ map (os_path_join W d)
            (List.filter (fun name =>
                       os_path_isfile W (os_path_join W d name)
                       && existsb (String.eqb (snd (os_path_splitext W (lower name)))) exts)
                    names))%list.
Proof.
  induction names as [|name names IH]; intros files; cbn [fold_left].
  - now rewrite app_nil_r.
  - rewrite IH. unfold collect_image.
    cbn [List.filter].
    destruct (_ && _); [|reflexivity].
    cbn [map]. now rewrite <- app_assoc.
Qed.

(** X17. [list_images_in_dir] returns, in ascending order of the paths,
    the joined path of every listed name that is a regular file and
    whose lower-cased name has one of the six extensions, once for each
    time it is listed and nothing else; when the directory cannot be
    listed it returns the empty list. *)
Theorem list_images_in_dir_sorted_filter (S : Shell) (W : World) (d : string) :
  Sorted.Sorted str_le (list_images_in_dir S W d)
  /\ match os_listdir S d with
     | Ok names =>
         list_images_in_dir S W d
         ≡ₚ map (os_path_join W d)
              (List.filter (fun name =>
                         os_path_isfile W (os_path_join W d name)
                         && existsb (String.eqb (snd (os_path_splitext W (lower name))))
                              [".jpg"; ".jpeg"; ".png"; ".webp"; ".bmp"; ".tiff"])
                      names)
     | Raise _ => list_images_in_dir S W d = []
     end.
Proof.
  unfold list_images_in_dir. split; [apply sorted_Sorted|].
  destruct (os_listdir S d) as [names|e]; [|reflexivity].
  rewrite sorted_Permutation, collect_images_filter. reflexivity.
Qed.

(** X18. The order in which the directory is listed does not matter: two
    listings with the same names give the same list of images. *)
Theorem list_images_in_dir_order_independent (S1 S2 : Shell) (W : World) (d : string)
        (names1 names2 : list string) :
  os_listdir S1 d = Ok names1 -> os_listdir S2 d = Ok names2 ->
  names1 ≡ₚ names2 ->
  list_images_in_dir S1 W d = list_images_in_dir S2 W d.
Proof.
  intros H1 H2 Hp. unfold list_images_in_dir. rewrite H1, H2.
  apply sorted_order_independent.
  rewrite !collect_images_filter. cbn [app].
  apply Permutation_map. clear H1 H2. induction Hp.
  - reflexivity.
  - cbn [List.filter]. destruct (_ && _); [apply perm_skip|]; exact IHHp.
  - cbn [List.filter].
    destruct (os_path_isfile W (os_path_join W d x) && _);
      destruct (os_path_isfile W (os_path_join W d y) && _);
      try reflexivity. apply perm_swap.
  - etransitivity; eassumption.
Qed.

Lemma list_images_in_dir_order_independent_witness :
  list_images_in_dir (sample_shell (Ok ["z.JPG"; "notes.txt"; "a.png"]) []) files_world "photos"
  = list_images_in_dir (sample_shell (Ok ["a.png"; "z.JPG"; "notes.txt"]) []) files_world "photos".
Proof.
  apply (list_images_in_dir_order_independent _ _ files_world "photos"
           ["z.JPG"; "notes.txt"; "a.png"] ["a.png"; "z.JPG"; "notes.txt"]).
  - reflexivity.
  - reflexivity.
  - change ["z.JPG"; "notes.txt"; "a.png"] with (["z.JPG"; "notes.txt"] ++ ["a.png"])%list.
    change ["a.png"; "z.JPG"; "notes.txt"] with (["a.png"] ++ ["z.JPG"; "notes.txt"])%list.
    apply Permutation_app_comm.
Defined.

(* ===================================================================== *)
(** ** [main]                                                            *)
(* ===================================================================== *)

Section Programs.

Context {A B : Type}.

Lemma prog_bind_ok (t : list main_event) (a : A) (k : A -> program B) :
  prog_bind (t, Ok a) k = ((t ++ fst (k a))%list, snd (k a)).
Proof. unfold prog_bind. now destruct (k a). Qed.

Lemma prog_bind_raise (t : list main_event) (e : exn) (k : A -> program B) :
  prog_bind (t, Raise e) k = (t, Raise e).
Proof. reflexivity. Qed.

End Programs.

Lemma progress_of_app (t1 t2 : list main_event) :
  progress_of (t1 ++ t2) = (progress_of t1 ++ progress_of t2)%list.
Proof. apply flat_map_app. Qed.

Lemma progress_of_images (t : list event) : progress_of (map EvImage t) = [].
Proof. induction t as [|ev t IH]; [reflexivity | exact IH]. Qed.

Lemma saved_count_app (t1 t2 : list main_event) :
  saved_count (t1 ++ t2) = saved_count t1 + saved_count t2.
Proof. unfold saved_count. rewrite List.filter_app, length_app. lia. Qed.

Lemma saved_count_images (t : list event) :
  saved_count (map EvImage t) = Z.of_nat (length (List.filter is_save t)).
Proof.
  unfold saved_count. f_equal. induction t as [|ev t IH]; [reflexivity|].
  cbn [map List.filter]. change (is_saved (EvImage ev)) with (is_save ev).
  destruct (is_save ev); cbn [length]; now rewrite IH.
Qed.

Lemma reported_count_app (t1 t2 : list main_event) :
  reported_count (t1 ++ t2) = reported_count t1 + reported_count t2.
Proof. unfold reported_count. rewrite List.filter_app, length_app. lia. Qed.

Lemma reported_count_images (t : list event) :
  reported_count (map EvImage t) = Z.of_nat (length (List.filter reports_save t)).
Proof.
  unfold reported_count. f_equal. induction t as [|ev t IH]; [reflexivity|].
  cbn [map List.filter]. change (is_reported (EvImage ev)) with (reports_save ev).
  destruct (reports_save ev); cbn [length]; now rewrite IH.
Qed.

Lemma no_print_no_report (t : list event) :
  existsb is_print t = false -> List.filter reports_save t = [].
Proof.
  induction t as [|ev t IH]; [reflexivity|]. simpl. intros H.
  apply orb_false_iff in H as [Hev Ht].
  destruct ev as [[]| | | | |]; try discriminate Hev; simpl; now apply IH.
Qed.

Lemma loop_event_images (t : list event) : forallb loop_event (map EvImage t) = true.
Proof. induction t as [|ev t IH]; [reflexivity | exact IH]. Qed.

(** What one call of [process_image] adds to the counts of a run: at
    most one save; one reported save when it returns [True], then with a
    save, and none when it returns [False]; and it raises only what
    [print] raises. *)
Lemma process_image_counts (W : World)
      (path out_dir font_path font_spec color_str pos_name : string) :
  exists t r,
    process_image W path out_dir font_path font_spec color_str pos_name = (t, r)
    /\ (length (List.filter is_save t) <= 1)%nat
    /\ match r with
       | Ok b =>
           Z.of_nat (length (List.filter reports_save t)) = (if b then 1 else 0)
           /\ (b = true -> length (List.filter is_save t) = 1%nat)
       | Raise e => exists m, builtin_print W m = Raise e
       end.
Proof.
  destruct (process_image_outcome W path out_dir font_path font_spec color_str pos_name)
    as [H | [(e & Hp & H) | [(before & p & q & H & Hq)
       | [(before & e & H & Hr) | (before & e & e' & H & Hr & Hp)]]]];
    cbv zeta in H; rewrite H; eexists _, _; (split; [reflexivity|]).
  - split; [simpl; lia|]. split; [reflexivity | discriminate].
  - split; [simpl; lia|]. now exists (MsgSkipped path).
  - rewrite !List.filter_app, (quiet_filter_save _ Hq),
      (no_print_no_report _ (quiet_no_print _ Hq)).
    simpl. split; [lia|]. split; reflexivity.
  - rewrite !List.filter_app, length_app,
      (no_print_no_report _ (raised_after_no_print _ _ _ Hr)).
    pose proof (raised_after_saves _ _ _ Hr).
    simpl. split; [lia|]. split; [reflexivity | discriminate].
  - split; [exact (raised_after_saves _ _ _ Hr)|]. now exists (MsgError path e).
Qed.

Lemma enumerate_length (l : list string) : forall i, length (enumerate i l) = length l.
Proof. induction l as [|x l IH]; intros i; [reflexivity|]. cbn. now rewrite IH. Qed.

Lemma loop_event_not_done (t : list main_event) (n k : Z) (out : string) :
  forallb loop_event t = true -> ~ In (EvSay (MsgDone n k out)) t.
Proof.
  intros Hl Hin. rewrite forallb_forall in Hl. specialize (Hl _ Hin). discriminate Hl.
Qed.

(** The loop of [main]: the images are announced in their order and the
    loop stops early only when a line cannot be printed. *)
Lemma process_all_run (S : Shell) (W : World)
      (out_dir font_path font_spec color pos : string)
      (n : Z) (image_list : list string) : forall i success : Z,
  exists t r,
    process_all S W out_dir font_path font_spec color pos n i image_list success
    = (t, r)
    /\ forallb loop_event t = true
    /\ (exists rest, enumerate i image_list = (progress_of t ++ rest)%list
                     /\ (is_ok r = true -> rest = []))
    /\ saved_count t <= Z.of_nat (length (progress_of t))
    /\ match r with
       | Ok k => reported_count t = k - success
                 /\ 0 <= k - success <= saved_count t
       | Raise e => console_raises S W e
       end.
Proof.
  induction image_list as [|img rest IH]; intros i success.
  - exists [], (Ok success). cbn [process_all]. unfold prog_ret.
    split; [reflexivity|]. split; [reflexivity|].
    split; [exists []; split; reflexivity|].
    unfold saved_count, reported_count. simpl. lia.
  - cbn [process_all]. unfold say.
    destruct (print_line S (MsgProgress i n img)) as [[]|e] eqn:Hsay.
    2:{ exists [], (Raise e). split; [reflexivity|]. split; [reflexivity|].
        split; [eexists; split; [reflexivity | discriminate]|].
        split; [unfold saved_count; simpl; lia|].
        right. left. now exists (MsgProgress i n img). }
    destruct (process_image_counts W img out_dir font_path font_spec color pos)
      as (ti & ri & Hi & Hone & Hri).
    rewrite prog_bind_ok. unfold run_image. rewrite Hi. cbn [fst snd].
    destruct ri as [b|e].
    2:{ rewrite prog_bind_raise. cbn [fst snd].
        exists ([EvSay (MsgProgress i n img)] ++ map EvImage ti)%list, (Raise e).
        split; [reflexivity|].
        split; [cbn [app forallb loop_event]; apply loop_event_images|].
        rewrite progress_of_app, progress_of_images, saved_count_app, saved_count_images.
        split; [exists (enumerate (i + 1) rest); split; [reflexivity | discriminate]|].
        split; [unfold saved_count; simpl; lia|].
        destruct Hri as [m Hm]. right. right. now exists m. }
    destruct Hri as [Hrep Hsaved].
    destruct (IH (i + 1) (if b then success + 1 else success))
      as (t' & r' & Hrest & Hloop & (rest' & Hprog & Hfull) & Hsc & Hr').
    rewrite prog_bind_ok, Hrest. cbn [fst snd].
    exists ([EvSay (MsgProgress i n img)] ++ map EvImage ti ++ t')%list, r'.
    split; [reflexivity|].
    split.
    { cbn [app forallb loop_event]. now rewrite forallb_app, loop_event_images, Hloop. }
    rewrite !progress_of_app, progress_of_images, !saved_count_app, saved_count_images,
      !reported_count_app, reported_count_images, Hrep.
    change (progress_of [EvSay (MsgProgress i n img)]) with [(i, img)].
    change (saved_count [EvSay (MsgProgress i n img)]) with 0.
    change (reported_count [EvSay (MsgProgress i n img)]) with 0.
    cbn [app].
    split.
    { exists rest'. cbn [enumerate]. rewrite Hprog. split; [reflexivity | exact Hfull]. }
    split; [cbn [length]; lia|].
    destruct r' as [k|e]; [|exact Hr'].
    destruct b.
    + specialize (Hsaved eq_refl). lia.
    + lia.
Qed.

(** The part of [main] that follows its questions: the count line, the
    loop and the final line. *)
Lemma main_rest_run (S : Shell) (W : World)
      (font_path font_spec color pos : string)
      (image_list : list string) (out_dir : string) :
  exists t r,
    (_ <<~ say S (MsgFound (Z.of_nat (length image_list)) out_dir) ;;
     success <<~ process_all S W out_dir font_path font_spec color pos
                   (Z.of_nat (length image_list)) 1 image_list 0 ;;
     say S (MsgDone (Z.of_nat (length image_list)) success out_dir)) = (t, r)
    /\ (exists rest, enumerate 1 image_list = (progress_of t ++ rest)%list
                     /\ (r = Ok tt -> rest = []))
    /\ saved_count t <= Z.of_nat (length (progress_of t))
    /\ (forall e, r = Raise e -> console_raises S W e)
    /\ (forall n k out,
          In (EvSay (MsgDone n k out)) t ->
          r = Ok tt /\ n = Z.of_nat (length image_list)
          /\ k = reported_count t /\ 0 <= k <= saved_count t)
    /\ (forall p d, ~ In (EvPrompt p d) t).
Proof.
  unfold say at 1.
  destruct (print_line S (MsgFound _ _)) as [[]|e] eqn:Hfound.
  2:{ rewrite prog_bind_raise. exists [], (Raise e). split; [reflexivity|].
      split; [eexists; split; [reflexivity | discriminate]|].
      split; [unfold saved_count; simpl; lia|].
      split; [intros e' [= ->]; right; left; eauto|].
      split; [intros n k out []|intros p d []]. }
  destruct (process_all_run S W out_dir font_path font_spec color pos
              (Z.of_nat (length image_list)) image_list 1 0)
    as (tl & rl & Hrun & Hloop & (rest & Hprog & Hfull) & Hsc & Hrl).
  rewrite prog_bind_ok, Hrun. cbn [fst snd].
  assert (Hnp : forall p d, ~ In (EvPrompt p d) tl).
  { intros p d Hin. rewrite forallb_forall in Hloop. specialize (Hloop _ Hin).
    discriminate Hloop. }
  destruct rl as [k|e].
  2:{ rewrite prog_bind_raise. cbn [fst snd].
      exists ([EvSay (MsgFound (Z.of_nat (length image_list)) out_dir)] ++ tl)%list,
        (Raise e).
      split; [reflexivity|]. rewrite progress_of_app, saved_count_app.
      change (progress_of [EvSay (MsgFound (Z.of_nat (length image_list)) out_dir)])
        with (@nil (Z * string)).
      change (saved_count [EvSay (MsgFound (Z.of_nat (length image_list)) out_dir)])
        with 0. cbn [app].
      split; [exists rest; split; [exact Hprog | discriminate]|].
      split; [lia|]. split; [now intros e' [= <-]|].
      split.
      - intros n' k' out' [Hin|Hin]; [discriminate Hin|].
        now apply loop_event_not_done in Hin.
      - intros p d [Hin|Hin]; [discriminate Hin | now apply (Hnp p d)]. }
  rewrite prog_bind_ok. unfold say.
  destruct Hrl as [Hrep Hk].
  destruct (print_line S (MsgDone _ k _)) as [[]|e] eqn:Hdone; cbn [fst snd].
  - exists ([EvSay (MsgFound (Z.of_nat (length image_list)) out_dir)] ++ tl
            ++ [EvSay (MsgDone (Z.of_nat (length image_list)) k out_dir)])%list, (Ok tt).
    split; [reflexivity|].
    rewrite !progress_of_app, !saved_count_app, !reported_count_app.
    change (progress_of [EvSay (MsgFound (Z.of_nat (length image_list)) out_dir)])
      with (@nil (Z * string)).
    change (progress_of [EvSay (MsgDone (Z.of_nat (length image_list)) k out_dir)])
      with (@nil (Z * string)).
    change (saved_count [EvSay (MsgFound (Z.of_nat (length image_list)) out_dir)])
      with 0.
    change (saved_count [EvSay (MsgDone (Z.of_nat (length image_list)) k out_dir)])
      with 0.
    change (reported_count [EvSay (MsgFound (Z.of_nat (length image_list)) out_dir)])
      with 0.
    change (reported_count [EvSay (MsgDone (Z.of_nat (length image_list)) k out_dir)])
      with 0.
    cbn [app]. rewrite app_nil_r.
    split; [exists rest; split; [exact Hprog | intros _; now apply Hfull]|].
    split; [lia|]. split; [discriminate|].
    split.
    + intros n' k' out' [Hin|Hin]; [discriminate Hin|].
      apply in_app_or in Hin as [Hin|Hin];
        [now apply loop_event_not_done in Hin|].
      destruct Hin as [[= <- <- <-]|[]].
      split; [reflexivity|]. split; [reflexivity|]. lia.
    + intros p d [Hin|Hin]; [discriminate Hin|].
      apply in_app_or in Hin as [Hin|Hin]; [now apply (Hnp p d)|].
      destruct Hin as [Hin|[]]. discriminate Hin.
  - exists ([EvSay (MsgFound (Z.of_nat (length image_list)) out_dir)] ++ tl ++ [])%list,
      (Raise e).
    split; [reflexivity|]. rewrite app_nil_r, progress_of_app, saved_count_app.
    change (progress_of [EvSay (MsgFound (Z.of_nat (length image_list)) out_dir)])
      with (@nil (Z * string)).
    change (saved_count [EvSay (MsgFound (Z.of_nat (length image_list)) out_dir)])
      with 0. cbn [app].
    split; [exists rest; split; [exact Hprog | discriminate]|].
    split; [lia|].
    split; [intros e' [= <-]; right; left; eauto|].
    split.
    + intros n' k' out' [Hin|Hin]; [discriminate Hin|].
      now apply loop_event_not_done in Hin.
    + intros p d [Hin|Hin]; [discriminate Hin | now apply (Hnp p d)].
Qed.

(** The two ways a run of [main] goes: it stops before the loop, having
    touched no image, or it reads the five answers and works on the
    images of the path. *)
Lemma main_run (S : Shell) (W : World) (t : list main_event) (r : result unit) :
  main S W = (t, r) ->
  (forall e, r = Raise e -> console_raises S W e)
  /\ ((progress_of t = []
       /\ (forall ev, ~ In (EvImage ev) t)
       /\ (forall n k out, ~ In (EvSay (MsgDone n k out)) t))
      \/ (exists typed,
            input S 0 = Ok typed
            /\ strip typed <> ""
            /\ os_path_exists S (os_path_abspath S (strip typed)) = true
            /\ (exists rest,
                  enumerate 1 (images_of S W (os_path_abspath S (strip typed)))
                  = (progress_of t ++ rest)%list
                  /\ (r = Ok tt -> rest = []))
            /\ saved_count t <= Z.of_nat (length (progress_of t))
            /\ (forall n k out,
                  In (EvSay (MsgDone n k out)) t ->
                  r = Ok tt
                  /\ n = Z.of_nat (length (images_of S W (os_path_abspath S (strip typed))))
                  /\ k = reported_count t /\ 0 <= k <= saved_count t))).
Proof.
  unfold main. rewrite !input_nonempty_eq. cbv zeta.
  assert (Hstop : forall (l : list main_event) (r0 : result unit),
            forallb (fun ev => match ev with
                               | EvPrompt _ _ => true
                               | EvSay MsgBanner | EvSay MsgNoPath
                               | EvSay MsgPathMissing | EvSay MsgNoImages => true
                               | _ => false
                               end) l = true ->
            (forall e, r0 = Raise e -> console_raises S W e) ->
            (l, r0) = (t, r) ->
            (forall e, r = Raise e -> console_raises S W e)
            /\ ((progress_of t = []
                 /\ (forall ev, ~ In (EvImage ev) t)
                 /\ (forall n k out, ~ In (EvSay (MsgDone n k out)) t))
                \/ (exists typed,
                      input S 0 = Ok typed
                      /\ strip typed <> ""
                      /\ os_path_exists S (os_path_abspath S (strip typed)) = true
                      /\ (exists rest,
                            enumerate 1 (images_of S W (os_path_abspath S (strip typed)))
                            = (progress_of t ++ rest)%list
                            /\ (r = Ok tt -> rest = []))
                      /\ saved_count t <= Z.of_nat (length (progress_of t))
                      /\ (forall n k out,
                            In (EvSay (MsgDone n k out)) t ->
                            r = Ok tt
                            /\ n = Z.of_nat (length (images_of S W
                                                       (os_path_abspath S (strip typed))))
                            /\ k = reported_count t /\ 0 <= k <= saved_count t)))).
  { intros l r0 Hl Hr [= <- <-]. rewrite forallb_forall in Hl.
    split; [exact Hr|]. left. split; [|split].
    - clear Hr. induction l as [|ev l IH]; [reflexivity|].
      assert (Hev := Hl ev (or_introl eq_refl)).
      change (ev :: l) with ([ev] ++ l)%list. rewrite progress_of_app.
      rewrite IH by (intros x Hx; apply Hl; now right).
      destruct ev as [p d | [] | ev]; try reflexivity; discriminate Hev.
    - intros ev Hin. specialize (Hl _ Hin). discriminate Hl.
    - intros n k out Hin. specialize (Hl _ Hin). discriminate Hl. }
  assert (Hin_raise : forall n e, (n < 5)%nat -> input S n = Raise e ->
                                  forall e', Raise (A := unit) e = Raise e' ->
                                             console_raises S W e').
  { intros n e Hn He e' [= <-]. left. now exists n. }
  assert (Hsay_raise : forall m e, print_line S m = Raise e ->
                                   forall e', Raise (A := unit) e = Raise e' ->
                                              console_raises S W e').
  { intros m e He e' [= <-]. right. left. now exists m. }
  unfold say at 1.
  destruct (print_line S MsgBanner) as [[]|eb] eqn:Hbanner; cycle 1.
  { rewrite prog_bind_raise. intros H.
    refine (Hstop _ _ _ _ H); [reflexivity | exact (Hsay_raise _ _ Hbanner)]. }
  rewrite prog_bind_ok.
  destruct (input S 0) as [typed|e0] eqn:H0; cycle 1.
  { rewrite prog_bind_raise. cbn [fst snd app]. intros H.
    refine (Hstop _ _ _ _ H); [reflexivity | exact (Hin_raise 0%nat _ ltac:(lia) H0)]. }
  rewrite prog_bind_ok. cbn [fst snd app].
  destruct (String.eqb_spec (strip typed) "") as [Hblank|Hne].
  { cbn [String.eqb]. unfold say.
    destruct (print_line S MsgNoPath) as [[]|e] eqn:Hsay; cbn [fst snd app]; intros H.
    - refine (Hstop _ _ _ _ H); [reflexivity | discriminate].
    - refine (Hstop _ _ _ _ H); [reflexivity | exact (Hsay_raise _ _ Hsay)]. }
  destruct (String.eqb_spec (strip typed) "") as [|_]; [contradiction|].
  set (path := os_path_abspath S (strip typed)).
  destruct (os_path_exists S path) eqn:Hexists; cbn [negb]; cycle 1.
  { unfold say.
    destruct (print_line S MsgPathMissing) as [[]|e] eqn:Hsay; cbn [fst snd app]; intros H.
    - refine (Hstop _ _ _ _ H); [reflexivity | discriminate].
    - refine (Hstop _ _ _ _ H); [reflexivity | exact (Hsay_raise _ _ Hsay)]. }
  destruct (input S 1) as [a1|e1] eqn:H1; cycle 1.
  { rewrite prog_bind_raise. cbn [fst snd app]. intros H.
    refine (Hstop _ _ _ _ H); [reflexivity | exact (Hin_raise 1%nat _ ltac:(lia) H1)]. }
  rewrite prog_bind_ok.
  destruct (input S 2) as [a2|e2] eqn:H2; cycle 1.
  { rewrite prog_bind_raise. cbn [fst snd app]. intros H.
    refine (Hstop _ _ _ _ H); [reflexivity | exact (Hin_raise 2%nat _ ltac:(lia) H2)]. }
  rewrite prog_bind_ok.
  destruct (input S 3) as [a3|e3] eqn:H3; cycle 1.
  { rewrite prog_bind_raise. cbn [fst snd app]. intros H.
    refine (Hstop _ _ _ _ H); [reflexivity | exact (Hin_raise 3%nat _ ltac:(lia) H3)]. }
  rewrite prog_bind_ok.
  destruct (input S 4) as [a4|e4] eqn:H4; cycle 1.
  { rewrite prog_bind_raise. cbn [fst snd app]. intros H.
    refine (Hstop _ _ _ _ H); [reflexivity | exact (Hin_raise 4%nat _ ltac:(lia) H4)]. }
  rewrite prog_bind_ok.
  set (font_spec := if String.eqb (strip a1) "" then "0.04" else strip a1).
  set (color := if String.eqb (strip a2) "" then "#FFFFFF" else strip a2).
  set (pos := if String.eqb (strip a3) "" then "bottom-right" else strip a3).
  set (font_path := if String.eqb (strip a4) "" then "" else strip a4).
  assert (Hloop : forall (image_list : list string) (pre tl : list main_event)
                         (rl : result unit),
            progress_of pre = [] -> saved_count pre = 0 -> reported_count pre = 0 ->
            (forall n k out', ~ In (EvSay (MsgDone n k out')) pre) ->
            image_list = images_of S W path ->
            (exists rest, enumerate 1 image_list = (progress_of tl ++ rest)%list
                          /\ (rl = Ok tt -> rest = [])) ->
            saved_count tl <= Z.of_nat (length (progress_of tl)) ->
            (forall e, rl = Raise e -> console_raises S W e) ->
            (forall n k out',
                In (EvSay (MsgDone n k out')) tl ->
                rl = Ok tt /\ n = Z.of_nat (length image_list)
                /\ k = reported_count tl /\ 0 <= k <= saved_count tl) ->
            ((pre ++ tl)%list, rl) = (t, r) ->
            (forall e, r = Raise e -> console_raises S W e)
            /\ ((progress_of t = []
                 /\ (forall ev, ~ In (EvImage ev) t)
                 /\ (forall n k out, ~ In (EvSay (MsgDone n k out)) t))
                \/ (exists typed0,
                      Ok typed = Ok typed0
                      /\ strip typed0 <> ""
                      /\ os_path_exists S (os_path_abspath S (strip typed0)) = true
                      /\ (exists rest,
                            enumerate 1 (images_of S W (os_path_abspath S (strip typed0)))
                            = (progress_of t ++ rest)%list
                            /\ (r = Ok tt -> rest = []))
                      /\ saved_count t <= Z.of_nat (length (progress_of t))
                      /\ (forall n k out,
                            In (EvSay (MsgDone n k out)) t ->
                            r = Ok tt
                            /\ n = Z.of_nat (length (images_of S W
                                                       (os_path_abspath S (strip typed0))))
                            /\ k = reported_count t /\ 0 <= k <= saved_count t)))).
  { intros image_list pre tl rl Hp0 Hs0 Hr0 Hd0 Himgs Hprog Hsc Hraise Hdone [= <- <-].
    split; [exact Hraise|]. right. exists typed. fold path. rewrite <- Himgs.
    split; [reflexivity|]. split; [exact Hne|]. split; [exact Hexists|].
    rewrite progress_of_app, saved_count_app, reported_count_app, Hp0, Hs0, Hr0.
    cbn [app]. split; [exact Hprog|]. split; [lia|].
    intros n k out' Hin.
    apply in_app_or in Hin as [Hin|Hin]; [now apply Hd0 in Hin|].
    destruct (Hdone _ _ _ Hin) as (Hr & Hn & Hk & Hle). repeat split; try assumption; lia. }
  assert (Hd0 : forall n k out',
            ~ In (EvSay (MsgDone n k out'))
                 [EvSay MsgBanner; EvPrompt PromptPath ""; EvPrompt PromptFontSize "0.04";
                  EvPrompt PromptColor "#FFFFFF"; EvPrompt PromptPosition "bottom-right";
                  EvPrompt PromptFontPath ""]).
  { intros n k out' Hin. simpl in Hin.
    repeat (destruct Hin as [Hin|Hin]; [discriminate Hin|]). contradiction. }
  intros H. destruct (os_path_isfile W path) eqn:Hfile.
  - destruct (main_rest_run S W font_path font_spec color pos [path]
                (os_path_join W (os_path_dirname S path)
                   (os_path_basename W (os_path_dirname S path) ++ "_watermark")))
      as (tl & rl & Hrun & Hprog & Hsc & Hraise & Hdone & _).
    rewrite Hrun in H. cbn [fst snd] in H.
    refine (Hloop [path] _ tl rl _ _ _ Hd0 _ Hprog Hsc Hraise Hdone H);
      try reflexivity.
    unfold images_of. now rewrite Hfile.
  - destruct (list_images_in_dir S W path) as [|img rest] eqn:Hlist.
    + unfold say in H.
      destruct (print_line S MsgNoImages) as [[]|e] eqn:Hsay; cbn [fst snd app] in H.
      * refine (Hstop _ _ _ _ H); [reflexivity | discriminate].
      * refine (Hstop _ _ _ _ H); [reflexivity | exact (Hsay_raise _ _ Hsay)].
    + destruct (main_rest_run S W font_path font_spec color pos (img :: rest)
                  (os_path_join W (os_path_abspath S path)
                     (os_path_basename W (os_path_abspath S path) ++ "_watermark")))
        as (tl & rl & Hrun & Hprog & Hsc & Hraise & Hdone & _).
      rewrite Hrun in H. cbn [fst snd] in H.
      refine (Hloop (img :: rest) _ tl rl _ _ _ Hd0 _ Hprog Hsc Hraise Hdone H);
        try reflexivity.
      unfold images_of. now rewrite Hfile.
Qed.



(** X20. The final line of [main] counts what was reported: when it is
    printed the run ends normally, the total is the number of images
    announced, and the success count is the number of saved lines
    printed in the run; it lies between 0 and the number of files saved,
    which is at most the total.  (It is smaller than the number of files
    saved when the line that reports a save could not be printed.) *)
Theorem main_report_counts (S : Shell) (W : World)
        (t : list main_event) (r : result unit) (n k : Z) (out_dir : string) :
  main S W = (t, r) ->
  In (EvSay (MsgDone n k out_dir)) t ->
  r = Ok tt
  /\ n = Z.of_nat (length (progress_of t))
  /\ k = reported_count t
  /\ 0 <= k <= saved_count t
  /\ saved_count t <= n.
Proof.
  intros H Hin.
  apply main_run in H as [_ [(_ & _ & Hnone) | (typed & H)]].
  - now apply Hnone in Hin.
  - destruct H as (_ & _ & _ & (rest & Hprog & Hfull) & Hsc & Hdone).
    apply Hdone in Hin as (Hr & -> & -> & Hk).
    rewrite (Hfull Hr), app_nil_r in Hprog.
    rewrite <- Hprog, enumerate_length in Hsc |- *.
    repeat split; try assumption; lia.
Qed.

Lemma main_report_counts_witness :
  Ok tt = Ok tt
  /\ 2 = Z.of_nat (length (progress_of
           (fst (main (sample_shell (Ok ["z.JPG"; "notes.txt"; "a.png"; "sub"])
                         ["photos"; " "; "red"; "center"; " "])
                      files_world))))
  /\ 2 = reported_count
           (fst (main (sample_shell (Ok ["z.JPG"; "notes.txt"; "a.png"; "sub"])
                         ["photos"; " "; "red"; "center"; " "])
                      files_world))
  /\ 0 <= 2 <= saved_count
                 (fst (main (sample_shell (Ok ["z.JPG"; "notes.txt"; "a.png"; "sub"])
                               ["photos"; " "; "red"; "center"; " "])
                            files_world))
  /\ saved_count
       (fst (main (sample_shell (Ok ["z.JPG"; "notes.txt"; "a.png"; "sub"])
                     ["photos"; " "; "red"; "center"; " "])
                  files_world)) <= 2.
Proof.
  apply (main_report_counts
           (sample_shell (Ok ["z.JPG"; "notes.txt"; "a.png"; "sub"])
              ["photos"; " "; "red"; "center"; " "])
           files_world _ (Ok tt) 2 2 "photos/photos_watermark").
  - vm_compute. reflexivity.
  - vm_compute. repeat (first [left; reflexivity | right]).
Defined.

(** A run that stops midway: on a standard output that cannot encode
    the name of the second image, the first image is announced, saved
    and reported; the line that announces the second one raises, and
    the exception leaves [main] before the image is touched and before
    the line with the count. *)
Example run_on_narrow_output :
  main (narrow_shell (Ok ["a.png"; nino_jpg]) ["photos"; " "; " "; " "; " "])
       narrow_world
  = ([ EvSay MsgBanner; EvPrompt PromptPath ""; EvPrompt PromptFontSize "0.04";
       EvPrompt PromptColor "#FFFFFF"; EvPrompt PromptPosition "bottom-right";
       EvPrompt PromptFontPath "";
       EvSay (MsgFound 2 "photos/photos_watermark");
       EvSay (MsgProgress 1 2 "photos/a.png");
       EvImage (EvOpen "photos/a.png"); EvImage (EvConvert "RGBA");
       EvImage (EvDrawText (929, 778) "2022-07-04" (0, 0, 0));
       EvImage (EvDrawText (929, 780) "2022-07-04" (0, 0, 0));
       EvImage (EvDrawText (931, 778) "2022-07-04" (0, 0, 0));
       EvImage (EvDrawText (931, 780) "2022-07-04" (0, 0, 0));
       EvImage (EvDrawText (930, 779) "2022-07-04" (255, 255, 255));
       EvImage (EvMakedirs "photos/photos_watermark");
       EvImage (EvSave "photos/photos_watermark/a_wm.png" None);
       EvImage (EvPrint (MsgSaved "photos/photos_watermark/a_wm.png")) ],
     Raise UnicodeEncodeError).
Proof. vm_compute. reflexivity. Qed.

(** X21. [main] touches an image only after a path was typed that is not
    blank and exists.  The images it announces are then, numbered from 1
    and in this order, the first ones of the images of that path: the
    path itself when it is a regular file, whatever its extension, and
    else the sorted list that [list_images_in_dir] gives for it; they are
    all of them when the run ends normally, and no more files are saved
    than images are announced. *)
Theorem main_images_in_order (S : Shell) (W : World)
        (t : list main_event) (r : result unit) (ev : event) :
  main S W = (t, r) ->
  In (EvImage ev) t ->
  exists typed rest,
    input S 0 = Ok typed
    /\ strip typed <> ""
    /\ os_path_exists S (os_path_abspath S (strip typed)) = true
    /\ enumerate 1
         (if os_path_isfile W (os_path_abspath S (strip typed))
          then [os_path_abspath S (strip typed)]
          else list_images_in_dir S W (os_path_abspath S (strip typed)))
       = (progress_of t ++ rest)%list
    /\ (r = Ok tt -> rest = [])
    /\ saved_count t <= Z.of_nat (length (progress_of t)).
Proof.
  intros H Hin.
  apply main_run in H as [_ [(_ & Hnone & _) | (typed & H)]].
  - now apply Hnone in Hin.
  - destruct H as (H0 & Hne & Hex & (rest & Hprog & Hfull) & Hsc & _).
    exists typed, rest. repeat split; assumption.
Qed.

Lemma main_images_in_order_witness :
  exists typed rest,
    input (narrow_shell (Ok ["a.png"; nino_jpg]) ["photos"; " "; " "; " "; " "]) 0
    = Ok typed
    /\ strip typed <> ""
    /\ os_path_exists (narrow_shell (Ok ["a.png"; nino_jpg]) ["photos"; " "; " "; " "; " "])
         (os_path_abspath (narrow_shell (Ok ["a.png"; nino_jpg])
                             ["photos"; " "; " "; " "; " "]) (strip typed)) = true
    /\ enumerate 1
         (if os_path_isfile narrow_world
               (os_path_abspath (narrow_shell (Ok ["a.png"; nino_jpg])
                                   ["photos"; " "; " "; " "; " "]) (strip typed))
          then [os_path_abspath (narrow_shell (Ok ["a.png"; nino_jpg])
                                   ["photos"; " "; " "; " "; " "]) (strip typed)]
          else list_images_in_dir
                 (narrow_shell (Ok ["a.png"; nino_jpg]) ["photos"; " "; " "; " "; " "])
                 narrow_world
                 (os_path_abspath (narrow_shell (Ok ["a.png"; nino_jpg])
                                     ["photos"; " "; " "; " "; " "]) (strip typed)))
       = ([(1, "photos/a.png")] ++ rest)%list
    /\ (Raise UnicodeEncodeError = Ok tt -> rest = [])
    /\ saved_count
         (fst (main (narrow_shell (Ok ["a.png"; nino_jpg]) ["photos"; " "; " "; " "; " "])
                    narrow_world))
       <= Z.of_nat (length [(1, "photos/a.png")]).
Proof.
  apply (main_images_in_order
           (narrow_shell (Ok ["a.png"; nino_jpg]) ["photos"; " "; " "; " "; " "])
           narrow_world
           (fst (main (narrow_shell (Ok ["a.png"; nino_jpg]) ["photos"; " "; " "; " "; " "])
                      narrow_world))
           (Raise UnicodeEncodeError) (EvOpen "photos/a.png")).
  - vm_compute. reflexivity.
  - vm_compute. repeat (first [left; reflexivity | right]).
Defined.
